(** * Anti-cheat scoring services of the treasure-hunt game

    A shallow embedding of the heuristic scoring code of the anti-cheat
    service (trust scorer, location verifier, pattern analyzer, fraud
    detector, anomaly detector) together with the properties its
    specification states about it.

    Numbers.  The Python code computes with [float]; here every float is
    read as a real number ([R]), so sums, products, [sqrt], [sin], [cos]
    and [asin] are the exact mathematical operations and no rounding,
    infinity or NaN is modelled.  Comparisons are decided with
    [Rlt_dec]/[Rle_dec].  The exceptions that only float arithmetic
    raises (the overflow of [**] or of the conversion of a large
    integer, a quotient that underflows to 0.0 before a division) have
    no counterpart either: what is stated about a result is stated for
    the calls that return it, and where a property needs moderate
    magnitudes for the floats to follow the reals, the bound is a
    hypothesis.

    Time.  A [datetime] is a number of microseconds ([Z]); the clock
    [datetime.utcnow()] is an argument [now] of the functions reading it.

    State.  The process-lifetime dictionaries of the services are finite
    maps that the functions take and return. *)

From Stdlib Require Import Reals Ratan Lra ZArith Lia List String Ascii.
From Stdlib Require Import Decimal DecimalString.
From stdpp Require Import base option list gmap strings.

Import ListNotations.
Local Open Scope Z_scope.
Local Open Scope string_scope.
Local Open Scope list_scope.
Local Open Scope R_scope.

(** ** Python built-ins used by the services *)

Module Py.

(** [a < b], [a <= b], [a > b], [a >= b] on floats. *)
Definition ltb (a b : R) : bool := if Rlt_dec a b then true else false.
Definition leb (a b : R) : bool := if Rle_dec a b then true else false.
Definition gtb (a b : R) : bool := ltb b a.
Definition geb (a b : R) : bool := leb b a.
Definition eqb (a b : R) : bool := if Req_dec_T a b then true else false.

(** Equality of floats is decidable; it gives [set(...)] of floats. *)
#[export] Instance R_eq_dec : EqDecision R := Req_dec_T.

(** [min(a, b)] keeps [a] unless [b < a]; [max(a, b)] keeps [a] unless
    [b > a]. *)
Definition min (a b : R) : R := if ltb b a then b else a.
Definition max (a b : R) : R := if gtb b a then b else a.

(** [sum(xs)] and [len(xs)] as a float. *)
Definition sum (xs : list R) : R := fold_left Rplus xs 0%R.
Definition len {A} (xs : list A) : R := INR (length xs).

(** [np.mean], [np.var] and [np.std] of a non-empty sequence
    (population variance, [ddof = 0]). *)
Definition mean (xs : list R) : R := (sum xs / len xs)%R.
Definition var (xs : list R) : R :=
  mean (map (fun x => ((x - mean xs) * (x - mean xs))%R) xs).
Definition std (xs : list R) : R := sqrt (var xs).

(** [d.get(key, default)] for a key that may be absent. *)
Definition get {A} (field : option A) (default : A) : A :=
  match field with Some v => v | None => default end.

(** Insertion-ordered dictionaries with string keys, where the order
    of iteration matters: [d.get(key)] and [d[key] = v]. *)
Definition assoc {A} (key : string) (l : list (string * A)) : option A :=
  snd <$> find (fun kv => if decide (fst kv = key) then true else false) l.

Fixpoint assoc_set {A} (key : string) (v : A) (l : list (string * A))
    : list (string * A) :=
  match l with
  | [] => [(key, v)]
  | (k, x) :: rest =>
    if decide (k = key) then (k, v) :: rest else (k, x) :: assoc_set key v rest
  end.

(** [xs[-n:]]: the last [n] elements. *)
Definition last_n {A} (n : nat) (xs : list A) : list A :=
  drop (length xs - n) xs.

(** [c in s] for a character and [s.split(c)]. *)
Fixpoint contains (c : ascii) (s : string) : bool :=
  match s with
  | EmptyString => false
  | String d rest => if decide (d = c) then true else contains c rest
  end.

Fixpoint split (sep : ascii) (s : string) : list string :=
  match s with
  | EmptyString => [EmptyString]
  | String c rest =>
    if decide (c = sep) then EmptyString :: split sep rest
    else
      match split sep rest with
      | [] => [String c EmptyString]
      | piece :: pieces => String c piece :: pieces
      end
  end.

(** Numbers as [str] sees them.  An [int] prints as its decimal
    digits.  A [float] prints as the shortest text that reads back to
    it, in one of the shapes below: positional notation, with a point
    and at least one digit after it ([12.5], [-0.001], [3.0]);
    exponent notation, a mantissa with or without a fraction and an
    exponent of at least two digits ([1e-05], [1.5e+16]); [inf],
    [-inf] or [nan].  A float is given by its shape and digits. *)
Inductive float_repr :=
| Positional (negative : bool) (int_part frac_part : Decimal.uint)
| Scientific (negative : bool) (lead frac_part : Decimal.uint) (exponent : Z)
| Infinity (negative : bool)
| NaN.

Inductive number :=
| PyInt (z : Z)
| PyFloat (f : float_repr).

Definition sign_str (negative : bool) : string :=
  if negative then "-" else "".

Definition exponent_str (e : Z) : string :=
  let digits := NilZero.string_of_uint (N.to_uint (Z.abs_N e)) in
  ((if (e <? 0)%Z then "-" else "+") ++
   (if (String.length digits <? 2)%nat then "0" ++ digits else digits))%string.

Definition str (n : number) : string :=
  match n with
  | PyInt z => NilZero.string_of_int (Z.to_int z)
  | PyFloat (Positional neg i f) =>
    (sign_str neg ++ NilZero.string_of_uint i ++ "." ++ NilZero.string_of_uint f)%string
  | PyFloat (Scientific neg d f e) =>
    (sign_str neg ++ NilZero.string_of_uint d ++
     match f with
     | Nil => ""
     | _ => "." ++ NilEmpty.string_of_uint f
     end ++ "e" ++ exponent_str e)%string
  | PyFloat (Infinity neg) => (sign_str neg ++ "inf")%string
  | PyFloat NaN => "nan"
  end.

(** Exceptions the modelled code can raise, and results of code that
    may raise. *)
Inductive exn :=
| ZeroDivisionError | KeyError | IndexError | TypeError
| LibraryError (name : string).

Inductive res (A : Type) :=
| Ok (a : A)
| Raise (e : exn).
Arguments Ok {A} a.
Arguments Raise {A} e.

Definition bind {A B} (m : res A) (k : A -> res B) : res B :=
  match m with Ok a => k a | Raise e => Raise e end.

(** [a / b] on floats raises [ZeroDivisionError] when [b] is zero. *)
Definition div (a b : R) : res R :=
  if eqb b 0 then Raise ZeroDivisionError else Ok (a / b)%R.

(** A JSON value read where the code expects a number: a number,
    [null], or a string.  Ordering comparisons and arithmetic on the
    last two raise [TypeError]. *)
Inductive jval := JNum (r : R) | JNull | JStr (s : string).

Definition num (v : jval) : res R :=
  match v with JNum r => Ok r | _ => Raise TypeError end.

Definition jlt (v : jval) (c : R) : res bool :=
  match v with JNum r => Ok (ltb r c) | _ => Raise TypeError end.
Definition jgt (v : jval) (c : R) : res bool :=
  match v with JNum r => Ok (gtb r c) | _ => Raise TypeError end.
Definition jge (v : jval) (c : R) : res bool :=
  match v with JNum r => Ok (geb r c) | _ => Raise TypeError end.
Definition jle (v : jval) (c : R) : res bool :=
  match v with JNum r => Ok (leb r c) | _ => Raise TypeError end.

(** Truth value of a JSON value ([if v:]). *)
Definition truthy (v : jval) : bool :=
  match v with
  | JNum r => negb (eqb r 0)
  | JNull => false
  | JStr s => if decide (s = "") then false else true
  end.

(** [math.radians], [math.degrees], [math.atan2(y, x)] and the float
    remainder [x % m] for a positive [m]. *)
Definition radians (x : R) : R := (x * (PI / 180))%R.
Definition degrees (x : R) : R := (x * (180 / PI))%R.
Definition atan2 (y x : R) : R :=
  if ltb 0 x then atan (y / x)
  else if ltb x 0 then
    (if leb 0 y then atan (y / x) + PI else atan (y / x) - PI)%R
  else if ltb 0 y then (PI / 2)%R
  else if ltb y 0 then (- (PI / 2))%R
  else 0%R.
Definition fmod (x m : R) : R := (x - m * IZR (Zfloor (x / m)))%R.

(** [timedelta.days] of the difference of two datetimes: the floor of
    the difference in days. *)
Definition microseconds_per_day : Z := 86400000000%Z.
Definition days_between (now last : Z) : Z :=
  ((now - last) / microseconds_per_day)%Z.

End Py.

Notation "'try!' x := m 'in' k" := (Py.bind m (fun x => k))
  (at level 10, x name, m at level 200, k at level 200).

(** ** models/trust_scorer.py *)

Module TrustScorer.

(** An entry of [self.trust_history]. *)
Record history_entry := HistoryEntry {
  timestamp : Z;
  score : R
}.

Definition decay_factor : R := 0.95%R.

(** [not player_id]: the identifier is missing ([None]) or empty. *)
Definition falsy_id (player_id : option string) : bool :=
  match player_id with
  | None => true
  | Some s => if decide (s = "") then true else false
  end.

(** [_apply_trust_decay]: returns the score and the updated history. *)
Definition _apply_trust_decay (now : Z) (trust_history : gmap string history_entry)
    (player_id : option string) (current_score : R)
    : R * gmap string history_entry :=
  match player_id with
  | None => (current_score, trust_history)
  | Some pid =>
    if falsy_id player_id then (current_score, trust_history)
    else
      match trust_history !! pid with
      | Some entry =>
        let last_update := timestamp entry in
        let days_passed := Py.days_between now last_update in
        let decayed_score := (current_score * powerRZ decay_factor days_passed)%R in
        (decayed_score,
         <[pid := HistoryEntry now decayed_score]> trust_history)
      | None =>
        (current_score,
         <[pid := HistoryEntry now current_score]> trust_history)
      end
  end.

(** The keys of [player_data] the scorer reads; [None] is an absent
    key, replaced by the default of the [get] that reads it. *)
Record player_data := PlayerData {
  player_id : option string;
  solving_times : list R;
  success_pattern : list Z;
  movement_consistency : option R;
  success_rate : option R;
  account_age_days : option R;
  achievements : option R;
  total_play_time : option R;
  collaboration_score : option R;
  communication_quality : option R;
  reports_received : option R;
  positive_feedback : option R;
  device_consistency : option R;
  connection_stability : option R;
  location_consistency : option R;
  usual_playing_hours : option bool;
  session_length_consistency : option R;
  play_frequency_consistency : option R
}.

(** [verification_results['location']]. *)
Record location_analysis := LocationAnalysis {
  gps_trust : option R;
  movement_plausibility : option R;
  spoofing_indicators : list string
}.

Record verification_results := VerificationResults {
  location : option location_analysis
}.

Definition empty_location_analysis : location_analysis :=
  LocationAnalysis None None [].

Definition _calculate_behavior_consistency (pd : player_data) : R :=
  let indicators0 : list R := [] in
  let times := solving_times pd in
  let indicators1 :=
    if (2 <? length times)%nat then
      let time_consistency :=
        (1 - (if Py.gtb (Py.mean times) 0
              then Py.std times / Py.mean times else 1))%R in
      indicators0 ++ [Py.max 0 time_consistency]
    else indicators0 in
  let pattern := success_pattern pd in
  let indicators2 :=
    match pattern with
    | [] => indicators1
    | _ =>
      let unique_sequences := Py.len (remove_dups pattern) in
      let sequence_consistency := (1 - unique_sequences / Py.len pattern)%R in
      indicators1 ++ [sequence_consistency]
    end in
  let indicators3 := indicators2 ++ [Py.get (movement_consistency pd) 0.7%R] in
  match indicators3 with
  | [] => 0.5%R
  | _ => Py.mean indicators3
  end.

Definition _calculate_location_trust (vr : verification_results) : R :=
  let la := Py.get (location vr) empty_location_analysis in
  let spoofing_penalty := (1 - Py.len (spoofing_indicators la) * 0.2)%R in
  Py.mean [Py.get (gps_trust la) 0.5%R;
           Py.get (movement_plausibility la) 0.5%R;
           Py.max 0.1 spoofing_penalty].

Definition _calculate_historical_performance (pd : player_data) : Py.res R :=
  let rate := Py.get (success_rate pd) 0.5%R in
  let age := Py.get (account_age_days pd) 1%R in
  let longevity_bonus := Py.min 0.3 (age / 100) in
  let ach := Py.get (achievements pd) 0%R in
  let play_time := Py.get (total_play_time pd) 1%R in
  try! per_hour := Py.div ach (play_time / 3600) in
  let achievement_density := Py.min 1 per_hour in
  Py.Ok (Py.mean [rate; (0.7 + longevity_bonus)%R; achievement_density]).

Definition _calculate_social_behavior (pd : player_data) : R :=
  let reports_penalty :=
    (1 - Py.min 0.5 (Py.get (reports_received pd) 0 * 0.1))%R in
  let feedback_bonus := Py.min 0.2 (Py.get (positive_feedback pd) 0 * 0.05)%R in
  Py.mean [Py.get (collaboration_score pd) 0.5%R;
           Py.get (communication_quality pd) 0.5%R;
           reports_penalty;
           (0.8 + feedback_bonus)%R].

Definition _calculate_device_reputation (pd : player_data) : R :=
  Py.mean [Py.get (device_consistency pd) 0.8%R;
           Py.get (connection_stability pd) 0.7%R;
           Py.get (location_consistency pd) 0.6%R].

Definition _calculate_temporal_consistency (pd : player_data) : R :=
  Py.mean [(if Py.get (usual_playing_hours pd) true then 0.9 else 0.5)%R;
           Py.get (session_length_consistency pd) 0.7%R;
           Py.get (play_frequency_consistency pd) 0.6%R].

Definition _determine_trust_level (trust_score : R) : string :=
  if Py.geb trust_score 0.9 then "excellent"
  else if Py.geb trust_score 0.8 then "high"
  else if Py.geb trust_score 0.7 then "good"
  else if Py.geb trust_score 0.6 then "fair"
  else if Py.geb trust_score 0.4 then "low"
  else "restricted".

(** [component_scores], in insertion order, and [self.trust_weights]. *)
Definition trust_weights : list (string * R) :=
  [("behavior_consistency", 0.25%R);
   ("location_verification", 0.20%R);
   ("historical_performance", 0.20%R);
   ("social_behavior", 0.15%R);
   ("device_reputation", 0.10%R);
   ("temporal_patterns", 0.10%R)].

Definition _calculate_confidence (component_scores : list (string * R)) : R :=
  let scores := map snd component_scores in
  if (length scores <? 2)%nat then 0.5%R
  else
    let variance := Py.var scores in
    let consistency := (1 - Py.min 1 (variance * 5))%R in
    let data_sufficiency := Py.min 1 (Py.len scores / 6) in
    ((consistency + data_sufficiency) / 2)%R.

Definition _generate_trust_recommendations (component_scores : list (string * R))
    : list string :=
  let get key := Py.get (Py.assoc key component_scores) 0%R in
  (if Py.ltb (get "behavior_consistency") 0.7
   then ["Improve behavior consistency"] else []) ++
  (if Py.ltb (get "location_verification") 0.6
   then ["Verify location accuracy"] else []) ++
  (if Py.ltb (get "social_behavior") 0.5
   then ["Engage in positive social interactions"] else []) ++
  (if Py.ltb (get "device_reputation") 0.6
   then ["Maintain consistent device usage"] else []).

Record trust_result := TrustResult {
  trust_score : R;
  trust_level : string;
  component_scores : list (string * R);
  confidence : R;
  recommendations : list string
}.

(** The weighted sum of the loop over [self.trust_weights]; a missing
    component is a [KeyError]. *)
Fixpoint weighted_sum (weights : list (string * R)) (scores : list (string * R))
    (acc : R) : Py.res R :=
  match weights with
  | [] => Py.Ok acc
  | (component, weight) :: rest =>
    match Py.assoc component scores with
    | Some s => weighted_sum rest scores (acc + s * weight)%R
    | None => Py.Raise Py.KeyError
    end
  end.

Definition calculate_trust_score (now : Z) (trust_history : gmap string history_entry)
    (pd : player_data) (vr : verification_results)
    : Py.res (trust_result * gmap string history_entry) :=
  let behavior := _calculate_behavior_consistency pd in
  let location := _calculate_location_trust vr in
  try! historical := _calculate_historical_performance pd in
  let social := _calculate_social_behavior pd in
  let device := _calculate_device_reputation pd in
  let temporal := _calculate_temporal_consistency pd in
  let scores :=
    [("behavior_consistency", behavior);
     ("location_verification", location);
     ("historical_performance", historical);
     ("social_behavior", social);
     ("device_reputation", device);
     ("temporal_patterns", temporal)] in
  try! weighted := weighted_sum trust_weights scores 0%R in
  let '(decayed, history') :=
    _apply_trust_decay now trust_history (player_id pd) weighted in
  Py.Ok (TrustResult (Py.max 0 (Py.min 1 decayed))
                     (_determine_trust_level decayed)
                     scores
                     (_calculate_confidence scores)
                     (_generate_trust_recommendations scores),
         history').

End TrustScorer.

(** ** services/location_verification.py *)

Module LocationVerificationService.

Import Py.

(** Entries of the [issues] lists.  The Python code formats them as
    text with the offending number interpolated; the number is kept as
    an argument. *)
Inductive issue :=
| PoorGpsAccuracy (accuracy : R)
| LowSatelliteCount (satellite_count : R)
| WeakGpsSignal (signal_strength : R)
| MockLocationProvider
| NoWifiNetworks
| FoundKnownNetworks (count : nat)
| NoCellTowers
| NoBluetoothDevices
| NoIpAddress
| VpnOrProxy
| IpLocationMismatch (distance : R)
| InsufficientMovementData
| UnnaturalMovementSpeed (speed : R)
| StraightMovement
| RepetitiveMovement.

(** ['mock' in issue.lower()]: only the mock-provider message contains
    the word. *)
Definition mentions_mock (i : issue) : bool :=
  match i with MockLocationProvider => true | _ => false end.

Record gps_data := GpsData {
  accuracy : option jval;
  satellite_count : option jval;
  signal_strength : option jval;
  is_mock_provider : option bool;
  altitude : option jval;
  latitude : option jval;
  longitude : option jval
}.

Record network := Network {
  net_signal_strength : option jval;
  ssid : option string
}.

Record wifi_data := WifiData { networks : option (list network) }.

Record tower := Tower {
  tower_signal_strength : option jval;
  provider : option string
}.

Record cell_data := CellData { towers : option (list tower) }.

Record bluetooth_data := BluetoothData { devices : option (list jval) }.

Record ip_data := IpData {
  address : option string;
  is_vpn : option bool;
  is_proxy : option bool;
  ip_latitude : option jval;
  ip_longitude : option jval
}.

Record location_data := LocationData {
  gps : option gps_data;
  wifi : option wifi_data;
  cell : option cell_data;
  bluetooth : option bluetooth_data;
  ip : option ip_data
}.

Definition empty_gps : gps_data := GpsData None None None None None None None.
Definition empty_wifi : wifi_data := WifiData None.
Definition empty_cell : cell_data := CellData None.
Definition empty_bluetooth : bluetooth_data := BluetoothData None.
Definition empty_ip : ip_data := IpData None None None None None.

(** What a verification method returns.  The keys read later
    ([network_count], [is_vpn], [is_proxy]) are present only in the
    results that set them; [error] is set by the handler of the
    caller.  Keys that only echo inputs are left out. *)
Record method_result := MethodResult {
  verified : bool;
  confidence : R;
  issues : list issue;
  network_count : option nat;
  result_is_vpn : option bool;
  result_is_proxy : option bool;
  error : option exn
}.

Definition _check_altitude_consistency (g : gps_data) : res bool :=
  match altitude g with
  | None => Ok false
  | Some alt =>
    if negb (truthy alt) then Ok false
    else
      try! lower := jge alt (-100) in
      if lower then jle alt 9000 else Ok false
  end.

Definition _verify_gps_location (ld : location_data) : res method_result :=
  let g := get (gps ld) empty_gps in
  let confidence0 := 0%R in
  let issues0 : list issue := [] in
  let acc := get (accuracy g) (JNum 0) in
  try! acc_lt_10 := jlt acc 10 in
  try! step1 :=
    (if acc_lt_10 then Ok (confidence0 + 0.4, issues0)%R
     else
       try! acc_lt_50 := jlt acc 50 in
       if acc_lt_50 then Ok (confidence0 + 0.3, issues0)%R
       else
         try! acc_lt_100 := jlt acc 100 in
         if acc_lt_100 then Ok (confidence0 + 0.2, issues0)%R
         else
           try! a := num acc in
           Ok (confidence0 + 0.1, issues0 ++ [PoorGpsAccuracy a])%R) in
  let '(confidence1, issues1) := step1 in
  let sat := get (satellite_count g) (JNum 0) in
  try! sat_ge_10 := jge sat 10 in
  try! step2 :=
    (if sat_ge_10 then Ok (confidence1 + 0.3, issues1)%R
     else
       try! sat_ge_5 := jge sat 5 in
       if sat_ge_5 then Ok (confidence1 + 0.2, issues1)%R
       else
         try! n := num sat in
         Ok (confidence1 + 0.1, issues1 ++ [LowSatelliteCount n])%R) in
  let '(confidence2, issues2) := step2 in
  let sig := get (signal_strength g) (JNum (-1)) in
  try! sig_gt_80 := jgt sig (-80) in
  try! step3 :=
    (if sig_gt_80 then Ok (confidence2 + 0.2, issues2)%R
     else
       try! sig_gt_100 := jgt sig (-100) in
       if sig_gt_100 then Ok (confidence2 + 0.1, issues2)%R
       else
         try! s := num sig in
         Ok (confidence2, issues2 ++ [WeakGpsSignal s])) in
  let '(confidence3, issues3) := step3 in
  let '(confidence4, issues4) :=
    if get (is_mock_provider g) false
    then ((confidence3 * 0.1)%R, issues3 ++ [MockLocationProvider])
    else (confidence3, issues3) in
  try! altitude_ok := _check_altitude_consistency g in
  let confidence5 := if altitude_ok then (confidence4 + 0.1)%R else confidence4 in
  Ok (MethodResult (geb confidence5 0.6) (min 1 confidence5) issues4
                   None None None None).

Definition _identify_known_networks (nets : list network) : list string :=
  let known_ssids := ["HomeNetwork"; "OfficeWiFi"; "PublicWiFi"] in
  omap (fun net =>
          let s := get (ssid net) "" in
          if decide (s ∈ known_ssids) then Some s else None) nets.

Definition _check_network_stability (w : wifi_data) : bool := true.

(** [sum(signal_strengths)] over JSON values. *)
Fixpoint sum_jvals (vs : list jval) (acc : R) : res R :=
  match vs with
  | [] => Ok acc
  | v :: rest => try! r := num v in sum_jvals rest (acc + r)%R
  end.

Definition _verify_wifi_fingerprint (ld : location_data) : res method_result :=
  let w := get (wifi ld) empty_wifi in
  let nets := get (networks w) [] in
  match nets with
  | [] => Ok (MethodResult false 0 [NoWifiNetworks] (Some 0%nat) None None None)
  | _ =>
    let confidence0 := 0%R in
    let count := length nets in
    let confidence1 :=
      (if (5 <=? count)%nat then confidence0 + 0.4
       else if (3 <=? count)%nat then confidence0 + 0.3
       else if (1 <=? count)%nat then confidence0 + 0.2
       else confidence0 + 0.1)%R in
    let signal_strengths :=
      map (fun net => get (net_signal_strength net) (JNum (-100))) nets in
    try! total := sum_jvals signal_strengths 0 in
    let avg_signal := (total / len signal_strengths)%R in
    let confidence2 :=
      (if gtb avg_signal (-60) then confidence1 + 0.3
       else if gtb avg_signal (-70) then confidence1 + 0.2
       else if gtb avg_signal (-80) then confidence1 + 0.1
       else confidence1)%R in
    let known_networks := _identify_known_networks nets in
    let '(confidence3, issues3) :=
      match known_networks with
      | [] => (confidence2, [])
      | _ => ((confidence2 + 0.2)%R, [FoundKnownNetworks (length known_networks)])
      end in
    let confidence4 :=
      if _check_network_stability w then (confidence3 + 0.1)%R else confidence3 in
    Ok (MethodResult (geb confidence4 0.5) (min 1 confidence4) issues3
                     (Some count) None None None)
  end.

Definition _check_tower_consistency (ts : list tower) : bool :=
  if (length ts <? 2)%nat then false
  else
    let providers := remove_dups (map (fun t => get (provider t) "") ts) in
    (length providers <=? 2)%nat.

(** The loop over the towers of [_verify_cell_towers]. *)
Fixpoint tower_signal_bonus (ts : list tower) (confidence : R) : res R :=
  match ts with
  | [] => Ok confidence
  | t :: rest =>
    let sig := get (tower_signal_strength t) (JNum (-100)) in
    try! strong := jgt sig (-80) in
    if strong then tower_signal_bonus rest (confidence + 0.1)%R
    else
      try! fair := jgt sig (-90) in
      if fair then tower_signal_bonus rest (confidence + 0.05)%R
      else tower_signal_bonus rest confidence
  end.

Definition _verify_cell_towers (ld : location_data) : res method_result :=
  let c := get (cell ld) empty_cell in
  let ts := get (towers c) [] in
  match ts with
  | [] => Ok (MethodResult false 0 [NoCellTowers] None None None None)
  | _ =>
    let confidence0 := 0%R in
    let count := length ts in
    let confidence1 :=
      (if (3 <=? count)%nat then confidence0 + 0.5
       else if (2 <=? count)%nat then confidence0 + 0.3
       else confidence0 + 0.1)%R in
    try! confidence2 := tower_signal_bonus ts confidence1 in
    let confidence3 :=
      if _check_tower_consistency ts then (confidence2 + 0.2)%R else confidence2 in
    let confidence4 := min 0.8 confidence3 in
    Ok (MethodResult (geb confidence4 0.4) confidence4 [] None None None None)
  end.

Definition _verify_bluetooth_beacons (ld : location_data) : res method_result :=
  let b := get (bluetooth ld) empty_bluetooth in
  let devs := get (devices b) [] in
  match devs with
  | [] => Ok (MethodResult false 0 [NoBluetoothDevices] None None None None)
  | _ =>
    let count := length devs in
    let confidence :=
      (if (3 <=? count)%nat then 0.6
       else if (2 <=? count)%nat then 0.4
       else 0.2)%R in
    Ok (MethodResult (geb confidence 0.4) confidence [] None None None None)
  end.

(** A point of a location history, or a point built from two
    coordinates: [lat] and [lon] are read with [loc['lat']], which
    raises [KeyError] on an absent key; [timestamp] is read with a
    default. *)
Record location := Location {
  lat : option R;
  lon : option R;
  timestamp : option R
}.

Definition index {A} (field : option A) : res A :=
  match field with Some v => Ok v | None => Raise KeyError end.

(** The haversine formula on coordinates in degrees.  [math.sqrt] and
    [math.asin] raise outside their domains; their argument here always
    lies in [0, 1], so they are the total functions of the reals. *)
Definition haversine (lat1_deg lon1_deg lat2_deg lon2_deg : R) : R :=
  let lat1 := radians lat1_deg in
  let lon1 := radians lon1_deg in
  let lat2 := radians lat2_deg in
  let lon2 := radians lon2_deg in
  let dlat := (lat2 - lat1)%R in
  let dlon := (lon2 - lon1)%R in
  let a := (sin (dlat / 2) ^ 2 + cos lat1 * cos lat2 * sin (dlon / 2) ^ 2)%R in
  let c := (2 * asin (sqrt a))%R in
  (6371000 * c)%R.

Definition _calculate_distance (loc1 loc2 : location) : res R :=
  try! lat1 := index (lat loc1) in
  try! lon1 := index (lon loc1) in
  try! lat2 := index (lat loc2) in
  try! lon2 := index (lon loc2) in
  Ok (haversine lat1 lon1 lat2 lon2).

Definition some_truthy (v : option jval) : bool :=
  match v with Some x => truthy x | None => false end.

(** [if gps_data:] holds for a non-empty dictionary; for an empty one
    the coordinates read next are absent and the inner test fails, so
    the test on the modelled keys decides the same branch. *)
Definition gps_nonempty (g : gps_data) : bool :=
  match g with
  | GpsData None None None None None None None => false
  | _ => true
  end.

Definition _verify_ip_geolocation (ld : location_data) : res method_result :=
  let d := get (ip ld) empty_ip in
  let ip_address := get (address d) "" in
  if decide (ip_address = "")
  then Ok (MethodResult false 0 [NoIpAddress] None None None None)
  else
    let vpn := get (is_vpn d) false in
    let proxy := get (is_proxy d) false in
    let '(confidence1, issues1) :=
      if vpn || proxy then (0.1%R, [VpnOrProxy]) else (0.5%R, []) in
    let g := get (gps ld) empty_gps in
    try! step :=
      (if gps_nonempty g
          && some_truthy (ip_latitude d) && some_truthy (ip_longitude d)
          && some_truthy (latitude g) && some_truthy (longitude g)
       then
         try! ip_lat := num (get (ip_latitude d) JNull) in
         try! ip_lon := num (get (ip_longitude d) JNull) in
         try! gps_lat := num (get (latitude g) JNull) in
         try! gps_lon := num (get (longitude g) JNull) in
         try! distance :=
           _calculate_distance (Location (Some ip_lat) (Some ip_lon) None)
                               (Location (Some gps_lat) (Some gps_lon) None) in
         if ltb distance 50000 then Ok ((confidence1 + 0.3)%R, issues1)
         else Ok ((confidence1 * 0.5)%R, issues1 ++ [IpLocationMismatch distance])
       else Ok (confidence1, issues1)) in
    let '(confidence2, issues2) := step in
    Ok (MethodResult (geb confidence2 0.4) (min 1 confidence2) issues2
                     None (Some vpn) (Some proxy) None).

(** [self.verification_methods] and the local [method_weights]. *)
Definition verification_methods
    : list (string * (location_data -> res method_result)) :=
  [("gps", _verify_gps_location);
   ("wifi", _verify_wifi_fingerprint);
   ("cell", _verify_cell_towers);
   ("bluetooth", _verify_bluetooth_beacons);
   ("ip", _verify_ip_geolocation)].

Definition method_weights : list (string * R) :=
  [("gps", 0.4%R); ("wifi", 0.25%R); ("cell", 0.2%R);
   ("bluetooth", 0.1%R); ("ip", 0.05%R)].

(** The entry the exception handler stores for a failed method. *)
Definition failed (e : exn) : method_result :=
  MethodResult false 0 [] None None None (Some e).

(** One iteration of the loop over the methods: the [try] block and
    its handler. *)
Definition run_method (ld : location_data)
    (state : list (string * method_result) * R)
    (m : string * (location_data -> res method_result))
    : list (string * method_result) * R :=
  let '(verification_results, overall_confidence) := state in
  let '(method_name, method_func) := m in
  match method_func ld with
  | Ok result =>
    let verification_results' := assoc_set method_name result verification_results in
    match assoc method_name method_weights with
    | Some weight =>
      (verification_results',
       (overall_confidence + confidence result * weight)%R)
    | None =>
      (assoc_set method_name (failed KeyError) verification_results',
       overall_confidence)
    end
  | Raise e =>
    (assoc_set method_name (failed e) verification_results, overall_confidence)
  end.

Definition _identify_location_risk_factors
    (verification_results : list (string * method_result)) : list string :=
  let gps_result := assoc "gps" verification_results in
  let wifi_result := assoc "wifi" verification_results in
  let ip_result := assoc "ip" verification_results in
  (if ltb (get (confidence <$> gps_result) 0%R) 0.3
   then ["low_gps_confidence"] else []) ++
  (if existsb mentions_mock (get (issues <$> gps_result) [])
   then ["mock_location_detected"] else []) ++
  (if (get (wifi_result ≫= network_count) 0 =? 0)%nat
   then ["no_wifi_networks"] else []) ++
  (if get (ip_result ≫= result_is_vpn) false then ["vpn_usage"] else []) ++
  (if get (ip_result ≫= result_is_proxy) false then ["proxy_usage"] else []).

Definition _generate_verification_recommendations
    (verification_results : list (string * method_result)) : list string :=
  let gps_result := assoc "gps" verification_results in
  let wifi_result := assoc "wifi" verification_results in
  let ip_result := assoc "ip" verification_results in
  let recommendations :=
    (if ltb (get (confidence <$> gps_result) 0%R) 0.6
     then ["Improve GPS signal by moving to open area"] else []) ++
    (if (get (wifi_result ≫= network_count) 0 <? 3)%nat
     then ["Connect to more WiFi networks for better accuracy"] else []) ++
    (if get (ip_result ≫= result_is_vpn) false
     then ["Disable VPN for more accurate location verification"] else []) in
  match recommendations with
  | [] => ["Location verification is strong"]
  | _ => recommendations
  end.

Record verification := Verification {
  is_verified : bool;
  overall_confidence : R;
  method_results : list (string * method_result);
  risk_factors : list string;
  verification_recommendations : list string;
  verification_time : Z
}.

Definition comprehensive_location_verification (now : Z) (ld : location_data)
    : verification :=
  let '(verification_results, overall) :=
    fold_left (run_method ld) verification_methods ([], 0%R) in
  Verification (geb overall 0.7) overall verification_results
    (_identify_location_risk_factors verification_results)
    (_generate_verification_recommendations verification_results)
    now.

(** *** Movement patterns *)

Record movement_result := MovementResult {
  natural_movement : bool;
  movement_confidence : R;
  movement_issues : list issue;
  data_points : option nat
}.

(** The speed test of one iteration of the teleportation loop:
    [Some speed] when the pair is penalised. *)
Definition unnatural_speed (prev curr : location) : res (option R) :=
  try! distance := _calculate_distance prev curr in
  let time_diff := (get (timestamp curr) 0 - get (timestamp prev) 0)%R in
  if gtb time_diff 0 then
    let speed := (distance / time_diff)%R in
    if gtb speed 50 then Ok (Some speed) else Ok None
  else Ok None.

(** The loop [for i in range(1, len(location_history))]. *)
Fixpoint teleportation_loop (prev : location) (rest : list location)
    (state : list issue * R) : res (list issue * R) :=
  match rest with
  | [] => Ok state
  | curr :: rest' =>
    try! penalty := unnatural_speed prev curr in
    let '(issues, natural_score) := state in
    let state' :=
      match penalty with
      | Some speed => (issues ++ [UnnaturalMovementSpeed speed],
                       (natural_score * 0.5)%R)
      | None => state
      end in
    teleportation_loop curr rest' state'
  end.

Definition _calculate_bearing (point1 point2 : location) : res R :=
  try! lat1d := index (lat point1) in
  try! lon1d := index (lon point1) in
  try! lat2d := index (lat point2) in
  try! lon2d := index (lon point2) in
  let lat1 := radians lat1d in
  let lon1 := radians lon1d in
  let lat2 := radians lat2d in
  let lon2 := radians lon2d in
  let dlon := (lon2 - lon1)%R in
  let x := (sin dlon * cos lat2)%R in
  let y := (cos lat1 * sin lat2 - sin lat1 * cos lat2 * cos dlon)%R in
  let bearing := atan2 x y in
  Ok (fmod (degrees bearing) 360).

Definition _calculate_variance (values : list R) : R :=
  if (length values <? 2)%nat then 0%R
  else
    let mean := (sum values / len values)%R in
    (sum (map (fun x => (x - mean) ^ 2)%R values) / len values)%R.

Fixpoint bearings (prev : location) (rest : list location) : res (list R) :=
  match rest with
  | [] => Ok []
  | curr :: rest' =>
    try! b := _calculate_bearing prev curr in
    try! bs := bearings curr rest' in
    Ok (b :: bs)
  end.

Definition _check_straight_line_movement (locations : list location) : res bool :=
  if (length locations <? 4)%nat then Ok false
  else
    match locations with
    | [] => Ok false
    | first :: rest =>
      try! bs := bearings first rest in
      Ok (ltb (_calculate_variance bs) 10)
    end.

Fixpoint coordinate_pairs (locations : list location) : res (list (R * R)) :=
  match locations with
  | [] => Ok []
  | loc :: rest =>
    try! la := index (lat loc) in
    try! lo := index (lon loc) in
    try! ps := coordinate_pairs rest in
    Ok ((la, lo) :: ps)
  end.

Definition _check_repetitive_patterns (locations : list location) : res bool :=
  if (length locations <? 6)%nat then Ok false
  else
    try! coordinates := coordinate_pairs locations in
    let unique_coords := remove_dups coordinates in
    let duplicate_ratio := (1 - len unique_coords / len coordinates)%R in
    Ok (gtb duplicate_ratio 0.3).

Definition verify_movement_patterns (location_history : list location)
    : res movement_result :=
  if (length location_history <? 3)%nat
  then Ok (MovementResult true 0.5 [InsufficientMovementData] None)
  else
    match location_history with
    | [] => Ok (MovementResult true 0.5 [InsufficientMovementData] None)
    | first :: rest =>
      try! state1 := teleportation_loop first rest ([], 1%R) in
      let '(issues1, score1) := state1 in
      try! straight := _check_straight_line_movement location_history in
      let '(issues2, score2) :=
        if straight then (issues1 ++ [StraightMovement], (score1 * 0.7)%R)
        else (issues1, score1) in
      try! repetitive := _check_repetitive_patterns location_history in
      let '(issues3, score3) :=
        if repetitive then (issues2 ++ [RepetitiveMovement], (score2 * 0.8)%R)
        else (issues2, score2) in
      Ok (MovementResult (geb score3 0.6) score3 issues3
                         (Some (length location_history)))
    end.

End LocationVerificationService.

(** ** services/pattern_analyzer.py *)

Module PatternAnalyzer.

Import Py.

(** Entries of the evidence lists; the interpolated number is kept as
    an argument. *)
Inductive evidence_item :=
| ExtremelyFastSolving (avg : R)
| VeryFastSolving (avg : R)
| PerfectSuccessRate (rate : R)
| ImpossibleMovements (count : nat)
| GpsInconsistencies (gps_issues : list string)
| MockProvider
| DeviceUsedForAccounts (count : nat)
| MultipleAccountsFromIp (count : R)
| HighBehavioralSimilarity (similarity : R)
| SuspiciousTimingConsistency (consistency : R)
| PerfectMovementEfficiency (efficiency : R)
| MechanicalInteraction
| InformationSharing
| CoordinatedSolving
| HighDensityNetwork (density : R).

Record pattern_config := PatternConfig {
  threshold : R;
  indicators : list string;
  weight : R;
  description : string
}.

Definition _load_cheating_patterns : list (string * pattern_config) :=
  [("speed_hacking",
    PatternConfig 0.8 ["avg_solving_time < 30"; "success_rate > 0.95"] 0.9
                  "Solving clues unrealistically fast");
   ("location_spoofing",
    PatternConfig 0.7 ["impossible_movements"; "gps_inconsistencies"] 0.8
                  "Fake location data");
   ("multiple_accounts",
    PatternConfig 0.6 ["same_device_id"; "similar_behavior"] 0.7
                  "Multiple accounts from same user");
   ("automation_detection",
    PatternConfig 0.75 ["consistent_timing"; "perfect_precision"] 0.85
                  "Bot-like behavior patterns");
   ("collaborative_cheating",
    PatternConfig 0.65 ["information_sharing"; "coordinated_solves"] 0.6
                  "Group cheating patterns")].

(** [self.cheating_patterns], set by the constructor. *)
Definition cheating_patterns := _load_cheating_patterns.

Record waypoint := Waypoint {
  lat : option R;
  lon : option R;
  timestamp : option R
}.

Record location_info := LocationInfo {
  movement_history : list waypoint;
  gps_issues : list string;
  is_mock_provider : option bool
}.

Record movement_info := MovementInfo { perfect_linearity : option bool }.

Record interaction_info := InteractionInfo {
  click_intervals : list R;
  movement_patterns : option movement_info
}.

Record communication_info := CommunicationInfo {
  message_frequency : option R;
  solution_sharing : option R
}.

Record player_data := PlayerData {
  player_id : option string;
  solving_times : list R;
  success_rate : option R;
  location_data : option location_info;
  device_fingerprint : option string;
  ip_address : option string;
  interaction_patterns : option interaction_info;
  movement_efficiency : option R;
  social_connections : list string;
  communication_patterns : option communication_info
}.

Record game_context := GameContext {
  similar_devices : list (option string);
  accounts_per_ip : gmap string R;
  similar_players : list string;
  coordinated_actions : list (option string)
}.

Definition empty_location_info : location_info := LocationInfo [] [] None.
Definition empty_interaction_info : interaction_info := InteractionInfo [] None.
Definition empty_communication_info : communication_info :=
  CommunicationInfo None None.

(** The process-lifetime dictionaries: per-player pattern scores with
    their time, and the times of the detections of every pattern. *)
Record state := State {
  player_patterns : gmap string (gmap string (list (R * Z)));
  global_patterns : gmap string (list Z)
}.

Definition _analyze_speed_hacking (pd : player_data) (ctx : game_context)
    : R * list evidence_item :=
  let evidence0 : list evidence_item := [] in
  let score0 := 0%R in
  let times := solving_times pd in
  let rate := get (success_rate pd) 0.5%R in
  let '(score1, evidence1) :=
    match times with
    | [] => (score0, evidence0)
    | _ =>
      let avg_solving_time := mean times in
      if ltb avg_solving_time 20
      then ((score0 + 0.8)%R, evidence0 ++ [ExtremelyFastSolving avg_solving_time])
      else if ltb avg_solving_time 40
      then ((score0 + 0.5)%R, evidence0 ++ [VeryFastSolving avg_solving_time])
      else (score0, evidence0)
    end in
  let '(score2, evidence2) :=
    if gtb rate 0.95 && (5 <? length times)%nat
    then ((score1 + 0.3)%R, evidence1 ++ [PerfectSuccessRate rate])
    else (score1, evidence1) in
  (min 1 score2, evidence2).

(** The simplified distance of this module. *)
Definition _calculate_distance (loc1 loc2 : waypoint) : R :=
  let lat_diff := Rabs (get (lat loc1) 0 - get (lat loc2) 0) in
  let lon_diff := Rabs (get (lon loc1) 0 - get (lon loc2) 0) in
  ((lat_diff + lon_diff) * 111000)%R.

Fixpoint impossible_loop (prev : waypoint) (rest : list waypoint)
    (impossible_count : nat) : nat :=
  match rest with
  | [] => impossible_count
  | curr :: rest' =>
    let distance := _calculate_distance prev curr in
    let time_diff := (get (timestamp curr) 0 - get (timestamp prev) 0)%R in
    let count' :=
      if gtb time_diff 0 then
        let speed := (distance / time_diff)%R in
        if gtb speed 100 then S impossible_count else impossible_count
      else impossible_count in
    impossible_loop curr rest' count'
  end.

Definition _detect_impossible_movements (history : list waypoint) : nat :=
  match history with
  | [] => 0
  | first :: rest => impossible_loop first rest 0
  end.

Definition _analyze_location_spoofing (pd : player_data) (ctx : game_context)
    : R * list evidence_item :=
  let evidence0 : list evidence_item := [] in
  let score0 := 0%R in
  let ld := get (location_data pd) empty_location_info in
  let impossible_movements := _detect_impossible_movements (movement_history ld) in
  let '(score1, evidence1) :=
    if (0 <? impossible_movements)%nat
    then ((score0 + 0.6)%R, evidence0 ++ [ImpossibleMovements impossible_movements])
    else (score0, evidence0) in
  let '(score2, evidence2) :=
    match gps_issues ld with
    | [] => (score1, evidence1)
    | gi => ((score1 + 0.4)%R, evidence1 ++ [GpsInconsistencies gi])
    end in
  let '(score3, evidence3) :=
    if get (is_mock_provider ld) false
    then ((score2 + 0.8)%R, evidence2 ++ [MockProvider])
    else (score2, evidence2) in
  (min 1 score3, evidence3).

Definition _calculate_behavioral_similarity (pd : player_data) (ctx : game_context)
    : R :=
  match similar_players ctx with
  | [] => 0%R
  | sp => min 0.9 (len sp * 0.1)
  end.

Definition _analyze_multiple_accounts (pd : player_data) (ctx : game_context)
    : R * list evidence_item :=
  let evidence0 : list evidence_item := [] in
  let score0 := 0%R in
  let '(score1, evidence1) :=
    if decide (device_fingerprint pd ∈ similar_devices ctx)
    then ((score0 + 0.5)%R,
          evidence0 ++ [DeviceUsedForAccounts (length (similar_devices ctx))])
    else (score0, evidence0) in
  let ip_accounts :=
    match ip_address pd with
    | Some a => get (accounts_per_ip ctx !! a) 0%R
    | None => 0%R
    end in
  let '(score2, evidence2) :=
    if gtb ip_accounts 3
    then ((score1 + 0.4)%R, evidence1 ++ [MultipleAccountsFromIp ip_accounts])
    else (score1, evidence1) in
  let behavioral_similarity := _calculate_behavioral_similarity pd ctx in
  let '(score3, evidence3) :=
    if gtb behavioral_similarity 0.8
    then ((score2 + 0.3)%R,
          evidence2 ++ [HighBehavioralSimilarity behavioral_similarity])
    else (score2, evidence2) in
  (min 1 score3, evidence3).

Definition _calculate_timing_consistency (times : list R) : R :=
  if (length times <? 2)%nat then 0%R
  else
    let mean_time := mean times in
    let std_dev := std times in
    if eqb mean_time 0 then 0%R
    else
      let cv := (std_dev / mean_time)%R in
      max 0 (1 - cv).

Definition _has_mechanical_patterns (ip : interaction_info) : bool :=
  let intervals := click_intervals ip in
  if (3 <? length intervals)%nat && ltb (std intervals) 0.1 then true
  else
    match movement_patterns ip with
    | Some mp => get (perfect_linearity mp) false
    | None => false
    end.

Definition _analyze_automation (pd : player_data) (ctx : game_context)
    : R * list evidence_item :=
  let evidence0 : list evidence_item := [] in
  let score0 := 0%R in
  let times := solving_times pd in
  let ip := get (interaction_patterns pd) empty_interaction_info in
  let '(score1, evidence1) :=
    if (5 <? length times)%nat then
      let timing_consistency := _calculate_timing_consistency times in
      if gtb timing_consistency 0.9
      then ((score0 + 0.7)%R,
            evidence0 ++ [SuspiciousTimingConsistency timing_consistency])
      else (score0, evidence0)
    else (score0, evidence0) in
  let efficiency := get (movement_efficiency pd) 0%R in
  let '(score2, evidence2) :=
    if gtb efficiency 0.98
    then ((score1 + 0.6)%R, evidence1 ++ [PerfectMovementEfficiency efficiency])
    else (score1, evidence1) in
  let '(score3, evidence3) :=
    if _has_mechanical_patterns ip
    then ((score2 + 0.5)%R, evidence2 ++ [MechanicalInteraction])
    else (score2, evidence2) in
  (min 1 score3, evidence3).

Definition _detect_information_sharing (cp : communication_info) : bool :=
  gtb (get (message_frequency cp) 0) 10 && gtb (get (solution_sharing cp) 0) 5.

Definition _calculate_network_density (connections : list string) : R :=
  if (length connections <? 2)%nat then 0%R
  else
    let max_possible_connections :=
      (len connections * (len connections - 1) / 2)%R in
    let actual_connections :=
      min max_possible_connections (len connections * 2) in
    if gtb max_possible_connections 0
    then (actual_connections / max_possible_connections)%R
    else 0%R.

Definition _analyze_collaborative_cheating (pd : player_data) (ctx : game_context)
    : R * list evidence_item :=
  let evidence0 : list evidence_item := [] in
  let score0 := 0%R in
  let connections := social_connections pd in
  let cp := get (communication_patterns pd) empty_communication_info in
  let '(score1, evidence1) :=
    if _detect_information_sharing cp
    then ((score0 + 0.5)%R, evidence0 ++ [InformationSharing])
    else (score0, evidence0) in
  let '(score2, evidence2) :=
    if decide (player_id pd ∈ coordinated_actions ctx)
    then ((score1 + 0.4)%R, evidence1 ++ [CoordinatedSolving])
    else (score1, evidence1) in
  let '(score3, evidence3) :=
    if (10 <? length connections)%nat then
      let network_density := _calculate_network_density connections in
      if gtb network_density 0.8
      then ((score2 + 0.3)%R, evidence2 ++ [HighDensityNetwork network_density])
      else (score2, evidence2)
    else (score2, evidence2) in
  (min 1 score3, evidence3).

Definition _analyze_single_pattern (pattern_name : string) (pd : player_data)
    (ctx : game_context) : R * list evidence_item :=
  if decide (pattern_name = "speed_hacking") then _analyze_speed_hacking pd ctx
  else if decide (pattern_name = "location_spoofing")
  then _analyze_location_spoofing pd ctx
  else if decide (pattern_name = "multiple_accounts")
  then _analyze_multiple_accounts pd ctx
  else if decide (pattern_name = "automation_detection")
  then _analyze_automation pd ctx
  else if decide (pattern_name = "collaborative_cheating")
  then _analyze_collaborative_cheating pd ctx
  else (0%R, []).

(** The loop of [_calculate_overall_risk] over the pattern scores. *)
Fixpoint risk_loop (pattern_scores : list (string * R)) (sums : R * R) : R * R :=
  match pattern_scores with
  | [] => sums
  | (pattern_name, score) :: rest =>
    let '(weighted_sum, total_weight) := sums in
    let w := get (weight <$> assoc pattern_name cheating_patterns) 0.5%R in
    risk_loop rest ((weighted_sum + score * w)%R, (total_weight + w)%R)
  end.

Definition _calculate_overall_risk (pattern_scores : list (string * R)) : R :=
  match pattern_scores with
  | [] => 0%R
  | _ =>
    let '(weighted_sum, total_weight) := risk_loop pattern_scores (0%R, 0%R) in
    if gtb total_weight 0 then (weighted_sum / total_weight)%R else 0%R
  end.

Definition _generate_pattern_recommendations (detected : list string)
    : list string :=
  let recommendations :=
    omap (fun pattern =>
      if decide (pattern = "speed_hacking")
      then Some "Monitor solving times and implement rate limiting"
      else if decide (pattern = "location_spoofing")
      then Some "Require additional location verification"
      else if decide (pattern = "multiple_accounts")
      then Some "Investigate device and IP patterns"
      else if decide (pattern = "automation_detection")
      then Some "Implement CAPTCHA or behavioral challenges"
      else if decide (pattern = "collaborative_cheating")
      then Some "Monitor social interactions and solution sharing"
      else None) detected in
  match recommendations with
  | [] => ["No immediate action required"]
  | _ => recommendations
  end.

Definition _calculate_analysis_confidence (pd : player_data) : R :=
  let data_points := len (solving_times pd) in
  let location_points :=
    len (movement_history (get (location_data pd) empty_location_info)) in
  min 1 ((data_points + location_points) / 20).

Definition _update_pattern_history (now : Z) (st : state)
    (player : option string) (pattern_name : string) (score : R) : state :=
  match player with
  | None => st
  | Some pid =>
    if decide (pid = "") then st
    else
      let per_player := get (player_patterns st !! pid) ∅ in
      let records := get (per_player !! pattern_name) [] ++ [(score, now)] in
      let records' :=
        if (100 <? length records)%nat then last_n 100 records else records in
      State (<[pid := <[pattern_name := records']> per_player]> (player_patterns st))
            (global_patterns st)
  end.

Definition _update_global_patterns (now : Z) (st : state) (detected : list string)
    : state :=
  fold_left
    (fun st pattern =>
       let times := get (global_patterns st !! pattern) [] ++ [now] in
       let times' :=
         if (1000 <? length times)%nat then last_n 1000 times else times in
       State (player_patterns st) (<[pattern := times']> (global_patterns st)))
    detected st.

Record analysis := Analysis {
  overall_risk_score : R;
  detected_patterns : list string;
  pattern_scores : list (string * R);
  evidence : list (string * list evidence_item);
  recommendations : list string;
  confidence : R
}.

(** The loop of [analyze_behavior_patterns] over the catalog. *)
Record loop_state := LoopState {
  ls_scores : list (string * R);
  ls_detected : list string;
  ls_evidence : list (string * list evidence_item);
  ls_state : state
}.

Definition analyze_step (now : Z) (pd : player_data) (ctx : game_context)
    (ls : loop_state) (entry : string * pattern_config) : loop_state :=
  let '(pattern_name, pattern_cfg) := entry in
  let '(score, pattern_evidence) := _analyze_single_pattern pattern_name pd ctx in
  let scores' := assoc_set pattern_name score (ls_scores ls) in
  let '(detected', evidence') :=
    if geb score (threshold pattern_cfg)
    then (ls_detected ls ++ [pattern_name],
          assoc_set pattern_name pattern_evidence (ls_evidence ls))
    else (ls_detected ls, ls_evidence ls) in
  LoopState scores' detected' evidence'
    (_update_pattern_history now (ls_state ls) (player_id pd) pattern_name score).

Definition analyze_behavior_patterns (now : Z) (st : state) (pd : player_data)
    (ctx : game_context) : analysis * state :=
  let ls := fold_left (analyze_step now pd ctx) cheating_patterns
                      (LoopState [] [] [] st) in
  let overall_risk := _calculate_overall_risk (ls_scores ls) in
  let st' := _update_global_patterns now (ls_state ls) (ls_detected ls) in
  (Analysis overall_risk (ls_detected ls) (ls_scores ls) (ls_evidence ls)
            (_generate_pattern_recommendations (ls_detected ls))
            (_calculate_analysis_confidence pd),
   st').

(** [timedelta(hours=24)], and an entry of the statistics. *)
Definition microseconds_per_24h : Z := 86400000000%Z.

Record pattern_stats := PatternStats {
  total_detections : nat;
  recent_detections_24h : nat;
  detection_rate : R
}.

Definition get_pattern_statistics (now : Z) (st : state)
    : gmap string pattern_stats :=
  omap (fun timestamps : list Z =>
          match timestamps with
          | [] => None
          | _ =>
            let recent_count :=
              length (List.filter
                        (fun ts => (now - ts <? microseconds_per_24h)%Z)
                        timestamps) in
            Some (PatternStats (length timestamps) recent_count
                               (INR recent_count / 24.0))
          end)
       (global_patterns st).

End PatternAnalyzer.

(** ** services/fraud_detector.py *)

Module FraudDetector.

Import Py.

Inductive evidence_item :=
| MockProvider
| PoorGpsAccuracy (accuracy : R)
| ImpossibleMovement
| CoordinateRounding
| SameDevice (account_count : R)
| SimilarBehavior (players : nat)
| MultiplePlayersFromIp (players : R)
| UnnaturallyFastSolving (avg_time : R)
| ConsistentTiming (std_dev : R)
| HighSuccessRate (rate : R)
| PerfectMovementEfficiency (efficiency : R)
| InformationSharing
| CoordinatedMovement
| RapidSuccession.

Record fraud_pattern := FraudPattern {
  indicators : list string;
  risk_score : R;
  mitigation : string
}.

Definition _load_fraud_patterns : list (string * fraud_pattern) :=
  [("location_spoofing",
    FraudPattern ["mock_location_provider"; "poor_gps_accuracy"; "impossible_movements"]
                 0.8 "require_additional_verification");
   ("multiple_accounts",
    FraudPattern ["same_device_multiple_accounts"; "similar_behavior_patterns";
                  "coordinated_actions"]
                 0.7 "investigate_relationships");
   ("automation_detection",
    FraudPattern ["unnatural_timing"; "perfect_precision"; "consistent_success"]
                 0.9 "challenge_response_test");
   ("collaborative_cheating",
    FraudPattern ["information_sharing"; "coordinated_movements";
                  "rapid_succession_solves"]
                 0.6 "monitor_social_graph")].

(** [self.fraud_patterns], set by the constructor. *)
Definition fraud_patterns := _load_fraud_patterns.

(** [self.fraud_patterns[name]['risk_score']]. *)
Definition catalog_risk (name : string) : res R :=
  match assoc name fraud_patterns with
  | Some p => Ok (risk_score p)
  | None => Raise KeyError
  end.

(** A point of [location_history]: [lat] and [lon] are read with
    [loc['lat']] and raise [KeyError] when absent. *)
Record waypoint := Waypoint {
  lat : option R;
  lon : option R;
  timestamp : option R
}.

(** A point of [locations], read with defaults. *)
Record coordinate := Coordinate {
  coord_lat : option number;
  coord_lon : option number
}.

Record location_info := LocationInfo {
  is_mock_provider : option bool;
  gps_accuracy : option R;
  location_history : list waypoint;
  locations : list coordinate
}.

Record player_data := PlayerData {
  player_id : option string;
  location_data : option location_info;
  device_fingerprint : option string;
  ip_address : option string;
  solving_times : list R;
  success_rate : option R;
  movement_efficiency : option R;
  social_connections : list string;
  communication_frequency : option R;
  recent_solve_times : list R
}.

Record game_context := GameContext {
  similar_players : list string;
  players_per_ip : gmap string R;
  coordinated_movements : list (option string);
  similar_solutions : option R
}.

(** An entry of [self.suspicious_activities]: the keys that
    [log_suspicious_activity] writes (the copy of [details] apart) and
    the key [account_count] that [_detect_multiple_accounts] reads,
    which an entry may have or not. *)
Record activity := Entry {
  activity_player : string;
  activity_type : string;
  activity_time : Z;
  reviewed : bool;
  account_count_key : option R
}.

(** The entry that [log_suspicious_activity] builds: it has no key
    [account_count]. *)
Definition Activity (player type : string) (time : Z) (is_reviewed : bool)
    : activity :=
  Entry player type time is_reviewed None.

(** [entry.get('account_count', 0)]. *)
Definition account_count (a : activity) : R := get (account_count_key a) 0.

Definition empty_location_info : location_info := LocationInfo None None [] [].

(** The simplified distance of this module. *)
Definition _calculate_distance (loc1 loc2 : waypoint) : res R :=
  try! lat1 := match lat loc1 with Some v => Ok v | None => Raise KeyError end in
  try! lat2 := match lat loc2 with Some v => Ok v | None => Raise KeyError end in
  let lat_diff := Rabs (lat1 - lat2) in
  try! lon1 := match lon loc1 with Some v => Ok v | None => Raise KeyError end in
  try! lon2 := match lon loc2 with Some v => Ok v | None => Raise KeyError end in
  let lon_diff := Rabs (lon1 - lon2) in
  Ok ((lat_diff + lon_diff) * 111000).

(** The speed test of one iteration of the movement loop. *)
Definition impossible_speed (prev curr : waypoint) : res bool :=
  try! distance := _calculate_distance prev curr in
  let time_diff := get (timestamp curr) 0 - get (timestamp prev) 0 in
  if gtb time_diff 0 then
    let speed_kmh := (distance / 1000) / (time_diff / 3600) in
    Ok (gtb speed_kmh 500)
  else Ok false.

(** The loop [for i in range(1, len(location_history))], which
    returns at the first impossible movement. *)
Fixpoint movement_loop (prev : waypoint) (rest : list waypoint) : res bool :=
  match rest with
  | [] => Ok false
  | curr :: rest' =>
    try! impossible := impossible_speed prev curr in
    if impossible then Ok true else movement_loop curr rest'
  end.

Definition _check_impossible_movements (ld : location_info) : res bool :=
  let history := location_history ld in
  if (length history <? 2)%nat then Ok false
  else
    match history with
    | [] => Ok false
    | first :: rest => movement_loop first rest
    end.

(** The test on one printed coordinate: it has a point and fewer than
    four characters between the point and the next one. *)
Definition short_fraction (s : string) : bool :=
  if contains "." s then
    match split "." s !! 1%nat with
    | Some decimals => (String.length decimals <? 4)%nat
    | None => false
    end
  else false.

Definition _is_rounded_coordinate (lat lon : number) : bool :=
  let lat_str := str lat in
  let lon_str := str lon in
  if short_fraction lat_str then true
  else if short_fraction lon_str then true
  else false.

Definition _check_coordinate_rounding (ld : location_info) : bool :=
  match locations ld with
  | [] => false
  | locs =>
    let rounded_count :=
      length (filter (fun loc =>
                        _is_rounded_coordinate (get (coord_lat loc) (PyInt 0))
                                               (get (coord_lon loc) (PyInt 0)) = true)
                     locs) in
    gtb (INR rounded_count / len locs) 0.5
  end.

Record detection := Detection {
  detected : bool;
  detection_evidence : list evidence_item;
  risk_level : string
}.

Definition _detect_location_fraud (pd : player_data) : res detection :=
  let ld := get (location_data pd) empty_location_info in
  let evidence0 : list evidence_item := [] in
  let detected0 := false in
  let '(evidence1, detected1) :=
    if get (is_mock_provider ld) false
    then (evidence0 ++ [MockProvider], true) else (evidence0, detected0) in
  let accuracy := get (gps_accuracy ld) 0 in
  let '(evidence2, detected2) :=
    if gtb accuracy 1000
    then (evidence1 ++ [PoorGpsAccuracy accuracy], true)
    else (evidence1, detected1) in
  try! impossible := _check_impossible_movements ld in
  let '(evidence3, detected3) :=
    if impossible
    then (evidence2 ++ [ImpossibleMovement], true) else (evidence2, detected2) in
  let '(evidence4, detected4) :=
    if _check_coordinate_rounding ld
    then (evidence3 ++ [CoordinateRounding], true) else (evidence3, detected3) in
  Ok (Detection detected4 evidence4 (if detected4 then "high" else "low")).

Definition _detect_multiple_accounts (suspicious_activities : gmap string activity)
    (pd : player_data) (ctx : game_context) : detection :=
  let evidence0 : list evidence_item := [] in
  let detected0 := false in
  let fingerprint := get (device_fingerprint pd) "" in
  let address := get (ip_address pd) "" in
  let '(evidence1, detected1) :=
    match suspicious_activities !! fingerprint with
    | Some entry =>
      if gtb (account_count entry) 2
      then (evidence0 ++ [SameDevice (account_count entry)], true)
      else (evidence0, detected0)
    | None => (evidence0, detected0)
    end in
  let similar := similar_players ctx in
  let '(evidence2, detected2) :=
    if (3 <? length similar)%nat
    then (evidence1 ++ [SimilarBehavior (length similar)], true)
    else (evidence1, detected1) in
  let ip_players := get (players_per_ip ctx !! address) 0 in
  let '(evidence3, detected3) :=
    if gtb ip_players 5
    then (evidence2 ++ [MultiplePlayersFromIp ip_players], true)
    else (evidence2, detected2) in
  Detection detected3 evidence3 (if detected3 then "medium" else "low").

Definition _calculate_std_dev (values : list R) : R :=
  if (length values <? 2)%nat then 0
  else
    let mean := sum values / len values in
    let variance := sum (map (fun x => (x - mean) ^ 2) values) / len values in
    sqrt variance.

Definition _detect_automation (pd : player_data) : detection :=
  let evidence0 : list evidence_item := [] in
  let detected0 := false in
  let times := solving_times pd in
  let '(evidence2, detected2) :=
    match times with
    | [] => (evidence0, detected0)
    | _ =>
      let avg_time := sum times / len times in
      let '(evidence1, detected1) :=
        if ltb avg_time 30
        then (evidence0 ++ [UnnaturallyFastSolving avg_time], true)
        else (evidence0, detected0) in
      if (5 <? length times)%nat then
        let std_dev := _calculate_std_dev times in
        if ltb std_dev 5
        then (evidence1 ++ [ConsistentTiming std_dev], true)
        else (evidence1, detected1)
      else (evidence1, detected1)
    end in
  let rate := get (success_rate pd) 0.5 in
  let '(evidence3, detected3) :=
    if gtb rate 0.95
    then (evidence2 ++ [HighSuccessRate rate], true) else (evidence2, detected2) in
  let efficiency := get (movement_efficiency pd) 0.5 in
  let '(evidence4, detected4) :=
    if gtb efficiency 0.98
    then (evidence3 ++ [PerfectMovementEfficiency efficiency], true)
    else (evidence3, detected3) in
  Detection detected4 evidence4 (if detected4 then "high" else "low").

Definition _check_information_sharing (pd : player_data) (ctx : game_context)
    : bool :=
  gtb (get (communication_frequency pd) 0) 10
  && gtb (get (similar_solutions ctx) 0) 5.

Fixpoint differences (prev : R) (rest : list R) : list R :=
  match rest with
  | [] => []
  | curr :: rest' => (curr - prev) :: differences curr rest'
  end.

Definition _check_rapid_succession_solves (pd : player_data) (ctx : game_context)
    : bool :=
  let solve_times := recent_solve_times pd in
  if (length solve_times <? 3)%nat then false
  else
    match solve_times with
    | [] => false
    | first :: rest =>
      let time_differences := differences first rest in
      let avg_time_diff := sum time_differences / len time_differences in
      ltb avg_time_diff 60
    end.

Definition _detect_collaborative_cheating (pd : player_data) (ctx : game_context)
    : detection :=
  let evidence0 : list evidence_item := [] in
  let detected0 := false in
  let '(evidence1, detected1) :=
    if _check_information_sharing pd ctx
    then (evidence0 ++ [InformationSharing], true) else (evidence0, detected0) in
  let '(evidence2, detected2) :=
    if decide (player_id pd ∈ coordinated_movements ctx)
    then (evidence1 ++ [CoordinatedMovement], true) else (evidence1, detected1) in
  let '(evidence3, detected3) :=
    if _check_rapid_succession_solves pd ctx
    then (evidence2 ++ [RapidSuccession], true) else (evidence2, detected2) in
  Detection detected3 evidence3 (if detected3 then "medium" else "low").

Definition _generate_fraud_recommendations (patterns : list string) : list string :=
  let recommendations :=
    map (fun pattern =>
           let m := get (mitigation <$> assoc pattern fraud_patterns)
                        "monitor_behavior" in
           (pattern ++ ": " ++ m)%string) patterns in
  match recommendations with
  | [] => ["No immediate action required"]
  | _ => recommendations
  end.

Definition _calculate_fraud_confidence
    (evidence : list (string * list evidence_item)) : R :=
  let total_evidence :=
    fold_left (fun total kv => (total + length (snd kv))%nat) evidence 0%nat in
  min 1 (INR total_evidence / 10).

Record fraud_result := FraudResult {
  detected_patterns : list string;
  result_risk_score : R;
  evidence : list (string * list evidence_item);
  recommendations : list string;
  confidence : R
}.

(** One of the four blocks of [detect_fraud_patterns]: record the
    pattern when its detector fired. *)
Definition record_detection (name evidence_key : string) (d : detection)
    (state : list string * R * list (string * list evidence_item))
    : res (list string * R * list (string * list evidence_item)) :=
  let '(patterns, risk, evidence) := state in
  if detected d then
    try! catalog := catalog_risk name in
    Ok (patterns ++ [name], max risk catalog,
        assoc_set evidence_key (detection_evidence d) evidence)
  else Ok state.

Definition detect_fraud_patterns (suspicious_activities : gmap string activity)
    (pd : player_data) (ctx : game_context) : res fraud_result :=
  let state0 : list string * R * list (string * list evidence_item) :=
    ([], 0, []) in
  try! location_fraud := _detect_location_fraud pd in
  try! state1 :=
    record_detection "location_spoofing" "location" location_fraud state0 in
  let multi_account := _detect_multiple_accounts suspicious_activities pd ctx in
  try! state2 :=
    record_detection "multiple_accounts" "multi_account" multi_account state1 in
  let automation := _detect_automation pd in
  try! state3 :=
    record_detection "automation_detection" "automation" automation state2 in
  let collaboration_fraud := _detect_collaborative_cheating pd ctx in
  try! state4 :=
    record_detection "collaborative_cheating" "collaboration"
                     collaboration_fraud state3 in
  let '(patterns, risk, evidence) := state4 in
  Ok (FraudResult patterns risk evidence
                  (_generate_fraud_recommendations patterns)
                  (_calculate_fraud_confidence evidence)).

Section Logging.

(** The MD5 digest of the text built from the player, the activity
    type and the JSON dump of the details: the key of the entry. *)
Variable activity_hash : string -> string -> fraud_result -> string.

(** [log_suspicious_activity]; the copy of [details] kept in the entry
    is not part of [activity], and the entry has no other key. *)
Definition log_suspicious_activity (now : Z)
    (suspicious_activities : gmap string activity)
    (player : string) (type : string) (details : fraud_result)
    : gmap string activity :=
  <[activity_hash player type details := Activity player type now false]>
    suspicious_activities.

End Logging.

End FraudDetector.

(** ** models/anomaly_detector.py *)

Module AnomalyDetector.

Import Py.

Record player_data := PlayerData {
  avg_solving_time : option R;
  time_variance : option R;
  session_duration_avg : option R;
  success_rate : option R;
  streak_consistency : option R;
  failure_recovery_time : option R;
  movement_efficiency : option R;
  location_accuracy_avg : option R;
  unusual_movements : option R;
  hint_usage_rate : option R;
  retry_frequency : option R;
  exploration_thoroughness : option R;
  device_consistency : option R;
  connection_stability : option R
}.

Record anomaly_result := AnomalyResult {
  anomaly_score : R;
  is_anomaly : bool;
  confidence : R;
  anomaly_type : string;
  risk_level : option string
}.

Definition _extract_anomaly_features (pd : player_data)
    (historical_data : list player_data) : list R :=
  [get (avg_solving_time pd) 180;
   get (time_variance pd) 60;
   get (session_duration_avg pd) 1200;
   get (success_rate pd) 0.5;
   get (streak_consistency pd) 0.5;
   get (failure_recovery_time pd) 300;
   get (movement_efficiency pd) 0.5;
   get (location_accuracy_avg pd) 0.8;
   get (unusual_movements pd) 0;
   get (hint_usage_rate pd) 0.3;
   get (retry_frequency pd) 0.2;
   get (exploration_thoroughness pd) 0.6;
   get (device_consistency pd) 1.0;
   get (connection_stability pd) 0.9].

(** [features[i]]. *)
Definition item (features : list R) (i : nat) : res R :=
  match features !! i with Some v => Ok v | None => Raise IndexError end.

Definition _classify_anomaly_type (features : list R) (pd : player_data)
    : res string :=
  try! solving_time := item features 0 in
  try! rate := item features 3 in
  try! efficiency := item features 6 in
  try! hint_usage := item features 9 in
  if ltb solving_time 30 && gtb rate 0.9 then Ok "unnatural_speed"
  else if gtb efficiency 0.95 && gtb rate 0.95 then Ok "perfect_movement"
  else if ltb hint_usage 0.1 && gtb rate 0.9 then Ok "low_hint_high_success"
  else if ltb solving_time 20 then Ok "extremely_fast_solving"
  else Ok "behavioral_shift".

Definition risk_factors : list (string * R) :=
  [("unnatural_speed", 0.8); ("perfect_movement", 0.9);
   ("low_hint_high_success", 0.7); ("extremely_fast_solving", 0.85);
   ("behavioral_shift", 0.5)].

Definition _assess_risk_level (score : R) (type : string) : string :=
  let base_risk := score in
  let type_multiplier := get (assoc type risk_factors) 0.5 in
  let weighted_risk := base_risk * type_multiplier in
  if gtb weighted_risk 0.8 then "high"
  else if gtb weighted_risk 0.6 then "medium"
  else if gtb weighted_risk 0.4 then "low"
  else "minimal".

Section Model.

(** The fitted or unfitted [IsolationForest] of scikit-learn, an
    external library: what [decision_function([features])[0]] and
    [predict([features])[0]] give, or the exception they raise. *)
Variable decision_function : list R -> res R.
Variable predict : list R -> res Z.

(** The body of the [try] block. *)
Definition score_anomaly (features : list R) (pd : player_data)
    : res anomaly_result :=
  try! raw_score := decision_function features in
  try! label := predict features in
  let anomalous := (label =? -1)%Z in
  let normalized_score := (raw_score + 0.5) / 1.0 in
  try! type := _classify_anomaly_type features pd in
  Ok (AnomalyResult normalized_score anomalous (Rabs raw_score) type
                    (Some (_assess_risk_level normalized_score type))).

Definition detect_behavior_anomalies (pd : player_data)
    (historical_data : list player_data) : anomaly_result :=
  let features := _extract_anomaly_features pd historical_data in
  if (length features =? 0)%nat
  then AnomalyResult 0.0 false 0.0 "insufficient_data" None
  else
    match score_anomaly features pd with
    | Ok result => result
    | Raise e => AnomalyResult 0.5 false 0.0 "detection_failed" None
    end.

End Model.

(** An entry of [behavior_history] and a value of
    [self.behavior_profiles]. *)
Record snapshot := Snapshot {
  snapshot_time : Z;
  snapshot_features : list R;
  snapshot_score : R
}.

Record profile := Profile {
  created_at : Z;
  update_count : nat;
  behavior_history : list snapshot
}.

Record trend_result := TrendResult {
  trend : string;
  trend_confidence : R;
  trend_magnitude : option R;
  trend_data_points : option nat
}.

Section Profiles.

Variable decision_function : list R -> res R.
Variable predict : list R -> res Z.

(** [update_behavior_profile]; the two readings of the clock are the
    one time [now]. *)
Definition update_behavior_profile (now : Z) (behavior_profiles : gmap string profile)
    (player_id : string) (pd : player_data) : gmap string profile :=
  let existing :=
    match behavior_profiles !! player_id with
    | Some p => p
    | None => Profile now 0 []
    end in
  let count := S (update_count existing) in
  let behavior_snapshot :=
    Snapshot now (_extract_anomaly_features pd [])
             (anomaly_score (detect_behavior_anomalies decision_function predict pd [])) in
  let history := behavior_history existing ++ [behavior_snapshot] in
  let history' :=
    if (100 <? length history)%nat then last_n 100 history else history in
  <[player_id := Profile (created_at existing) count history']> behavior_profiles.

End Profiles.

Definition get_behavior_trend (behavior_profiles : gmap string profile)
    (player_id : string) : trend_result :=
  match behavior_profiles !! player_id with
  | None => TrendResult "unknown" 0.0 None None
  | Some p =>
    let history := behavior_history p in
    if (length history <? 5)%nat
    then TrendResult "insufficient_data" 0.0 None None
    else
      let recent_scores := map snapshot_score (last_n 10 history) in
      if (length recent_scores <? 3)%nat
      then TrendResult "stable" 0.5 None None
      else
        let half := (length recent_scores / 2)%nat in
        let first_half := mean (take half recent_scores) in
        let second_half := mean (drop half recent_scores) in
        let trend_difference := second_half - first_half in
        let '(name, confidence) :=
          if ltb (Rabs trend_difference) 0.1 then ("stable", 0.7)
          else if gtb trend_difference 0.2
          then ("increasing_risk", min 0.9 (Rabs trend_difference))
          else if ltb trend_difference (-0.2)
          then ("improving_behavior", min 0.9 (Rabs trend_difference))
          else ("slight_change", 0.5) in
        TrendResult name confidence (Some (Rabs trend_difference))
                    (Some (length recent_scores))
  end.

End AnomalyDetector.

(** ** main.py: the endpoints that call the services above *)

Module Main.

Import Py.

(** What an endpoint gives back: the body of the answer, or the
    [HTTPException] with status 500 that its handler raises for an
    exception of the service. *)
Inductive response (A : Type) :=
| Success (body : A)
| ServerError (e : exn).
Arguments Success {A} body.
Arguments ServerError {A} e.

(** [POST /verify-location]. *)
Definition verify_location (now : Z)
    (location_data : LocationVerificationService.location_data)
    (location_history : list LocationVerificationService.location)
    : response (LocationVerificationService.verification
                * option LocationVerificationService.movement_result) :=
  let location_verification :=
    LocationVerificationService.comprehensive_location_verification
      now location_data in
  match location_history with
  | [] => Success (location_verification, None)
  | _ =>
    match LocationVerificationService.verify_movement_patterns location_history with
    | Ok movement_analysis => Success (location_verification, Some movement_analysis)
    | Raise e => ServerError e
    end
  end.

(** [POST /calculate-trust-score], with the trust history before and
    after. *)
Definition calculate_trust_score (now : Z)
    (trust_history : gmap string TrustScorer.history_entry)
    (player_data : TrustScorer.player_data)
    (verification_results : TrustScorer.verification_results)
    : response TrustScorer.trust_result * gmap string TrustScorer.history_entry :=
  match TrustScorer.calculate_trust_score now trust_history player_data
          verification_results with
  | Ok (result, trust_history') => (Success result, trust_history')
  | Raise e => (ServerError e, trust_history)
  end.

Section Fraud.

Variable activity_hash : string -> string -> FraudDetector.fraud_result -> string.

(** [POST /detect-fraud-patterns], with the logged activities before
    and after. *)
Definition detect_fraud_patterns (now : Z)
    (suspicious_activities : gmap string FraudDetector.activity)
    (player_data : FraudDetector.player_data)
    (game_context : FraudDetector.game_context)
    : response FraudDetector.fraud_result * gmap string FraudDetector.activity :=
  match FraudDetector.detect_fraud_patterns suspicious_activities player_data
          game_context with
  | Ok fraud_result =>
    let suspicious_activities' :=
      if gtb (FraudDetector.result_risk_score fraud_result) 0.7
      then FraudDetector.log_suspicious_activity activity_hash now
             suspicious_activities
             (get (FraudDetector.player_id player_data) "unknown")
             "high_risk_fraud" fraud_result
      else suspicious_activities in
    (Success fraud_result, suspicious_activities')
  | Raise e => (ServerError e, suspicious_activities)
  end.

End Fraud.

Section Behavior.

Variable decision_function : list R -> res R.
Variable predict : list R -> res Z.


End Behavior.

End Main.

(** ** Notions used to state the properties *)

Module Spec.

Import Py.

(** What the caller of a verification method stores for it: the
    result of the method, or the failure entry when it raised. *)
Definition outcome (m : res LocationVerificationService.method_result)
    : LocationVerificationService.method_result :=
  match m with
  | Ok r => r
  | Raise e => LocationVerificationService.failed e
  end.

(** The confidence stored for a method in the returned
    [verification_methods] dictionary. *)
Definition method_confidence (name : string)
    (v : LocationVerificationService.verification) : R :=
  get (LocationVerificationService.confidence
         <$> assoc name (LocationVerificationService.method_results v)) 0.

(** The score of one named pattern for a player. *)
Definition pattern_score (name : string) (pd : PatternAnalyzer.player_data)
    (ctx : PatternAnalyzer.game_context) : R :=
  fst (PatternAnalyzer._analyze_single_pattern name pd ctx).

(** The catalog risk score of a named fraud pattern, and the maximum of
    the catalog risk scores of a list of patterns (0 for no pattern). *)
Definition catalog_risk_score (name : string) : R :=
  get (FraudDetector.risk_score <$> assoc name FraudDetector.fraud_patterns) 0.

Definition max_catalog_risk (names : list string) : R :=
  fold_right (fun name m => Rmax (catalog_risk_score name) m) 0 names.

(** One block of the fraud detection: the risk score after a detector
    that fired or not. *)
Definition raise_risk (fired : bool) (catalog risk : R) : R :=
  if fired then Py.max risk catalog else risk.

(** A waypoint with both coordinates present. *)
Definition complete_waypoint (w : FraudDetector.waypoint) : Prop :=
  is_Some (FraudDetector.lat w) /\ is_Some (FraudDetector.lon w).

(** The number of digits [str] prints after the point of a float in
    positional notation, and the floats in positional notation with
    fewer than four of them. *)
Definition printed_fraction_digits (frac_part : Decimal.uint) : nat :=
  String.length (NilZero.string_of_uint frac_part).

Definition short_positional (n : number) : Prop :=
  match n with
  | PyFloat (Positional _ _ f) => (printed_fraction_digits f < 4)%nat
  | _ => False
  end.

(** The number of digits after the decimal point of a number written
    out in decimal ([None] for an infinity or a NaN, which have no
    decimal representation): none for an integer, the printed ones for
    a float in positional notation, and for a float in exponent notation
    the digits of the mantissa fraction that the exponent does not
    move before the point. *)
Definition decimal_digits (n : number) : option nat :=
  match n with
  | PyInt _ => Some 0%nat
  | PyFloat (Positional _ _ f) => Some (printed_fraction_digits f)
  | PyFloat (Scientific _ _ f e) =>
    Some (Z.to_nat (Z.of_nat (Decimal.nb_digits f) - e))
  | PyFloat (Infinity _) => None
  | PyFloat NaN => None
  end.

(** A point of a movement history with all its keys: latitude and
    longitude in degrees, time in seconds; and the same point as each
    module reads it. *)
Record track_point := TrackPoint {
  tp_lat : R;
  tp_lon : R;
  tp_time : R
}.

Definition to_waypoint (p : track_point) : FraudDetector.waypoint :=
  FraudDetector.Waypoint (Some (tp_lat p)) (Some (tp_lon p)) (Some (tp_time p)).

Definition to_location (p : track_point) : LocationVerificationService.location :=
  LocationVerificationService.Location
    (Some (tp_lat p)) (Some (tp_lon p)) (Some (tp_time p)).

(** The fraud detector's location data with a given history. *)
Definition with_history (h : list track_point) : FraudDetector.location_info :=
  FraudDetector.LocationInfo None None (map to_waypoint h) [].

(** The consecutive pairs of a history. *)
Definition adjacent_pairs {A} (l : list A) : list (A * A) := zip l (tail l).

(** The two speeds of a pair: the simplified distance (the sum of the
    coordinate differences at 111 km per degree) per hour, and the
    haversine distance per second. *)
Definition simplified_speed_kmh (prev curr : track_point) : R :=
  ((Rabs (tp_lat prev - tp_lat curr) + Rabs (tp_lon prev - tp_lon curr)) * 111000
   / 1000)
  / ((tp_time curr - tp_time prev) / 3600).

Definition haversine_speed (prev curr : track_point) : R :=
  LocationVerificationService.haversine
    (tp_lat prev) (tp_lon prev) (tp_lat curr) (tp_lon curr)
  / (tp_time curr - tp_time prev).

(** A pair with positive time delta whose speed is above the cutoff of
    each module. *)
Definition above_500_kmh (pair : track_point * track_point) : Prop :=
  tp_time (snd pair) - tp_time (fst pair) > 0
  /\ simplified_speed_kmh (fst pair) (snd pair) > 500.

Definition above_50_ms (pair : track_point * track_point) : Prop :=
  tp_time (snd pair) - tp_time (fst pair) > 0
  /\ haversine_speed (fst pair) (snd pair) > 50.

(** The issues that report an unnatural speed. *)
Definition speed_issue (i : LocationVerificationService.issue) : bool :=
  match i with
  | LocationVerificationService.UnnaturalMovementSpeed _ => true
  | _ => false
  end.

(** The test that a pair is above 50 m/s with a positive time delta,
    the pairs of a history that pass it, in order, and the issue that
    reports the speed of a pair. *)
Definition above_50_msb (pair : track_point * track_point) : bool :=
  Py.gtb (tp_time (snd pair) - tp_time (fst pair)) 0
  && Py.gtb (haversine_speed (fst pair) (snd pair)) 50.

Definition pairs_above_50_ms (h : list track_point)
    : list (track_point * track_point) :=
  List.filter above_50_msb (adjacent_pairs h).

Definition speed_report (pair : track_point * track_point)
    : LocationVerificationService.issue :=
  LocationVerificationService.UnnaturalMovementSpeed
    (haversine_speed (fst pair) (snd pair)).

(** The issues of the straight and of the repetitive kind. *)
Definition straight_issue (i : LocationVerificationService.issue) : bool :=
  match i with
  | LocationVerificationService.StraightMovement => true
  | _ => false
  end.

Definition repetitive_issue (i : LocationVerificationService.issue) : bool :=
  match i with
  | LocationVerificationService.RepetitiveMovement => true
  | _ => false
  end.

End Spec.

(** ** Sample inputs *)

Module Samples.

(** A trust history with one prior entry for player [p]: score 0.9,
    stored at time 0; and the time one day later. *)
Definition prior_history : gmap string TrustScorer.history_entry :=
  {[ "p" := TrustScorer.HistoryEntry 0 0.9 ]}.

Definition one_day_later : Z := 86400000000%Z.

(** A player record and verification results with every key absent. *)
Definition blank_player : TrustScorer.player_data :=
  TrustScorer.PlayerData None [] [] None None None None None None None None None
                         None None None None None None.

Definition blank_verification : TrustScorer.verification_results :=
  TrustScorer.VerificationResults None.

(** Location data with no signal at all. *)
Definition blank_location : LocationVerificationService.location_data :=
  LocationVerificationService.LocationData None None None None None.

(** A player with a perfect success rate, one solving time of 10
    seconds and a movement efficiency of 0.99, and nothing else; a
    context and a pattern state with nothing in them. *)
Definition fast_perfect_player : PatternAnalyzer.player_data :=
  PatternAnalyzer.PlayerData None [10] (Some 1) None None None None (Some 0.99)
                             [] None.

Definition blank_context : PatternAnalyzer.game_context :=
  PatternAnalyzer.GameContext [] ∅ [] [].

Definition blank_state : PatternAnalyzer.state := PatternAnalyzer.State ∅ ∅.

(** A player of the fraud detector with every key absent, and one
    whose only data is a success rate of 0.99; an empty context. *)
Definition blank_fraud_player : FraudDetector.player_data :=
  FraudDetector.PlayerData None None None None [] None None [] None [].

Definition high_success_player : FraudDetector.player_data :=
  FraudDetector.PlayerData None None None None [] (Some 0.99) None [] None [].

Definition blank_fraud_context : FraudDetector.game_context :=
  FraudDetector.GameContext [] ∅ [] None.

(** A player of the anomaly detector with every key absent, and a
    model that was never fitted: both calls raise. *)
Definition blank_anomaly_player : AnomalyDetector.player_data :=
  AnomalyDetector.PlayerData None None None None None None None None None None
                             None None None None.

Definition unfitted_decision_function (features : list R) : Py.res R :=
  Py.Raise (Py.LibraryError "NotFittedError").

Definition unfitted_predict (features : list R) : Py.res Z :=
  Py.Raise (Py.LibraryError "NotFittedError").

(** One degree of longitude along the equator in 1000 seconds, then a
    rest of 1000 seconds; and half a turn around the north pole in one
    hour. *)
Definition equator_walk : list Spec.track_point :=
  [Spec.TrackPoint 0 0 0; Spec.TrackPoint 0 1 1000; Spec.TrackPoint 0 1 2000].

Definition pole_turn : list Spec.track_point :=
  [Spec.TrackPoint 90 0 0; Spec.TrackPoint 90 180 3600].

End Samples.

(** ** Further notions and sample inputs *)

Module Notions.

Import Py.

(** A point of the location verifier with both coordinates. *)
Definition complete_location (l : LocationVerificationService.location) : Prop :=
  is_Some (LocationVerificationService.lat l)
  /\ is_Some (LocationVerificationService.lon l).

(** The records kept for a player and a pattern. *)
Definition pattern_records (st : PatternAnalyzer.state) (pid name : string)
    : option (list (R * Z)) :=
  PatternAnalyzer.player_patterns st !! pid ≫= fun per_player => per_player !! name.

(** A point of a movement history as the pattern analyzer reads it. *)
Definition to_pattern_waypoint (p : Spec.track_point) : PatternAnalyzer.waypoint :=
  PatternAnalyzer.Waypoint (Some (Spec.tp_lat p)) (Some (Spec.tp_lon p))
                           (Some (Spec.tp_time p)).

(** A point whose coordinates are a latitude and a longitude in
    degrees. *)
Definition geographic (l : LocationVerificationService.location) : Prop :=
  exists lat lon,
    LocationVerificationService.lat l = Some lat
    /\ LocationVerificationService.lon l = Some lon
    /\ -90 <= lat <= 90 /\ -180 <= lon <= 180.

(** Logged activities none of which has the key [account_count]. *)
Definition no_account_counts (activities : gmap string FraudDetector.activity)
    : Prop :=
  forall key entry,
    activities !! key = Some entry ->
    FraudDetector.account_count_key entry = None.

(** A time that is a whole number of seconds of at most 2^52 in
    absolute value: sums and differences of such times are exact in
    the floats of the code. *)
Definition whole_seconds (t : R) : Prop :=
  exists z : Z, t = IZR z /\ (Z.abs z <= 2 ^ 52)%Z.


(** The names of the trends and of the anomaly types of a model that
    returned. *)
Definition trend_names : list string :=
  ["unknown"; "insufficient_data"; "stable"; "increasing_risk";
   "improving_behavior"; "slight_change"].

Definition anomaly_types : list string :=
  ["unnatural_speed"; "perfect_movement"; "low_hint_high_success";
   "extremely_fast_solving"; "behavioral_shift"].

End Notions.

Module Inputs.

(** A player of the trust scorer known as [p], with no other key. *)
Definition player_p : TrustScorer.player_data :=
  TrustScorer.PlayerData (Some "p") [] [] None None None None None None None None
                         None None None None None None None.

(** Two points of the location verifier, and a history of three points
    the second of which has no longitude. *)
Definition paris : LocationVerificationService.location :=
  LocationVerificationService.Location (Some 48.85) (Some 2.35) (Some 0).

Definition berlin : LocationVerificationService.location :=
  LocationVerificationService.Location (Some 52.52) (Some 13.4) (Some 3600).

Definition broken_history : list LocationVerificationService.location :=
  [paris; LocationVerificationService.Location (Some 50) None (Some 1800); berlin].

Definition steady_history : list LocationVerificationService.location :=
  [paris; paris; paris].

(** Location data whose GPS part names a mock provider, and location
    data whose GPS accuracy is a string. *)
Definition mock_location : LocationVerificationService.location_data :=
  LocationVerificationService.LocationData
    (Some (LocationVerificationService.GpsData None None None (Some true)
                                               None None None))
    None None None None.

Definition garbled_location : LocationVerificationService.location_data :=
  LocationVerificationService.LocationData
    (Some (LocationVerificationService.GpsData (Some (Py.JStr "5m")) None None None
                                               None None None))
    None None None None.

(** Players of the fraud detector: one with three recent solves, the
    last of them before the second; one with six solving times between
    40 and 44 seconds; one with a mock provider; and one whose location
    history begins with a point that has no latitude. *)
Definition erratic_solver : FraudDetector.player_data :=
  FraudDetector.PlayerData None None None None [] None None [] None [0; 1000; 100].

Definition steady_solver : FraudDetector.player_data :=
  FraudDetector.PlayerData None None None None [40; 44; 41; 43; 42; 40]
                           None None [] None [].

Definition mock_player : FraudDetector.player_data :=
  FraudDetector.PlayerData (Some "p")
    (Some (FraudDetector.LocationInfo (Some true) None [] []))
    None None [] None None [] None [].


(** A player whose device fingerprint is [device]. *)
Definition shared_device_player : FraudDetector.player_data :=
  FraudDetector.PlayerData (Some "p") None (Some "device") None [] None None []
                           None [].

(** A context in which four other players behave alike. *)
Definition crowded_context : FraudDetector.game_context :=
  FraudDetector.GameContext ["a"; "b"; "c"; "d"] ∅ [] None.

(** A model that scores every player 0.2 and labels it normal, and one
    that scores every player -0.1 and labels it an outlier. *)
Definition calm_decision_function (features : list R) : Py.res R := Py.Ok 0.2.

Definition calm_predict (features : list R) : Py.res Z := Py.Ok 1%Z.

Definition alarmed_decision_function (features : list R) : Py.res R :=
  Py.Ok (-0.1).

Definition alarmed_predict (features : list R) : Py.res Z := Py.Ok (-1)%Z.

End Inputs.

(** * Properties *)

(** ** Facts about the Python built-ins *)

Module PyFacts.

Import Py.

Lemma ltb_true a b : ltb a b = true <-> a < b.
Proof. unfold ltb. destruct (Rlt_dec a b); split; intros; (lra || discriminate || reflexivity). Qed.

Lemma ltb_false a b : ltb a b = false <-> b <= a.
Proof. unfold ltb. destruct (Rlt_dec a b); split; intros; (lra || discriminate || reflexivity). Qed.

Lemma leb_true a b : leb a b = true <-> a <= b.
Proof. unfold leb. destruct (Rle_dec a b); split; intros; (lra || discriminate || reflexivity). Qed.

Lemma leb_false a b : leb a b = false <-> b < a.
Proof. unfold leb. destruct (Rle_dec a b); split; intros; (lra || discriminate || reflexivity). Qed.

Lemma gtb_true a b : gtb a b = true <-> a > b.
Proof. unfold gtb. rewrite ltb_true. lra. Qed.

Lemma gtb_false a b : gtb a b = false <-> a <= b.
Proof. unfold gtb. rewrite ltb_false. lra. Qed.

Lemma geb_true a b : geb a b = true <-> a >= b.
Proof. unfold geb. rewrite leb_true. lra. Qed.

Lemma geb_false a b : geb a b = false <-> a < b.
Proof. unfold geb. rewrite leb_false. lra. Qed.

Lemma eqb_true a b : eqb a b = true <-> a = b.
Proof. unfold eqb. destruct (Req_dec_T a b); split; intros; (assumption || discriminate || reflexivity || contradiction). Qed.

Lemma eqb_false a b : eqb a b = false <-> a <> b.
Proof. unfold eqb. destruct (Req_dec_T a b); split; intros; (assumption || discriminate || reflexivity || contradiction). Qed.

(** [min] and [max] are the mathematical minimum and maximum. *)
Lemma min_Rmin a b : min a b = Rmin a b.
Proof.
  unfold min, Rmin. destruct (ltb b a) eqn:E; destruct (Rle_dec a b);
    try reflexivity.
  - apply ltb_true in E. lra.
  - apply ltb_false in E. lra.
Qed.

Lemma max_Rmax a b : max a b = Rmax a b.
Proof.
  unfold max, Rmax. destruct (gtb b a) eqn:E; destruct (Rle_dec a b);
    try reflexivity.
  - apply gtb_true in E. lra.
  - apply gtb_false in E. lra.
Qed.

Lemma min_le_l a b : min a b <= a.
Proof. rewrite min_Rmin. apply Rmin_l. Qed.

Lemma min_le_r a b : min a b <= b.
Proof. rewrite min_Rmin. apply Rmin_r. Qed.

Lemma min_glb c a b : c <= a -> c <= b -> c <= min a b.
Proof. rewrite min_Rmin. apply Rmin_glb. Qed.

Lemma max_ge_l a b : a <= max a b.
Proof. rewrite max_Rmax. apply Rmax_l. Qed.

Lemma max_lub c a b : a <= c -> b <= c -> max a b <= c.
Proof. rewrite max_Rmax. apply Rmax_lub. Qed.

Lemma max_left a b : b <= a -> max a b = a.
Proof. intros H. rewrite max_Rmax. apply Rmax_left. exact H. Qed.

Lemma max_right a b : a <= b -> max a b = b.
Proof. intros H. rewrite max_Rmax. apply Rmax_right. exact H. Qed.

Lemma min_left a b : a <= b -> min a b = a.
Proof. intros H. rewrite min_Rmin. apply Rmin_left. exact H. Qed.

Lemma min_right a b : b <= a -> min a b = b.
Proof. intros H. rewrite min_Rmin. apply Rmin_right. exact H. Qed.

(** [max(0.0, min(1.0, x))] lies in the unit interval. *)
Lemma clamp_unit x : 0 <= max 0 (min 1 x) <= 1.
Proof.
  split.
  - apply max_ge_l.
  - apply max_lub; [lra | apply min_le_l].
Qed.

End PyFacts.

(** Decide a comparison between two given numbers. *)
Ltac py_decide :=
  repeat match goal with
  | |- context [Py.ltb ?a ?b] =>
    first [ replace (Py.ltb a b) with true by (symmetry; apply PyFacts.ltb_true; lra)
          | replace (Py.ltb a b) with false by (symmetry; apply PyFacts.ltb_false; lra) ]
  | |- context [Py.leb ?a ?b] =>
    first [ replace (Py.leb a b) with true by (symmetry; apply PyFacts.leb_true; lra)
          | replace (Py.leb a b) with false by (symmetry; apply PyFacts.leb_false; lra) ]
  | |- context [Py.gtb ?a ?b] =>
    first [ replace (Py.gtb a b) with true by (symmetry; apply PyFacts.gtb_true; lra)
          | replace (Py.gtb a b) with false by (symmetry; apply PyFacts.gtb_false; lra) ]
  | |- context [Py.geb ?a ?b] =>
    first [ replace (Py.geb a b) with true by (symmetry; apply PyFacts.geb_true; lra)
          | replace (Py.geb a b) with false by (symmetry; apply PyFacts.geb_false; lra) ]
  | |- context [Py.eqb ?a ?b] =>
    first [ replace (Py.eqb a b) with true by (symmetry; apply PyFacts.eqb_true; lra)
          | replace (Py.eqb a b) with false by (symmetry; apply PyFacts.eqb_false; lra) ]
  end.

(** Evaluate the maxima and minima of given numbers. *)
Ltac py_max :=
  repeat match goal with
  | |- context [Py.max ?a ?b] =>
    first [ rewrite (PyFacts.max_left a b) by lra
          | rewrite (PyFacts.max_right a b) by lra ]
  | |- context [Py.min ?a ?b] =>
    first [ rewrite (PyFacts.min_left a b) by lra
          | rewrite (PyFacts.min_right a b) by lra ]
  | |- context [Rmax ?a ?b] =>
    first [ rewrite (Rmax_left a b) by lra
          | rewrite (Rmax_right a b) by lra ]
  end.

(** ** Trust scorer *)

Module TrustScorerFacts.

Import Py PyFacts TrustScorer Samples.

Lemma days_one_day_later : days_between one_day_later 0 = 1%Z.
Proof. reflexivity. Qed.

(** C1, as stated, fails: one day after a prior entry with score 0.9,
    the decay step applied to a new score 0.5 returns 0.5 * 0.95 and
    not the prior score times 0.95; the prior score is not read. *)
Lemma decay_ignores_prior_score :
  fst (_apply_trust_decay one_day_later prior_history (Some "p") 0.5)
    = 0.5 * 0.95
  /\ fst (_apply_trust_decay one_day_later prior_history (Some "p") 0.5)
    <> 0.9 * powerRZ 0.95 1.
Proof.
  assert (E : fst (_apply_trust_decay one_day_later prior_history (Some "p") 0.5)
              = 0.5 * 0.95).
  { unfold _apply_trust_decay, prior_history. cbn [falsy_id].
    destruct (decide ("p" = "")) as [H|_]; [discriminate H|].
    rewrite lookup_singleton_eq. cbn [timestamp fst].
    rewrite days_one_day_later. unfold decay_factor. simpl powerRZ. lra. }
  split; [exact E|]. rewrite E. simpl powerRZ. lra.
Qed.

(** C1 (amended): for a player with a prior entry stored [n] days
    before, the decay step returns the newly computed score times
    0.95^n and stores that value with the current time; the prior
    stored score is not used and nothing is blended. *)
Theorem decay_scales_current_score
    (now : Z) (trust_history : gmap string history_entry) (pid : string)
    (entry : history_entry) (current_score : R) (n : nat) :
  pid <> "" ->
  trust_history !! pid = Some entry ->
  days_between now (timestamp entry) = Z.of_nat n ->
  _apply_trust_decay now trust_history (Some pid) current_score
  = (current_score * 0.95 ^ n,
     <[pid := HistoryEntry now (current_score * 0.95 ^ n)]> trust_history).
Proof.
  intros Hpid Hprior Hdays. unfold _apply_trust_decay. cbn [falsy_id].
  destruct (decide (pid = "")) as [H|_]; [contradiction|].
  rewrite Hprior, Hdays. unfold decay_factor.
  rewrite <- pow_powerRZ. reflexivity.
Qed.

(** The decay step on the sample history, one day after the prior entry. *)
Lemma decay_scales_current_score_example :
  _apply_trust_decay one_day_later prior_history (Some "p") 0.5
  = (0.5 * 0.95 ^ 1,
     <[ "p" := HistoryEntry one_day_later (0.5 * 0.95 ^ 1)]> prior_history).
Proof.
  apply (decay_scales_current_score one_day_later prior_history "p"
           (HistoryEntry 0 0.9) 0.5 1).
  - discriminate.
  - reflexivity.
  - reflexivity.
Defined.

(** The weighted sum over the six components never misses a key. *)
Lemma weighted_sum_components b l h s d t :
  weighted_sum trust_weights
    [("behavior_consistency", b); ("location_verification", l);
     ("historical_performance", h); ("social_behavior", s);
     ("device_reputation", d); ("temporal_patterns", t)] 0
  = Ok (0 + b * 0.25 + l * 0.20 + h * 0.20 + s * 0.15 + d * 0.10 + t * 0.10).
Proof. reflexivity. Qed.

(** The scorer raises only on the division by a zero play time. *)
Lemma calculate_trust_score_returns now th pd vr :
  get (total_play_time pd) 1 <> 0 ->
  exists r th', calculate_trust_score now th pd vr = Ok (r, th').
Proof.
  intros Hplay. unfold calculate_trust_score, _calculate_historical_performance.
  unfold div. replace (eqb (get (total_play_time pd) 1 / 3600) 0) with false
    by (symmetry; apply eqb_false; lra).
  cbn [bind]. rewrite weighted_sum_components. cbn [bind].
  destruct (_apply_trust_decay _ _ _ _). eauto.
Qed.

Lemma calculate_trust_score_raises now th pd vr :
  get (total_play_time pd) 1 = 0 ->
  calculate_trust_score now th pd vr = Raise ZeroDivisionError.
Proof.
  intros Hplay. unfold calculate_trust_score, _calculate_historical_performance.
  unfold div. replace (eqb (get (total_play_time pd) 1 / 3600) 0) with true
    by (symmetry; apply eqb_true; lra).
  reflexivity.
Qed.

Lemma trust_score_clamped now th pd vr r th' :
  calculate_trust_score now th pd vr = Ok (r, th') ->
  0 <= trust_score r <= 1.
Proof.
  unfold calculate_trust_score. intros H.
  destruct (_calculate_historical_performance pd); [|discriminate].
  cbn [bind] in H. destruct (weighted_sum _ _ _); [|discriminate].
  cbn [bind] in H. destruct (_apply_trust_decay _ _ _ _).
  simplify_eq. cbn [trust_score]. apply clamp_unit.
Qed.

End TrustScorerFacts.

(** ** Location verification *)

Ltac break_goal :=
  repeat match goal with
  | |- context [match ?x with _ => _ end] => destruct x eqn:?
  end.

(** Case analysis on every [match] of the hypotheses, dropping the
    impossible cases. *)
Ltac break_hyps :=
  repeat match goal with
  | H : context [match ?x with _ => _ end] |- _ =>
    destruct x eqn:?; try discriminate; simplify_eq
  end.

Module LocationVerificationFacts.

Import Py PyFacts LocationVerificationService Samples.

Lemma gps_confidence_bounds ld r :
  _verify_gps_location ld = Ok r -> 0 <= confidence r <= 1.
Proof.
  unfold _verify_gps_location, _check_altitude_consistency, bind,
    jlt, jgt, jge, jle, num.
  intros H. break_hyps.
  all: cbn [confidence]; split; [apply min_glb; break_goal; lra | apply min_le_l].
Qed.

Lemma wifi_confidence_bounds ld r :
  _verify_wifi_fingerprint ld = Ok r -> 0 <= confidence r <= 1.
Proof.
  unfold _verify_wifi_fingerprint, _check_network_stability, bind.
  intros H.
  destruct (get (networks (get (wifi ld) empty_wifi)) []) as [|n nets] eqn:En.
  { simplify_eq. cbn [confidence]. lra. }
  destruct (sum_jvals _ 0) as [total|e]; [|discriminate].
  set (avg := total / _) in H.
  break_hyps.
  all: cbn [confidence]; split; [apply min_glb; break_goal; lra | apply min_le_l].
Qed.

Lemma tower_signal_bonus_ge ts : forall c c',
  tower_signal_bonus ts c = Ok c' -> c <= c'.
Proof.
  induction ts as [|t ts IH]; intros c c' H; cbn [tower_signal_bonus] in H.
  - simplify_eq. lra.
  - unfold bind, jgt in H.
    destruct (get (tower_signal_strength t) (JNum (-100))); try discriminate.
    destruct (gtb r (-80)).
    + apply IH in H. lra.
    + destruct (gtb r (-90)); apply IH in H; lra.
Qed.

Lemma cell_confidence_bounds ld r :
  _verify_cell_towers ld = Ok r -> 0 <= confidence r <= 0.8.
Proof.
  unfold _verify_cell_towers, bind. intros H.
  destruct (get (towers (get (cell ld) empty_cell)) []) as [|t ts] eqn:Et.
  { simplify_eq. cbn [confidence]. lra. }
  destruct (tower_signal_bonus _ _) as [c2|e] eqn:Eb; [|discriminate].
  apply tower_signal_bonus_ge in Eb.
  simplify_eq. cbn [confidence]. break_hyps.
  all: split; [apply min_glb | apply min_le_l]; break_goal; lra.
Qed.

Lemma bluetooth_confidence_bounds ld r :
  _verify_bluetooth_beacons ld = Ok r -> 0 <= confidence r <= 0.6.
Proof.
  unfold _verify_bluetooth_beacons. intros H.
  break_hyps; cbn [confidence]; break_goal; lra.
Qed.

Lemma ip_confidence_bounds ld r :
  _verify_ip_geolocation ld = Ok r -> 0 <= confidence r <= 1.
Proof.
  unfold _verify_ip_geolocation, bind. intros H.
  destruct (decide _); [simplify_eq; cbn [confidence]; lra|].
  set (cond := (gps_nonempty _ && _ && _ && _ && _)%bool) in H.
  destruct cond.
  - destruct (num (get (ip_latitude _) JNull)); [|break_hyps].
    destruct (num (get (ip_longitude _) JNull)); [|break_hyps].
    destruct (num (get (latitude _) JNull)); [|break_hyps].
    destruct (num (get (longitude _) JNull)); [|break_hyps].
    destruct (_calculate_distance _ _) as [d|]; [|break_hyps].
    break_hyps.
    all: cbn [confidence]; split; [apply min_glb; break_goal; lra | apply min_le_l].
  - break_hyps.
    all: cbn [confidence]; split; [apply min_glb; break_goal; lra | apply min_le_l].
Qed.

(** The stored outcome of every method has a confidence in the unit
    interval, whether the method returned or raised. *)
Lemma outcome_gps_bounds ld :
  0 <= confidence (Spec.outcome (_verify_gps_location ld)) <= 1.
Proof.
  destruct (_verify_gps_location ld) eqn:E; cbn [Spec.outcome].
  - eapply gps_confidence_bounds, E.
  - cbn. lra.
Qed.

Lemma outcome_wifi_bounds ld :
  0 <= confidence (Spec.outcome (_verify_wifi_fingerprint ld)) <= 1.
Proof.
  destruct (_verify_wifi_fingerprint ld) eqn:E; cbn [Spec.outcome].
  - eapply wifi_confidence_bounds, E.
  - cbn. lra.
Qed.

Lemma outcome_cell_bounds ld :
  0 <= confidence (Spec.outcome (_verify_cell_towers ld)) <= 0.8.
Proof.
  destruct (_verify_cell_towers ld) eqn:E; cbn [Spec.outcome].
  - eapply cell_confidence_bounds, E.
  - cbn. lra.
Qed.

Lemma outcome_bluetooth_bounds ld :
  0 <= confidence (Spec.outcome (_verify_bluetooth_beacons ld)) <= 0.6.
Proof.
  destruct (_verify_bluetooth_beacons ld) eqn:E; cbn [Spec.outcome].
  - eapply bluetooth_confidence_bounds, E.
  - cbn. lra.
Qed.

Lemma outcome_ip_bounds ld :
  0 <= confidence (Spec.outcome (_verify_ip_geolocation ld)) <= 1.
Proof.
  destruct (_verify_ip_geolocation ld) eqn:E; cbn [Spec.outcome].
  - eapply ip_confidence_bounds, E.
  - cbn. lra.
Qed.

(** The loop over the five methods, unfolded: the stored results and
    the accumulated confidence. *)
Lemma method_results_unfold now ld :
  method_results (comprehensive_location_verification now ld)
  = [("gps", Spec.outcome (_verify_gps_location ld));
     ("wifi", Spec.outcome (_verify_wifi_fingerprint ld));
     ("cell", Spec.outcome (_verify_cell_towers ld));
     ("bluetooth", Spec.outcome (_verify_bluetooth_beacons ld));
     ("ip", Spec.outcome (_verify_ip_geolocation ld))].
Proof.
  unfold comprehensive_location_verification, verification_methods.
  cbn [fold_left]. unfold run_method.
  destruct (_verify_gps_location ld), (_verify_wifi_fingerprint ld),
    (_verify_cell_towers ld), (_verify_bluetooth_beacons ld),
    (_verify_ip_geolocation ld); reflexivity.
Qed.

Lemma weight_gps : assoc "gps" method_weights = Some 0.4.
Proof. reflexivity. Qed.
Lemma weight_wifi : assoc "wifi" method_weights = Some 0.25.
Proof. reflexivity. Qed.
Lemma weight_cell : assoc "cell" method_weights = Some 0.2.
Proof. reflexivity. Qed.
Lemma weight_bluetooth : assoc "bluetooth" method_weights = Some 0.1.
Proof. reflexivity. Qed.
Lemma weight_ip : assoc "ip" method_weights = Some 0.05.
Proof. reflexivity. Qed.

Lemma overall_confidence_unfold now ld :
  overall_confidence (comprehensive_location_verification now ld)
  = confidence (Spec.outcome (_verify_gps_location ld)) * 0.4
    + confidence (Spec.outcome (_verify_wifi_fingerprint ld)) * 0.25
    + confidence (Spec.outcome (_verify_cell_towers ld)) * 0.2
    + confidence (Spec.outcome (_verify_bluetooth_beacons ld)) * 0.1
    + confidence (Spec.outcome (_verify_ip_geolocation ld)) * 0.05.
Proof.
  unfold comprehensive_location_verification, verification_methods.
  cbn [fold_left]. unfold run_method.
  destruct (_verify_gps_location ld), (_verify_wifi_fingerprint ld),
    (_verify_cell_towers ld), (_verify_bluetooth_beacons ld),
    (_verify_ip_geolocation ld); rewrite ?weight_gps, ?weight_wifi, ?weight_cell, ?weight_bluetooth, ?weight_ip;
    cbn [overall_confidence confidence failed Spec.outcome]; lra.
Qed.

Lemma is_verified_unfold now ld :
  is_verified (comprehensive_location_verification now ld)
  = geb (overall_confidence (comprehensive_location_verification now ld)) 0.7.
Proof.
  unfold comprehensive_location_verification.
  destruct (fold_left _ _ _). reflexivity.
Qed.

(** C3: the overall confidence is the sum of the five per-method
    confidences weighted by gps 0.4, wifi 0.25, cell 0.2, bluetooth
    0.1 and ip 0.05, each per-method confidence being the one stored
    for the method (that of its result, or 0 when it raised), and the
    result is verified exactly when that confidence is at least 0.7. *)
Theorem confidence_is_weighted_sum (now : Z) (ld : location_data) :
  let v := comprehensive_location_verification now ld in
  method_results v
  = [("gps", Spec.outcome (_verify_gps_location ld));
     ("wifi", Spec.outcome (_verify_wifi_fingerprint ld));
     ("cell", Spec.outcome (_verify_cell_towers ld));
     ("bluetooth", Spec.outcome (_verify_bluetooth_beacons ld));
     ("ip", Spec.outcome (_verify_ip_geolocation ld))]
  /\ overall_confidence v
     = Spec.method_confidence "gps" v * 0.4
       + Spec.method_confidence "wifi" v * 0.25
       + Spec.method_confidence "cell" v * 0.2
       + Spec.method_confidence "bluetooth" v * 0.1
       + Spec.method_confidence "ip" v * 0.05
  /\ (is_verified v = true <-> overall_confidence v >= 0.7).
Proof.
  intros v. subst v. split; [apply method_results_unfold|]. split.
  - unfold Spec.method_confidence. rewrite method_results_unfold.
    rewrite overall_confidence_unfold. reflexivity.
  - rewrite is_verified_unfold. apply geb_true.
Qed.

(** Location data with no signal at all still gets the GPS defaults:
    accuracy 0, no satellite, signal strength -1. *)
Example blank_location_confidence :
  overall_confidence (comprehensive_location_verification 0 blank_location)
  = 0.28
  /\ is_verified (comprehensive_location_verification 0 blank_location) = false.
Proof.
  assert (E : overall_confidence (comprehensive_location_verification 0 blank_location)
              = 0.28).
  { rewrite overall_confidence_unfold.
    unfold _verify_gps_location, _verify_wifi_fingerprint, _verify_cell_towers,
      _verify_bluetooth_beacons, _verify_ip_geolocation, blank_location,
      _check_altitude_consistency, jlt, jge, jgt.
    cbn [gps wifi cell bluetooth ip get empty_gps empty_wifi empty_cell
         empty_bluetooth empty_ip accuracy satellite_count signal_strength
         is_mock_provider altitude networks towers devices address].
    py_decide. cbn [bind num]. py_decide. cbn [bind num].
    destruct (decide ("" = "")) as [_|H]; [|contradiction].
    cbn [Spec.outcome confidence]. py_max. lra. }
  split; [exact E|].
  rewrite is_verified_unfold, E. apply geb_false. lra.
Qed.

End LocationVerificationFacts.

(** ** Ranges of the scores *)

Module ScoreBounds.

Import Py PyFacts Samples.
Import TrustScorerFacts LocationVerificationFacts.

(** C2: whatever the input, a trust score that
    [calculate_trust_score] returns lies in [0, 1], and the overall
    confidence that [comprehensive_location_verification] returns lies
    in [0, 1].  (The scorer does not return for every input: a play
    time of zero, for one, makes its division raise.) *)
Theorem scores_in_unit_interval
    (now : Z) (trust_history : gmap string TrustScorer.history_entry)
    (pd : TrustScorer.player_data) (vr : TrustScorer.verification_results)
    (ld : LocationVerificationService.location_data) :
  (forall r th',
     TrustScorer.calculate_trust_score now trust_history pd vr = Ok (r, th') ->
     0 <= TrustScorer.trust_score r <= 1)
  /\ 0 <= LocationVerificationService.overall_confidence
            (LocationVerificationService.comprehensive_location_verification now ld)
       <= 1.
Proof.
  split.
  - intros r th' E. eapply trust_score_clamped, E.
  - rewrite overall_confidence_unfold.
    pose proof (outcome_gps_bounds ld). pose proof (outcome_wifi_bounds ld).
    pose proof (outcome_cell_bounds ld). pose proof (outcome_bluetooth_bounds ld).
    pose proof (outcome_ip_bounds ld). lra.
Qed.

(** Both ranges for a player and location data with every key absent:
    the scorer returns there. *)
Lemma scores_in_unit_interval_blank :
  (exists r th',
     TrustScorer.calculate_trust_score 0 ∅ blank_player blank_verification
     = Ok (r, th')
     /\ 0 <= TrustScorer.trust_score r <= 1)
  /\ 0 <= LocationVerificationService.overall_confidence
            (LocationVerificationService.comprehensive_location_verification
               0 blank_location)
       <= 1.
Proof.
  destruct (scores_in_unit_interval 0 ∅ blank_player blank_verification
              blank_location) as (Hrange & Hloc).
  split; [|exact Hloc].
  destruct (calculate_trust_score_returns 0 ∅ blank_player blank_verification)
    as (r & th' & E); [cbn; lra|].
  exists r, th'. split; [exact E | exact (Hrange r th' E)].
Defined.

End ScoreBounds.

(** ** Pattern analyzer *)

Module PatternAnalyzerFacts.

Import Py PyFacts PatternAnalyzer Samples.

(** One iteration of the loop over the catalog. *)
Lemma step_scores now pd ctx ls name cfg :
  ls_scores (analyze_step now pd ctx ls (name, cfg))
  = assoc_set name (Spec.pattern_score name pd ctx) (ls_scores ls).
Proof.
  unfold analyze_step, Spec.pattern_score.
  destruct (_analyze_single_pattern name pd ctx) as [s e]. cbn [fst].
  destruct (geb s (threshold cfg)); reflexivity.
Qed.

Lemma step_detected now pd ctx ls name cfg :
  ls_detected (analyze_step now pd ctx ls (name, cfg))
  = ls_detected ls
    ++ (if geb (Spec.pattern_score name pd ctx) (threshold cfg) then [name] else []).
Proof.
  unfold analyze_step, Spec.pattern_score.
  destruct (_analyze_single_pattern name pd ctx) as [s e]. cbn [fst].
  destruct (geb s (threshold cfg)); cbn [ls_detected];
    [reflexivity | symmetry; apply app_nil_r].
Qed.

(** The loop over the catalog, unfolded. *)
Lemma pattern_scores_unfold now st pd ctx :
  pattern_scores (fst (analyze_behavior_patterns now st pd ctx))
  = [("speed_hacking", Spec.pattern_score "speed_hacking" pd ctx);
     ("location_spoofing", Spec.pattern_score "location_spoofing" pd ctx);
     ("multiple_accounts", Spec.pattern_score "multiple_accounts" pd ctx);
     ("automation_detection", Spec.pattern_score "automation_detection" pd ctx);
     ("collaborative_cheating", Spec.pattern_score "collaborative_cheating" pd ctx)].
Proof.
  unfold analyze_behavior_patterns, cheating_patterns, _load_cheating_patterns.
  cbn [fold_left fst pattern_scores].
  rewrite !step_scores. cbn [ls_scores].
  generalize (Spec.pattern_score "speed_hacking" pd ctx),
    (Spec.pattern_score "location_spoofing" pd ctx),
    (Spec.pattern_score "multiple_accounts" pd ctx),
    (Spec.pattern_score "automation_detection" pd ctx),
    (Spec.pattern_score "collaborative_cheating" pd ctx).
  intros s1 s2 s3 s4 s5. reflexivity.
Qed.

Lemma detected_patterns_unfold now st pd ctx :
  detected_patterns (fst (analyze_behavior_patterns now st pd ctx))
  = (if geb (Spec.pattern_score "speed_hacking" pd ctx) 0.8
     then ["speed_hacking"] else [])
    ++ (if geb (Spec.pattern_score "location_spoofing" pd ctx) 0.7
        then ["location_spoofing"] else [])
    ++ (if geb (Spec.pattern_score "multiple_accounts" pd ctx) 0.6
        then ["multiple_accounts"] else [])
    ++ (if geb (Spec.pattern_score "automation_detection" pd ctx) 0.75
        then ["automation_detection"] else [])
    ++ (if geb (Spec.pattern_score "collaborative_cheating" pd ctx) 0.65
        then ["collaborative_cheating"] else []).
Proof.
  unfold analyze_behavior_patterns, cheating_patterns, _load_cheating_patterns.
  cbn [fold_left fst detected_patterns].
  rewrite !step_detected. cbn [ls_detected threshold app].
  rewrite <- !app_assoc. reflexivity.
Qed.

Lemma overall_risk_explicit s1 s2 s3 s4 s5 :
  _calculate_overall_risk
    [("speed_hacking", s1); ("location_spoofing", s2); ("multiple_accounts", s3);
     ("automation_detection", s4); ("collaborative_cheating", s5)]
  = (s1 * 0.9 + s2 * 0.8 + s3 * 0.7 + s4 * 0.85 + s5 * 0.6)
    / (0.9 + 0.8 + 0.7 + 0.85 + 0.6).
Proof.
  unfold _calculate_overall_risk.
  assert (E : risk_loop
                [("speed_hacking", s1); ("location_spoofing", s2);
                 ("multiple_accounts", s3); ("automation_detection", s4);
                 ("collaborative_cheating", s5)] (0, 0)
              = (0 + s1 * 0.9 + s2 * 0.8 + s3 * 0.7 + s4 * 0.85 + s5 * 0.6,
                 0 + 0.9 + 0.8 + 0.7 + 0.85 + 0.6)) by reflexivity.
  rewrite E. py_decide. f_equal; lra.
Qed.

Lemma overall_risk_unfold now st pd ctx :
  overall_risk_score (fst (analyze_behavior_patterns now st pd ctx))
  = _calculate_overall_risk
      (pattern_scores (fst (analyze_behavior_patterns now st pd ctx))).
Proof. reflexivity. Qed.

Lemma elem_of_if_singleton (b : bool) (name x : string) :
  x ∈ (if b then [name] else []) <-> x = name /\ b = true.
Proof.
  destruct b; rewrite ?elem_of_cons, ?elem_of_nil; intuition discriminate.
Qed.

(** Membership in the list of detected patterns. *)
Lemma detected_iff now st pd ctx name :
  name ∈ detected_patterns (fst (analyze_behavior_patterns now st pd ctx))
  <-> (name = "speed_hacking"
       /\ Spec.pattern_score "speed_hacking" pd ctx >= 0.8)
      \/ (name = "location_spoofing"
          /\ Spec.pattern_score "location_spoofing" pd ctx >= 0.7)
      \/ (name = "multiple_accounts"
          /\ Spec.pattern_score "multiple_accounts" pd ctx >= 0.6)
      \/ (name = "automation_detection"
          /\ Spec.pattern_score "automation_detection" pd ctx >= 0.75)
      \/ (name = "collaborative_cheating"
          /\ Spec.pattern_score "collaborative_cheating" pd ctx >= 0.65).
Proof.
  rewrite detected_patterns_unfold, !elem_of_app, !elem_of_if_singleton.
  rewrite !geb_true. tauto.
Qed.

(** The catalog has exactly the five named patterns. *)
Lemma catalog_entries name cfg :
  assoc name cheating_patterns = Some cfg ->
  (name = "speed_hacking" /\ threshold cfg = 0.8)
  \/ (name = "location_spoofing" /\ threshold cfg = 0.7)
  \/ (name = "multiple_accounts" /\ threshold cfg = 0.6)
  \/ (name = "automation_detection" /\ threshold cfg = 0.75)
  \/ (name = "collaborative_cheating" /\ threshold cfg = 0.65).
Proof.
  unfold assoc, cheating_patterns, _load_cheating_patterns. cbn [find fst].
  repeat (destruct (decide (_ = name)) as [<-|_];
          [cbn; intros [= <-]; cbn [threshold]; tauto|]).
  discriminate.
Qed.

(** C4: the overall risk score is the sum over the five patterns of
    score times weight, divided by the sum of the weights, and a name
    is among the detected patterns exactly when it is a pattern of the
    catalog whose score is at least its configured threshold. *)
Theorem risk_is_weighted_average
    (now : Z) (st : state) (pd : player_data) (ctx : game_context) :
  let a := fst (analyze_behavior_patterns now st pd ctx) in
  pattern_scores a
  = [("speed_hacking", Spec.pattern_score "speed_hacking" pd ctx);
     ("location_spoofing", Spec.pattern_score "location_spoofing" pd ctx);
     ("multiple_accounts", Spec.pattern_score "multiple_accounts" pd ctx);
     ("automation_detection", Spec.pattern_score "automation_detection" pd ctx);
     ("collaborative_cheating", Spec.pattern_score "collaborative_cheating" pd ctx)]
  /\ overall_risk_score a
     = (Spec.pattern_score "speed_hacking" pd ctx * 0.9
        + Spec.pattern_score "location_spoofing" pd ctx * 0.8
        + Spec.pattern_score "multiple_accounts" pd ctx * 0.7
        + Spec.pattern_score "automation_detection" pd ctx * 0.85
        + Spec.pattern_score "collaborative_cheating" pd ctx * 0.6)
       / (0.9 + 0.8 + 0.7 + 0.85 + 0.6)
  /\ forall name,
       name ∈ detected_patterns a
       <-> exists cfg score,
             assoc name cheating_patterns = Some cfg
             /\ assoc name (pattern_scores a) = Some score
             /\ score >= threshold cfg.
Proof.
  intros a. subst a. split; [apply pattern_scores_unfold|]. split.
  - rewrite overall_risk_unfold, pattern_scores_unfold.
    apply overall_risk_explicit.
  - intros name. rewrite detected_iff, pattern_scores_unfold. split.
    + intros [[-> H]|[[-> H]|[[-> H]|[[-> H]|[-> H]]]]];
        (eexists; eexists; split; [reflexivity|]; split; [reflexivity|];
         exact H).
    + intros (cfg & score & Hcfg & Hscore & Hge).
      destruct (catalog_entries _ _ Hcfg)
        as [[-> Ht]|[[-> Ht]|[[-> Ht]|[[-> Ht]|[-> Ht]]]]];
        rewrite Ht in Hge; cbv [assoc] in Hscore; cbn in Hscore;
        injection Hscore as <-; tauto.
Qed.

Lemma single_pattern_speed pd ctx :
  _analyze_single_pattern "speed_hacking" pd ctx = _analyze_speed_hacking pd ctx.
Proof. reflexivity. Qed.

Lemma single_pattern_automation pd ctx :
  _analyze_single_pattern "automation_detection" pd ctx = _analyze_automation pd ctx.
Proof. reflexivity. Qed.

(** With a mean solving time below 20 seconds the speed-hacking score
    reaches its threshold. *)
Lemma speed_score_fast pd ctx :
  solving_times pd <> [] ->
  mean (solving_times pd) < 20 ->
  Spec.pattern_score "speed_hacking" pd ctx >= 0.8.
Proof.
  intros Hne Hfast. unfold Spec.pattern_score.
  rewrite single_pattern_speed. unfold _analyze_speed_hacking.
  destruct (solving_times pd) as [|t ts] eqn:Et; [contradiction|].
  apply ltb_true in Hfast. rewrite Hfast.
  destruct (gtb _ 0.95 && _); cbn [fst]; rewrite min_Rmin;
    unfold Rmin; destruct (Rle_dec _ _); lra.
Qed.

(** With a movement efficiency above 0.98 the automation score is
    at least 0.6, and it reaches its threshold 0.75 exactly when the
    timing is consistent or the interaction is mechanical. *)
Lemma automation_score_efficient pd ctx e :
  movement_efficiency pd = Some e ->
  e > 0.98 ->
  0.6 <= Spec.pattern_score "automation_detection" pd ctx
  /\ (Spec.pattern_score "automation_detection" pd ctx >= 0.75
      <-> ((5 < length (solving_times pd))%nat
           /\ _calculate_timing_consistency (solving_times pd) > 0.9)
          \/ _has_mechanical_patterns
               (get (interaction_patterns pd) empty_interaction_info) = true).
Proof.
  intros He Hgt. unfold Spec.pattern_score.
  rewrite single_pattern_automation. unfold _analyze_automation.
  rewrite He. cbn [get]. apply gtb_true in Hgt. rewrite Hgt.
  rewrite <- (gtb_true (_calculate_timing_consistency _)).
  destruct (5 <? length (solving_times pd))%nat eqn:Elen;
    [apply Nat.ltb_lt in Elen | apply Nat.ltb_ge in Elen];
    destruct (gtb (_calculate_timing_consistency (solving_times pd)) 0.9);
    destruct (_has_mechanical_patterns _);
    cbn [fst]; rewrite min_Rmin; unfold Rmin; destruct (Rle_dec _ _);
    (split; [lra|]); split; intros H;
    try lra; try (left; split; [lia|reflexivity]); try (right; reflexivity);
    try (destruct H as [[? ?]|?]; (lia || discriminate)).
Qed.

(** C5, as stated, fails: a player with success rate 1.0, one solving
    time of 10 seconds and movement efficiency 0.99 is flagged for
    speed hacking only; the automation score is 0.6, below 0.75. *)
Lemma fast_perfect_player_not_automation :
  success_rate fast_perfect_player = Some 1
  /\ solving_times fast_perfect_player = [10]
  /\ mean (solving_times fast_perfect_player) < 20
  /\ movement_efficiency fast_perfect_player = Some 0.99
  /\ 0.99 > 0.98
  /\ "automation_detection"
       ∉ detected_patterns
           (fst (analyze_behavior_patterns 0 blank_state fast_perfect_player
                   blank_context)).
Proof.
  split; [reflexivity|]. split; [reflexivity|].
  split; [unfold mean, sum, len; cbn; lra|].
  split; [reflexivity|]. split; [lra|].
  rewrite detected_iff. intros H.
  destruct (automation_score_efficient fast_perfect_player blank_context 0.99)
    as [_ Hiff]; [reflexivity | lra |].
  assert (Hauto : Spec.pattern_score "automation_detection" fast_perfect_player
                    blank_context >= 0.75).
  { destruct H as [[E _]|[[E _]|[[E _]|[[_ H]|[E _]]]]];
      try discriminate E; exact H. }
  apply Hiff in Hauto. destruct Hauto as [[Hlen _]|Hmech].
  - cbn in Hlen. lia.
  - discriminate Hmech.
Qed.

(** C5 (amended): a player with success rate 1.0, a non-empty list of
    solving times with mean below 20 seconds and movement efficiency
    above 0.98 is flagged for speed hacking; the automation score is at
    least 0.6, and automation is flagged exactly when, in addition,
    there are more than five solving times with timing consistency
    above 0.9 or the interaction patterns are mechanical. *)
Theorem fast_efficient_player_flags
    (now : Z) (st : state) (pd : player_data) (ctx : game_context) (e : R) :
  success_rate pd = Some 1 ->
  solving_times pd <> [] ->
  mean (solving_times pd) < 20 ->
  movement_efficiency pd = Some e ->
  e > 0.98 ->
  let a := fst (analyze_behavior_patterns now st pd ctx) in
  "speed_hacking" ∈ detected_patterns a
  /\ 0.6 <= Spec.pattern_score "automation_detection" pd ctx
  /\ ("automation_detection" ∈ detected_patterns a
      <-> ((5 < length (solving_times pd))%nat
           /\ _calculate_timing_consistency (solving_times pd) > 0.9)
          \/ _has_mechanical_patterns
               (get (interaction_patterns pd) empty_interaction_info) = true).
Proof.
  intros _ Hne Hfast He Hgt a. subst a.
  destruct (automation_score_efficient pd ctx e He Hgt) as [Hlow Hiff].
  split; [|split; [exact Hlow|]].
  - apply detected_iff. left. split; [reflexivity|].
    apply speed_score_fast; assumption.
  - rewrite <- Hiff, detected_iff. split.
    + intros [[E _]|[[E _]|[[E _]|[[_ H]|[E _]]]]];
        try discriminate E; exact H.
    + intros H. right. right. right. left. split; [reflexivity | exact H].
Qed.

(** The flags of the sample player with one solving time of 10 seconds. *)
Lemma fast_efficient_player_flags_sample :
  "speed_hacking"
    ∈ detected_patterns
        (fst (analyze_behavior_patterns 0 blank_state fast_perfect_player
                blank_context))
  /\ 0.6 <= Spec.pattern_score "automation_detection" fast_perfect_player
              blank_context.
Proof.
  destruct (fast_efficient_player_flags 0 blank_state fast_perfect_player
              blank_context 0.99) as (Hspeed & Hlow & _).
  - reflexivity.
  - discriminate.
  - unfold mean, sum, len; cbn; lra.
  - reflexivity.
  - lra.
  - split; assumption.
Defined.

End PatternAnalyzerFacts.

(** ** Fraud detector *)

Module FraudDetectorFacts.

Import Py PyFacts FraudDetector Samples.

Lemma catalog_location : catalog_risk "location_spoofing" = Ok 0.8.
Proof. reflexivity. Qed.
Lemma catalog_accounts : catalog_risk "multiple_accounts" = Ok 0.7.
Proof. reflexivity. Qed.
Lemma catalog_automation : catalog_risk "automation_detection" = Ok 0.9.
Proof. reflexivity. Qed.
Lemma catalog_collaboration : catalog_risk "collaborative_cheating" = Ok 0.6.
Proof. reflexivity. Qed.

Lemma spec_catalog_location : Spec.catalog_risk_score "location_spoofing" = 0.8.
Proof. reflexivity. Qed.
Lemma spec_catalog_accounts : Spec.catalog_risk_score "multiple_accounts" = 0.7.
Proof. reflexivity. Qed.
Lemma spec_catalog_automation : Spec.catalog_risk_score "automation_detection" = 0.9.
Proof. reflexivity. Qed.
Lemma spec_catalog_collaboration :
  Spec.catalog_risk_score "collaborative_cheating" = 0.6.
Proof. reflexivity. Qed.

Lemma record_detection_spec name key d patterns risk ev c :
  catalog_risk name = Ok c ->
  record_detection name key d (patterns, risk, ev)
  = Ok (if detected d
        then (patterns ++ [name], max risk c,
              assoc_set key (detection_evidence d) ev)
        else (patterns, risk, ev)).
Proof.
  intros Hc. unfold record_detection. rewrite Hc.
  destruct (detected d); reflexivity.
Qed.

(** The movement loop returns when every waypoint has its coordinates. *)
Lemma movement_loop_returns rest : forall prev,
  Spec.complete_waypoint prev ->
  Forall Spec.complete_waypoint rest ->
  exists b, movement_loop prev rest = Ok b.
Proof.
  induction rest as [|curr rest IH]; intros prev Hprev Hrest.
  - exists false. reflexivity.
  - inversion Hrest as [|? ? Hcurr Hrest']; subst.
    cbn [movement_loop]. unfold impossible_speed, _calculate_distance.
    destruct Hprev as [[? ->] [? ->]]. pose proof Hcurr as [[? ->] [? ->]].
    cbn [bind]. destruct (gtb _ 0); cbn [bind].
    + destruct (gtb _ 500); [eauto | apply IH; assumption].
    + apply IH; assumption.
Qed.

Lemma location_fraud_returns pd :
  Forall Spec.complete_waypoint
    (location_history (get (location_data pd) empty_location_info)) ->
  exists d, _detect_location_fraud pd = Ok d.
Proof.
  intros Hall. unfold _detect_location_fraud, _check_impossible_movements.
  set (ld := get (location_data pd) empty_location_info) in *.
  assert (Hm : exists b,
             (if (length (location_history ld) <? 2)%nat then Ok false
              else match location_history ld with
                   | [] => Ok false
                   | first :: rest => movement_loop first rest
                   end) = Ok b).
  { destruct (length (location_history ld) <? 2)%nat; [eauto|].
    destruct (location_history ld) as [|first rest]; [eauto|].
    inversion Hall; subst. apply movement_loop_returns; assumption. }
  destruct Hm as [b ->].
  destruct (get (is_mock_provider ld) false), (gtb (get (gps_accuracy ld) 0) 1000),
    b, (_check_coordinate_rounding ld); cbn [bind]; eauto.
Qed.

(** The four blocks of [detect_fraud_patterns], unfolded. *)
Lemma detect_fraud_patterns_unfold sa pd ctx d1 :
  _detect_location_fraud pd = Ok d1 ->
  exists r,
    detect_fraud_patterns sa pd ctx = Ok r
    /\ detected_patterns r
       = (if detected d1 then ["location_spoofing"] else [])
         ++ (if detected (_detect_multiple_accounts sa pd ctx)
             then ["multiple_accounts"] else [])
         ++ (if detected (_detect_automation pd)
             then ["automation_detection"] else [])
         ++ (if detected (_detect_collaborative_cheating pd ctx)
             then ["collaborative_cheating"] else [])
    /\ result_risk_score r
       = Spec.raise_risk (detected (_detect_collaborative_cheating pd ctx)) 0.6
           (Spec.raise_risk (detected (_detect_automation pd)) 0.9
              (Spec.raise_risk (detected (_detect_multiple_accounts sa pd ctx)) 0.7
                 (Spec.raise_risk (detected d1) 0.8 0))).
Proof.
  intros H1. unfold detect_fraud_patterns. rewrite H1. cbn [bind].
  rewrite (record_detection_spec _ _ _ _ _ _ _ catalog_location). cbn [bind].
  destruct (detected d1);
    rewrite (record_detection_spec _ _ _ _ _ _ _ catalog_accounts); cbn [bind];
    destruct (detected (_detect_multiple_accounts sa pd ctx));
    rewrite (record_detection_spec _ _ _ _ _ _ _ catalog_automation); cbn [bind];
    destruct (detected (_detect_automation pd));
    rewrite (record_detection_spec _ _ _ _ _ _ _ catalog_collaboration);
    cbn [bind];
    destruct (detected (_detect_collaborative_cheating pd ctx));
    eexists; repeat split; reflexivity.
Qed.

Lemma fraud_result_location sa pd ctx r :
  detect_fraud_patterns sa pd ctx = Ok r ->
  exists d1, _detect_location_fraud pd = Ok d1.
Proof.
  unfold detect_fraud_patterns. destruct (_detect_location_fraud pd) as [d1|e].
  - eauto.
  - discriminate.
Qed.

(** C10: a result of [detect_fraud_patterns] lists exactly the
    patterns whose detector fired, in the order of the four blocks, and
    its risk score is the maximum of the catalog risk scores of these
    patterns (0.8 location spoofing, 0.7 multiple accounts, 0.9
    automation, 0.6 collaborative cheating), not an average: so it is
    one of 0, 0.6, 0.7, 0.8 and 0.9, and it is 0 exactly when no
    detector fired. *)
Theorem risk_is_max_of_detected
    (suspicious_activities : gmap string activity)
    (pd : player_data) (ctx : game_context) (r : fraud_result) :
  detect_fraud_patterns suspicious_activities pd ctx = Ok r ->
  exists location_fraud,
    _detect_location_fraud pd = Ok location_fraud
    /\ detected_patterns r
       = (if detected location_fraud then ["location_spoofing"] else [])
         ++ (if detected (_detect_multiple_accounts suspicious_activities pd ctx)
             then ["multiple_accounts"] else [])
         ++ (if detected (_detect_automation pd)
             then ["automation_detection"] else [])
         ++ (if detected (_detect_collaborative_cheating pd ctx)
             then ["collaborative_cheating"] else [])
    /\ result_risk_score r = Spec.max_catalog_risk (detected_patterns r)
    /\ (result_risk_score r = 0 \/ result_risk_score r = 0.6
        \/ result_risk_score r = 0.7 \/ result_risk_score r = 0.8
        \/ result_risk_score r = 0.9)
    /\ (result_risk_score r = 0
        <-> detected location_fraud = false
            /\ detected (_detect_multiple_accounts suspicious_activities pd ctx)
               = false
            /\ detected (_detect_automation pd) = false
            /\ detected (_detect_collaborative_cheating pd ctx) = false).
Proof.
  intros Hr.
  destruct (fraud_result_location _ _ _ _ Hr) as [d1 H1].
  exists d1. split; [exact H1|].
  destruct (detect_fraud_patterns_unfold suspicious_activities pd ctx d1 H1)
    as (r' & Hr' & Hpatterns & Hrisk).
  rewrite Hr in Hr'. injection Hr' as <-.
  split; [exact Hpatterns|].
  rewrite Hpatterns, Hrisk. clear Hpatterns Hrisk Hr H1.
  destruct (detected d1),
    (detected (_detect_multiple_accounts suspicious_activities pd ctx)),
    (detected (_detect_automation pd)),
    (detected (_detect_collaborative_cheating pd ctx));
    cbn [app Spec.max_catalog_risk fold_right Spec.raise_risk];
    rewrite ?spec_catalog_location, ?spec_catalog_accounts,
      ?spec_catalog_automation, ?spec_catalog_collaboration;
    py_max;
    (split; [lra|]); (split; [lra|]);
    (split;
     [intros H; first [exfalso; lra | repeat split; reflexivity]
     | intros (? & ? & ? & ?); first [congruence | lra]]).
Qed.

Lemma high_success_automation :
  _detect_automation high_success_player
  = Detection true [HighSuccessRate 0.99] "high".
Proof.
  unfold _detect_automation, high_success_player.
  cbn [solving_times success_rate movement_efficiency get].
  py_decide. reflexivity.
Qed.

(** The analysis of a player whose only data is a success rate of
    0.99: the automation detector fires, alone, and the risk score is
    its 0.9. *)
Lemma risk_is_max_of_detected_sample :
  exists r,
    detect_fraud_patterns ∅ high_success_player blank_fraud_context = Ok r
    /\ result_risk_score r = Spec.max_catalog_risk (detected_patterns r)
    /\ (result_risk_score r = 0
        <-> detected (_detect_automation high_success_player) = false).
Proof.
  destruct (location_fraud_returns high_success_player) as [d1 H1];
    [constructor|].
  destruct (detect_fraud_patterns_unfold ∅ high_success_player
              blank_fraud_context d1 H1) as (r & Hr & _).
  exists r. split; [exact Hr|].
  destruct (risk_is_max_of_detected ∅ high_success_player blank_fraud_context
              r Hr) as (d & _ & _ & Hmax & _ & Hzero).
  split; [exact Hmax|].
  rewrite Hzero, high_success_automation. cbn [detected].
  split; [intros (_ & _ & H & _); exact H | discriminate].
Defined.

End FraudDetectorFacts.

(** ** Anomaly detector *)

Module AnomalyDetectorFacts.

Import Py PyFacts AnomalyDetector Samples.

Lemma features_nonempty pd hist :
  (length (_extract_anomaly_features pd hist) =? 0)%nat = false.
Proof. reflexivity. Qed.

(** C9: when the model step (the decision function or the prediction)
    raises, [detect_behavior_anomalies] returns the fixed neutral result
    with anomaly score 0.5, no anomaly and confidence 0.0; the model is
    not called again and the caller sees no exception. *)
Theorem model_failure_gives_neutral_result
    (decision_function : list R -> res R) (predict : list R -> res Z)
    (pd : player_data) (historical_data : list player_data) :
  (exists e, decision_function (_extract_anomaly_features pd historical_data)
             = Raise e)
  \/ (exists e, predict (_extract_anomaly_features pd historical_data) = Raise e) ->
  detect_behavior_anomalies decision_function predict pd historical_data
  = AnomalyResult 0.5 false 0.0 "detection_failed" None.
Proof.
  intros Hraise. unfold detect_behavior_anomalies.
  rewrite features_nonempty. unfold score_anomaly.
  destruct Hraise as [[e He]|[e He]].
  - rewrite He. reflexivity.
  - rewrite He. destruct (decision_function _); reflexivity.
Qed.

(** The neutral result with a model that was never fitted. *)
Lemma model_failure_gives_neutral_result_unfitted :
  detect_behavior_anomalies unfitted_decision_function unfitted_predict
    blank_anomaly_player []
  = AnomalyResult 0.5 false 0.0 "detection_failed" None.
Proof.
  apply (model_failure_gives_neutral_result unfitted_decision_function
           unfitted_predict blank_anomaly_player []).
  left. exists (LibraryError "NotFittedError"). reflexivity.
Defined.

End AnomalyDetectorFacts.

(** ** Printed coordinates *)

Module CoordinateFacts.

Import Py PyFacts FraudDetector Samples.

Local Open Scope string_scope.

Lemma contains_cons c d s :
  contains c (String d s) = if decide (d = c) then true else contains c s.
Proof. reflexivity. Qed.

Lemma append_nil b : "" ++ b = b.
Proof. reflexivity. Qed.

Lemma append_cons d a b : String d a ++ b = String d (a ++ b).
Proof. reflexivity. Qed.

Lemma contains_app c a b :
  contains c (a ++ b) = contains c a || contains c b.
Proof.
  induction a as [|d a IH]; [reflexivity|].
  rewrite append_cons, !contains_cons. destruct (decide (d = c)); [reflexivity|].
  exact IH.
Qed.

Lemma length_app a b :
  String.length (a ++ b) = (String.length a + String.length b)%nat.
Proof.
  induction a as [|d a IH]; [reflexivity|].
  rewrite append_cons. cbn [String.length Nat.add]. rewrite IH. reflexivity.
Qed.

Lemma split_cons_dot s : split "." (String "." s) = "" :: split "." s.
Proof. reflexivity. Qed.

Lemma split_no_dot s : contains "." s = false -> split "." s = [s].
Proof.
  induction s as [|d s IH]; [reflexivity|].
  rewrite contains_cons. cbn [split].
  destruct (decide (d = "."%char)); [discriminate|].
  intros H. rewrite (IH H). reflexivity.
Qed.

Lemma split_app_no_dot a s :
  contains "." a = false ->
  split "." (a ++ s)
  = match split "." s with
    | [] => [a]
    | piece :: pieces => (a ++ piece) :: pieces
    end.
Proof.
  induction a as [|d a IH].
  - intros _. rewrite append_nil. destruct (split "." s) eqn:E; [|reflexivity].
    destruct s; cbn in E; repeat case_match; discriminate.
  - rewrite contains_cons. destruct (decide (d = "."%char)) as [|Hd]; [discriminate|].
    intros H. rewrite append_cons. cbn [split].
    destruct (decide (d = "."%char)); [contradiction|].
    rewrite (IH H). destruct (split "." s); reflexivity.
Qed.

(** A text without a point is not a short fraction; a text with one
    point is one when fewer than four characters follow the point. *)
Lemma short_fraction_no_dot s : contains "." s = false -> short_fraction s = false.
Proof. unfold short_fraction. intros ->. reflexivity. Qed.

Lemma short_fraction_one_dot a b :
  contains "." a = false ->
  contains "." b = false ->
  short_fraction (a ++ String "." b) = (String.length b <? 4)%nat.
Proof.
  intros Ha Hb. unfold short_fraction.
  rewrite contains_app, contains_cons. cbn [decide]. rewrite Ha.
  destruct (decide ("."%char = "."%char)); [|contradiction]. cbn [orb].
  rewrite (split_app_no_dot _ _ Ha), split_cons_dot, (split_no_dot _ Hb).
  reflexivity.
Qed.

(** Printed digits and signs have no point. *)
Lemma digits_no_dot u : contains "." (NilEmpty.string_of_uint u) = false.
Proof.
  induction u; cbn [NilEmpty.string_of_uint]; [reflexivity|..];
    rewrite contains_cons; (destruct (decide _); [discriminate | assumption]).
Qed.

Lemma digits0_no_dot u : contains "." (NilZero.string_of_uint u) = false.
Proof. destruct u; try reflexivity; apply (digits_no_dot (_ _)). Qed.

Lemma sign_no_dot neg : contains "." (sign_str neg) = false.
Proof. destruct neg; reflexivity. Qed.

Lemma int_no_dot z : contains "." (str (PyInt z)) = false.
Proof.
  cbn [str]. destruct (Z.to_int z); cbn [NilZero.string_of_int].
  - apply digits0_no_dot.
  - rewrite contains_cons. destruct (decide _); [discriminate|].
    apply digits0_no_dot.
Qed.

Lemma digits0_length u : (1 <= String.length (NilZero.string_of_uint u))%nat.
Proof. destruct u; cbn; lia. Qed.

Lemma digits_length u : u <> Nil -> (1 <= String.length (NilEmpty.string_of_uint u))%nat.
Proof. destruct u; [contradiction|..]; cbn; lia. Qed.

Lemma exponent_no_dot e : contains "." (exponent_str e) = false.
Proof.
  unfold exponent_str. rewrite contains_app.
  destruct (e <? 0)%Z; cbn [contains orb];
    (destruct (decide _); [discriminate|]); cbn [orb];
    destruct (String.length _ <? 2)%nat;
    rewrite ?contains_app, ?digits0_no_dot; reflexivity.
Qed.

Lemma exponent_length e : (3 <= String.length (exponent_str e))%nat.
Proof.
  unfold exponent_str. rewrite length_app.
  pose proof (digits0_length (N.to_uint (Z.abs_N e))) as Hd.
  destruct (String.length _ <? 2)%nat eqn:E.
  - rewrite length_app. destruct (e <? 0)%Z; cbn; lia.
  - apply Nat.ltb_ge in E. destruct (e <? 0)%Z; cbn; lia.
Qed.

(** The test on one printed number. *)
Lemma short_fraction_str n :
  short_fraction (str n) = true <-> Spec.short_positional n.
Proof.
  destruct n as [z|[neg i f|neg d f e|neg|]]; cbn [Spec.short_positional].
  - rewrite short_fraction_no_dot by apply int_no_dot. split; [discriminate|tauto].
  - cbn [str].
    replace (sign_str neg ++ NilZero.string_of_uint i ++ "." ++ NilZero.string_of_uint f)
      with ((sign_str neg ++ NilZero.string_of_uint i)
              ++ String "." (NilZero.string_of_uint f))
      by (destruct neg; reflexivity).
    rewrite short_fraction_one_dot.
    + unfold Spec.printed_fraction_digits. apply Nat.ltb_lt.
    + rewrite contains_app, sign_no_dot, digits0_no_dot. reflexivity.
    + apply digits0_no_dot.
  - split; [|tauto]. intros H. exfalso. revert H. cbn [str].
    assert (f = Nil \/ f <> Nil) as [->|Hf]
      by (destruct f; [left; reflexivity | right; discriminate ..]).
    + rewrite short_fraction_no_dot; [discriminate|].
      rewrite !contains_app, sign_no_dot, digits0_no_dot, exponent_no_dot.
      reflexivity.
    + replace (sign_str neg ++ NilZero.string_of_uint d
                 ++ match f with
                    | Nil => ""
                    | _ => "." ++ NilEmpty.string_of_uint f
                    end ++ "e" ++ exponent_str e)
        with ((sign_str neg ++ NilZero.string_of_uint d)
                ++ String "." (NilEmpty.string_of_uint f ++ "e" ++ exponent_str e))
        by (destruct neg, f; try contradiction; reflexivity).
      rewrite short_fraction_one_dot.
      * rewrite !length_app. pose proof (digits_length f Hf) as Hlen.
        pose proof (exponent_length e) as Hexp.
        intros Hshort%Nat.ltb_lt. cbn [String.length] in Hshort. lia.
      * rewrite contains_app, sign_no_dot, digits0_no_dot. reflexivity.
      * rewrite !contains_app, digits_no_dot, exponent_no_dot. reflexivity.
  - rewrite short_fraction_no_dot; [split; [discriminate|tauto]|].
    destruct neg; reflexivity.
  - rewrite short_fraction_no_dot; [split; [discriminate|tauto]|]. reflexivity.
Qed.

(** C6, as stated, fails: the integer 0, which is also the default for
    a missing coordinate, has no digit after the decimal point, yet a
    pair of such coordinates is not classified as rounded. *)
Lemma integer_coordinates_not_rounded :
  Spec.decimal_digits (PyInt 0) = Some 0%nat
  /\ (0 < 4)%nat
  /\ _is_rounded_coordinate (PyInt 0) (PyInt 0) = false.
Proof. split; [reflexivity|]. split; [lia | reflexivity]. Qed.

(** C6 (amended): the check classifies a coordinate pair as rounded
    exactly when the latitude or the longitude is a float that prints
    in positional notation with fewer than four digits after the point;
    integers, which print without a point, and floats that print in
    exponent notation are not classified as rounded. *)
Theorem rounded_iff_short_positional (lat lon : number) :
  _is_rounded_coordinate lat lon = true
  <-> Spec.short_positional lat \/ Spec.short_positional lon.
Proof.
  unfold _is_rounded_coordinate.
  rewrite <- !short_fraction_str.
  destruct (short_fraction (str lat)), (short_fraction (str lon));
    intuition discriminate.
Qed.

End CoordinateFacts.

(** ** Distances and movement checks *)

Module MovementFacts.

Import Py PyFacts Samples.
Import LocationVerificationService.

Lemma haversine_same lat lon : haversine lat lon lat lon = 0.
Proof.
  unfold haversine.
  replace ((radians lat - radians lat) / 2) with 0 by lra.
  replace ((radians lon - radians lon) / 2) with 0 by lra.
  rewrite sin_0.
  replace (0 ^ 2 + cos (radians lat) * cos (radians lat) * 0 ^ 2) with 0 by ring.
  rewrite sqrt_0, asin_0. lra.
Qed.

Lemma haversine_antipodal lat lon :
  haversine lat lon (- lat) (lon + 180) = PI * 6371000.
Proof.
  unfold haversine.
  replace ((radians (- lat) - radians lat) / 2) with (- radians lat)
    by (unfold radians; lra).
  replace ((radians (lon + 180) - radians lon) / 2) with (PI / 2)
    by (unfold radians; field).
  replace (radians (- lat)) with (- radians lat) by (unfold radians; lra).
  rewrite sin_neg, cos_neg, sin_PI2.
  replace ((- sin (radians lat)) ^ 2
           + cos (radians lat) * cos (radians lat) * 1 ^ 2)
    with (Rsqr (sin (radians lat)) + Rsqr (cos (radians lat)))
    by (unfold Rsqr; ring).
  rewrite sin2_cos2, sqrt_1, asin_1. field.
Qed.

Lemma haversine_pole_turn : haversine 90 0 90 180 = 0.
Proof.
  unfold haversine.
  replace (radians 90) with (PI / 2) by (unfold radians; field).
  rewrite cos_PI2.
  replace ((PI / 2 - PI / 2) / 2) with 0 by lra. rewrite sin_0.
  replace (0 ^ 2 + 0 * 0 * sin ((radians 180 - radians 0) / 2) ^ 2) with 0 by ring.
  rewrite sqrt_0, asin_0. lra.
Qed.

Lemma haversine_equator_degree : haversine 0 0 0 1 = 6371000 * (PI / 180).
Proof.
  unfold haversine.
  replace (radians 0) with 0 by (unfold radians; lra).
  replace ((0 - 0) / 2) with 0 by lra.
  replace ((radians 1 - 0) / 2) with (PI / 360) by (unfold radians; field).
  rewrite sin_0, cos_0.
  replace (0 ^ 2 + 1 * 1 * sin (PI / 360) ^ 2) with (Rsqr (sin (PI / 360)))
    by (unfold Rsqr; ring).
  pose proof PI_RGT_0 as Hpi.
  rewrite sqrt_Rsqr.
  - rewrite asin_sin by lra. field.
  - apply sin_ge_0; lra.
Qed.

(** The argument of the square root and of the arc sine of the
    haversine formula lies in [0, 1], so neither can fail. *)
Lemma cos_product u v :
  cos (u - v) * cos (u + v) = Rsqr (cos u) - Rsqr (sin v).
Proof.
  rewrite cos_minus, cos_plus.
  pose proof (sin2_cos2 u) as Hu. pose proof (sin2_cos2 v) as Hv.
  unfold Rsqr in *. nra.
Qed.

Lemma haversine_argument_range lat1 lat2 dlon :
  0 <= sin ((lat2 - lat1) / 2) ^ 2 + cos lat1 * cos lat2 * sin (dlon / 2) ^ 2 <= 1.
Proof.
  pose proof (cos_product ((lat1 + lat2) / 2) ((lat2 - lat1) / 2)) as Hprod.
  replace ((lat1 + lat2) / 2 - (lat2 - lat1) / 2) with lat1 in Hprod by lra.
  replace ((lat1 + lat2) / 2 + (lat2 - lat1) / 2) with lat2 in Hprod by lra.
  rewrite Hprod.
  pose proof (sin2_cos2 ((lat1 + lat2) / 2)) as Hu.
  pose proof (sin2_cos2 ((lat2 - lat1) / 2)) as Hv.
  pose proof (sin2_cos2 (dlon / 2)) as Hw.
  pose proof (Rle_0_sqr (sin ((lat1 + lat2) / 2))).
  pose proof (Rle_0_sqr (cos ((lat1 + lat2) / 2))).
  pose proof (Rle_0_sqr (sin ((lat2 - lat1) / 2))).
  pose proof (Rle_0_sqr (cos ((lat2 - lat1) / 2))).
  pose proof (Rle_0_sqr (sin (dlon / 2))).
  pose proof (Rle_0_sqr (cos (dlon / 2))).
  unfold Rsqr in *. cbn [pow]. nra.
Qed.

(** C8: the haversine distance between two identical coordinate pairs
    is 0, and between antipodal points (opposite latitude, longitude
    180 degrees further) it is pi * 6371000 metres, half the
    circumference of the Earth (exactly so in real arithmetic). *)
Theorem distance_same_and_antipodal (lat1 lon1 : R) (t1 t2 : option R) :
  _calculate_distance (Location (Some lat1) (Some lon1) t1)
                      (Location (Some lat1) (Some lon1) t2) = Ok 0
  /\ _calculate_distance (Location (Some lat1) (Some lon1) t1)
                         (Location (Some (- lat1)) (Some (lon1 + 180)) t2)
     = Ok (PI * 6371000).
Proof.
  unfold _calculate_distance. cbn [index bind lat lon].
  rewrite haversine_same, haversine_antipodal. split; reflexivity.
Qed.

(** *** The fraud detector's movement check *)

Lemma impossible_speed_track p c :
  FraudDetector.impossible_speed (Spec.to_waypoint p) (Spec.to_waypoint c)
  = Ok (gtb (Spec.tp_time c - Spec.tp_time p) 0
        && gtb (Spec.simplified_speed_kmh p c) 500).
Proof.
  unfold FraudDetector.impossible_speed, FraudDetector._calculate_distance,
    Spec.to_waypoint, Spec.simplified_speed_kmh.
  cbn [FraudDetector.lat FraudDetector.lon FraudDetector.timestamp bind get].
  destruct (gtb _ 0); reflexivity.
Qed.

Lemma impossible_speed_above p c :
  gtb (Spec.tp_time c - Spec.tp_time p) 0
  && gtb (Spec.simplified_speed_kmh p c) 500 = true
  <-> Spec.above_500_kmh (p, c).
Proof.
  unfold Spec.above_500_kmh. cbn [fst snd].
  rewrite andb_true_iff, !gtb_true. tauto.
Qed.

Lemma movement_loop_track rest : forall p,
  exists b,
    FraudDetector.movement_loop (Spec.to_waypoint p) (map Spec.to_waypoint rest)
    = Ok b
    /\ (b = true <-> Exists Spec.above_500_kmh (zip (p :: rest) rest)).
Proof.
  induction rest as [|c rest IH]; intros p.
  - exists false. split; [reflexivity|]. cbn. rewrite Exists_nil.
    split; [discriminate | tauto].
  - cbn [map FraudDetector.movement_loop zip zip_with].
    rewrite impossible_speed_track. cbn [bind].
    pose proof (impossible_speed_above p c) as Hpair.
    destruct (gtb _ 0 && gtb _ 500).
    + exists true. split; [reflexivity|]. rewrite Exists_cons. tauto.
    + destruct (IH c) as (b & Hb & Hiff). exists b. split; [exact Hb|].
      rewrite Exists_cons, Hiff.
      split; [tauto|]. intros [H|H]; [|exact H].
      apply Hpair in H. discriminate H.
Qed.

Lemma check_impossible_movements_track h :
  exists b,
    FraudDetector._check_impossible_movements (Spec.with_history h) = Ok b
    /\ (b = true <-> Exists Spec.above_500_kmh (Spec.adjacent_pairs h)).
Proof.
  unfold FraudDetector._check_impossible_movements, Spec.with_history,
    Spec.adjacent_pairs.
  cbn [FraudDetector.location_history].
  destruct h as [|p rest].
  - exists false. split; [reflexivity|]. cbn. rewrite Exists_nil.
    split; [discriminate | tauto].
  - destruct rest as [|c rest].
    + exists false. split; [reflexivity|]. cbn. rewrite Exists_nil.
      split; [discriminate | tauto].
    + replace (length (map Spec.to_waypoint (p :: c :: rest)) <? 2)%nat with false
        by (symmetry; apply Nat.ltb_ge; cbn; lia).
      cbn [map tail]. apply (movement_loop_track (c :: rest) p).
Qed.

(** *** The movement check of the location verifier *)

Lemma unnatural_speed_track p c :
  unnatural_speed (Spec.to_location p) (Spec.to_location c)
  = Ok (if gtb (Spec.tp_time c - Spec.tp_time p) 0
           && gtb (Spec.haversine_speed p c) 50
        then Some (Spec.haversine_speed p c) else None).
Proof.
  unfold unnatural_speed, _calculate_distance, Spec.to_location,
    Spec.haversine_speed.
  cbn [lat lon timestamp index bind get].
  destruct (gtb _ 0); [|reflexivity]. cbn [andb].
  destruct (gtb _ 50); reflexivity.
Qed.

Lemma unnatural_speed_above p c :
  gtb (Spec.tp_time c - Spec.tp_time p) 0
  && gtb (Spec.haversine_speed p c) 50 = true
  <-> Spec.above_50_ms (p, c).
Proof.
  unfold Spec.above_50_ms. cbn [fst snd].
  rewrite andb_true_iff, !gtb_true. tauto.
Qed.

Lemma existsb_speed_snoc issues speed :
  existsb Spec.speed_issue (issues ++ [UnnaturalMovementSpeed speed]) = true.
Proof. rewrite existsb_app. cbn. apply orb_true_r. Qed.

Lemma teleportation_loop_track rest : forall p issues score,
  exists issues' score',
    teleportation_loop (Spec.to_location p) (map Spec.to_location rest)
                       (issues, score)
    = Ok (issues', score')
    /\ (existsb Spec.speed_issue issues' = true
        <-> existsb Spec.speed_issue issues = true
            \/ Exists Spec.above_50_ms (zip (p :: rest) rest)).
Proof.
  induction rest as [|c rest IH]; intros p issues score.
  - exists issues, score. split; [reflexivity|]. cbn. rewrite Exists_nil. tauto.
  - cbn [map teleportation_loop zip zip_with].
    rewrite unnatural_speed_track. cbn [bind].
    pose proof (unnatural_speed_above p c) as Hpair.
    destruct (gtb _ 0 && gtb _ 50).
    + destruct (IH c (issues ++ [UnnaturalMovementSpeed (Spec.haversine_speed p c)])
                  (score * 0.5)) as (issues' & score' & Hloop & Hiff).
      exists issues', score'. split; [exact Hloop|].
      rewrite Hiff, existsb_speed_snoc, Exists_cons. tauto.
    + destruct (IH c issues score) as (issues' & score' & Hloop & Hiff).
      exists issues', score'. split; [exact Hloop|].
      rewrite Hiff, Exists_cons. split; [tauto|].
      intros [H|[H|H]]; [tauto | | tauto].
      apply Hpair in H. discriminate H.
Qed.

Lemma bearings_track rest : forall p,
  exists bs, bearings (Spec.to_location p) (map Spec.to_location rest) = Ok bs.
Proof.
  induction rest as [|c rest IH]; intros p; [eexists; reflexivity|].
  cbn [map bearings]. unfold _calculate_bearing, Spec.to_location at 1 2.
  cbn [lat lon index bind]. destruct (IH c) as [bs ->]. cbn [bind]. eauto.
Qed.

Lemma straight_line_track h :
  exists b, _check_straight_line_movement (map Spec.to_location h) = Ok b.
Proof.
  unfold _check_straight_line_movement.
  destruct (length _ <? 4)%nat; [eauto|].
  destruct h as [|p rest]; [eauto|]. cbn [map].
  destruct (bearings_track rest p) as [bs ->]. cbn [bind]. eauto.
Qed.

Lemma coordinate_pairs_track h :
  exists ps, coordinate_pairs (map Spec.to_location h) = Ok ps.
Proof.
  induction h as [|p rest [ps IH]]; [eexists; reflexivity|].
  cbn [map coordinate_pairs]. unfold Spec.to_location at 1 2.
  cbn [lat lon index bind]. rewrite IH. cbn [bind]. eauto.
Qed.

Lemma repetitive_track h :
  exists b, _check_repetitive_patterns (map Spec.to_location h) = Ok b.
Proof.
  unfold _check_repetitive_patterns.
  destruct (length _ <? 6)%nat; [eauto|].
  destruct (coordinate_pairs_track h) as [ps ->]. cbn [bind]. eauto.
Qed.

Lemma verify_movement_patterns_track h :
  (3 <= length h)%nat ->
  exists r,
    verify_movement_patterns (map Spec.to_location h) = Ok r
    /\ (existsb Spec.speed_issue (movement_issues r) = true
        <-> Exists Spec.above_50_ms (Spec.adjacent_pairs h)).
Proof.
  intros Hlen. unfold verify_movement_patterns, Spec.adjacent_pairs.
  replace (length (map Spec.to_location h) <? 3)%nat with false
    by (symmetry; apply Nat.ltb_ge; rewrite length_map; exact Hlen).
  destruct (straight_line_track h) as [straight ->].
  destruct (repetitive_track h) as [repetitive ->].
  destruct h as [|p rest]; [cbn in Hlen; lia|]. cbn [map tail].
  destruct (teleportation_loop_track rest p [] 1)
    as (issues1 & score1 & -> & Hiff).
  cbn [bind]. cbn [existsb] in Hiff.
  destruct straight, repetitive; eexists; (split; [reflexivity|]);
    cbn [movement_issues]; rewrite ?existsb_app; cbn [existsb Spec.speed_issue];
    rewrite ?orb_false_r, Hiff; intuition discriminate.
Qed.

(** *** The two checks on the sample histories *)

Lemma equator_walk_not_above_500 :
  ~ Exists Spec.above_500_kmh (Spec.adjacent_pairs equator_walk).
Proof.
  unfold Spec.adjacent_pairs, equator_walk. cbn [tail zip zip_with].
  rewrite !Exists_cons, Exists_nil.
  unfold Spec.above_500_kmh, Spec.simplified_speed_kmh.
  cbn [fst snd Spec.tp_lat Spec.tp_lon Spec.tp_time].
  replace (0 - 0) with 0 by lra. replace (1 - 1) with 0 by lra.
  rewrite Rabs_R0. replace (0 - 1) with (- (1)) by lra.
  rewrite Rabs_Ropp, Rabs_R1. lra.
Qed.

Lemma equator_walk_above_50 :
  Exists Spec.above_50_ms (Spec.adjacent_pairs equator_walk).
Proof.
  unfold Spec.adjacent_pairs, equator_walk. cbn [tail zip zip_with].
  apply Exists_cons_hd.
  unfold Spec.above_50_ms, Spec.haversine_speed.
  cbn [fst snd Spec.tp_lat Spec.tp_lon Spec.tp_time].
  rewrite haversine_equator_degree. pose proof PI2_1. lra.
Qed.

(** C7, as stated, fails for the fraud detector: half a turn around the
    north pole in one hour is flagged as an impossible movement,
    although the haversine distance of the two points is 0 and the
    speed computed from it is 0 km/h; the check does not use the
    haversine formula. *)
Lemma pole_turn_flagged_at_haversine_speed_zero :
  FraudDetector._check_impossible_movements (Spec.with_history pole_turn) = Ok true
  /\ (haversine 90 0 90 180 / 1000) / ((3600 - 0) / 3600) = 0.
Proof.
  split.
  - destruct (check_impossible_movements_track pole_turn) as (b & -> & Hiff).
    f_equal. apply Hiff.
    unfold Spec.adjacent_pairs, pole_turn. cbn [tail zip zip_with].
    apply Exists_cons_hd.
    unfold Spec.above_500_kmh, Spec.simplified_speed_kmh.
    cbn [fst snd Spec.tp_lat Spec.tp_lon Spec.tp_time].
    replace (90 - 90) with 0 by lra. rewrite Rabs_R0.
    replace (0 - 180) with (- (180)) by lra.
    rewrite Rabs_Ropp, (Rabs_right 180) by lra. lra.
  - rewrite haversine_pole_turn. lra.
Qed.

(** *** The pairs that the location verifier penalises *)

Lemma above_50_msb_spec pair :
  Spec.above_50_msb pair = true <-> Spec.above_50_ms pair.
Proof. destruct pair as [p c]. apply unnatural_speed_above. Qed.

Lemma speed_reports_only pairs :
  List.filter Spec.speed_issue (map Spec.speed_report pairs)
  = map Spec.speed_report pairs
  /\ existsb Spec.straight_issue (map Spec.speed_report pairs) = false
  /\ existsb Spec.repetitive_issue (map Spec.speed_report pairs) = false.
Proof.
  induction pairs as [|pair pairs (IH1 & IH2 & IH3)]; [repeat split|].
  cbn [map List.filter existsb Spec.speed_report Spec.speed_issue
       Spec.straight_issue Spec.repetitive_issue orb].
  fold (Spec.speed_report pair). rewrite IH1, IH2, IH3. repeat split.
Qed.

(** The loop appends one report for each pair above the cutoff, in
    order, and halves the score once for each. *)
Lemma teleportation_loop_exact rest : forall p issues score,
  teleportation_loop (Spec.to_location p) (map Spec.to_location rest)
                     (issues, score)
  = Ok (issues
        ++ map Spec.speed_report
             (List.filter Spec.above_50_msb (zip (p :: rest) rest)),
        score * 0.5 ^ length (List.filter Spec.above_50_msb
                                (zip (p :: rest) rest))).
Proof.
  induction rest as [|c rest IH]; intros p issues score.
  - cbn. rewrite app_nil_r. do 2 f_equal. ring.
  - cbn [map teleportation_loop].
    change (zip (p :: c :: rest) (c :: rest))
      with ((p, c) :: zip (c :: rest) rest).
    cbn [List.filter].
    rewrite unnatural_speed_track. cbn [bind].
    change (Spec.above_50_msb (p, c))
      with (gtb (Spec.tp_time c - Spec.tp_time p) 0
            && gtb (Spec.haversine_speed p c) 50).
    destruct (gtb _ 0 && gtb _ 50).
    + rewrite IH. cbn [map length pow Spec.speed_report fst snd].
      rewrite <- app_assoc. cbn [app]. f_equal. f_equal. ring.
    + apply IH.
Qed.

Lemma verify_movement_patterns_exact h r :
  (3 <= length h)%nat ->
  verify_movement_patterns (map Spec.to_location h) = Ok r ->
  List.filter Spec.speed_issue (movement_issues r)
  = map Spec.speed_report (Spec.pairs_above_50_ms h)
  /\ movement_confidence r
     = 0.5 ^ length (Spec.pairs_above_50_ms h)
       * (if existsb Spec.straight_issue (movement_issues r) then 0.7 else 1)
       * (if existsb Spec.repetitive_issue (movement_issues r) then 0.8 else 1).
Proof.
  intros Hlen. unfold verify_movement_patterns, Spec.pairs_above_50_ms,
    Spec.adjacent_pairs.
  replace (length (map Spec.to_location h) <? 3)%nat with false
    by (symmetry; apply Nat.ltb_ge; rewrite length_map; exact Hlen).
  destruct (straight_line_track h) as [straight ->].
  destruct (repetitive_track h) as [repetitive ->].
  destruct h as [|p rest]; [cbn in Hlen; lia|]. cbn [map tail].
  rewrite teleportation_loop_exact. cbn [bind app].
  set (pairs := List.filter Spec.above_50_msb (zip (p :: rest) rest)).
  destruct (speed_reports_only pairs) as (Hspeed & Hstraight & Hrepetitive).
  destruct straight, repetitive; intros [= <-];
    cbn [movement_issues movement_confidence];
    rewrite ?List.filter_app, ?existsb_app, Hspeed, Hstraight, Hrepetitive;
    cbn [List.filter existsb Spec.speed_issue Spec.straight_issue
         Spec.repetitive_issue orb];
    rewrite ?app_nil_r; (split; [reflexivity | ring]).
Qed.

(** C7 (amended): the fraud detector computes the distance of a pair
    with the simplified formula (the sum of the coordinate differences
    at 111 km per degree), not the haversine formula, and a result of
    its check flags a history exactly when some consecutive pair with
    positive time delta has that distance per hour above 500 km/h.
    The location verifier computes the haversine distance; a result of
    its check on a history of at least three points reports an
    unnatural speed for exactly the consecutive pairs with positive
    time delta and that distance per second above 50 m/s, once for
    each pair and in their order, and (on a history of at most 1000
    points, where the repeated halving stays within the floats) its
    confidence is halved once for each of them.  The two checks are
    not equivalent: some history is penalised by the second and not
    flagged by the first. *)
Theorem movement_checks_differ :
  (forall (h : list Spec.track_point) b,
     FraudDetector._check_impossible_movements (Spec.with_history h) = Ok b ->
     (b = true <-> Exists Spec.above_500_kmh (Spec.adjacent_pairs h)))
  /\ (forall pair, Spec.above_50_msb pair = true <-> Spec.above_50_ms pair)
  /\ (forall (h : list Spec.track_point) r,
        (3 <= length h)%nat ->
        verify_movement_patterns (map Spec.to_location h) = Ok r ->
        List.filter Spec.speed_issue (movement_issues r)
        = map Spec.speed_report (Spec.pairs_above_50_ms h)
        /\ ((length h <= 1000)%nat ->
            movement_confidence r
            = 0.5 ^ length (Spec.pairs_above_50_ms h)
              * (if existsb Spec.straight_issue (movement_issues r)
                 then 0.7 else 1)
              * (if existsb Spec.repetitive_issue (movement_issues r)
                 then 0.8 else 1)))
  /\ (exists h : list Spec.track_point,
        FraudDetector._check_impossible_movements (Spec.with_history h) = Ok false
        /\ exists r,
             verify_movement_patterns (map Spec.to_location h) = Ok r
             /\ existsb Spec.speed_issue (movement_issues r) = true).
Proof.
  split; [|split; [exact above_50_msb_spec|split]].
  - intros h b Hb.
    destruct (check_impossible_movements_track h) as (b' & Hb' & Hiff).
    rewrite Hb in Hb'. injection Hb' as <-. exact Hiff.
  - intros h r Hlen Hr.
    destruct (verify_movement_patterns_exact h r Hlen Hr) as [Hissues Hscore].
    split; [exact Hissues | intros _; exact Hscore].
  - exists equator_walk. split.
    + destruct (check_impossible_movements_track equator_walk) as (b & -> & Hiff).
      destruct b; [|reflexivity].
      exfalso. apply equator_walk_not_above_500, Hiff. reflexivity.
    + destruct (verify_movement_patterns_track equator_walk) as (r & Hr & Hiff);
        [cbn; lia|].
      exists r. split; [exact Hr|]. apply Hiff, equator_walk_above_50.
Qed.

(** The location verifier's check on the walk along the equator: the
    reports are those of the pairs above the cutoff. *)
Lemma movement_checks_differ_equator_walk :
  exists r,
    verify_movement_patterns (map Spec.to_location equator_walk) = Ok r
    /\ List.filter Spec.speed_issue (movement_issues r)
       = map Spec.speed_report (Spec.pairs_above_50_ms equator_walk).
Proof.
  destruct (verify_movement_patterns_track equator_walk) as (r & Hr & _);
    [cbn; lia|].
  exists r. split; [exact Hr|].
  destruct movement_checks_differ as (_ & _ & Hverify & _).
  apply (Hverify equator_walk r); [cbn; lia | exact Hr].
Defined.

End MovementFacts.

(** Case analysis on the innermost tests of the goal. *)
Ltac break_inner :=
  repeat match goal with
  | |- context [match ?x with _ => _ end] =>
    lazymatch x with
    | context [match _ with _ => _ end] => fail
    | _ => destruct x eqn:?; cbv beta iota
    end
  end.

(** Membership in a given list. *)
Ltac in_list :=
  solve [repeat first [apply list_elem_of_here | apply list_elem_of_further]].

(** ** Sums, lengths and means *)

Module SumFacts.

Import Py.

Lemma sum_from acc xs : fold_left Rplus xs acc = acc + sum xs.
Proof.
  unfold sum. revert acc. induction xs as [|x xs IH]; intros acc; cbn [fold_left].
  - lra.
  - rewrite IH, (IH (0 + x)). lra.
Qed.

Lemma sum_cons x xs : sum (x :: xs) = x + sum xs.
Proof. unfold sum at 1. cbn [fold_left]. rewrite sum_from. lra. Qed.

Lemma sum_nonneg xs : Forall (fun x => 0 <= x) xs -> 0 <= sum xs.
Proof.
  induction 1 as [|x xs Hx _ IH]; [unfold sum; cbn; lra|].
  rewrite sum_cons. lra.
Qed.

Lemma len_pos {A} (xs : list A) : xs <> [] -> 0 < len xs.
Proof.
  intros H. unfold len. destruct xs; [contradiction|].
  apply lt_0_INR. cbn. lia.
Qed.

Lemma mean_nonneg xs : Forall (fun x => 0 <= x) xs -> xs <> [] -> 0 <= mean xs.
Proof.
  intros Hall Hne. unfold mean. apply Rmult_le_pos; [apply sum_nonneg, Hall|].
  left. apply Rinv_0_lt_compat, len_pos, Hne.
Qed.

Lemma var_nonneg xs : xs <> [] -> 0 <= var xs.
Proof.
  intros Hne. unfold var. apply mean_nonneg.
  - apply Forall_map, Forall_forall. intros x _. cbv beta. apply Rle_0_sqr.
  - destruct xs; [contradiction | discriminate].
Qed.

Lemma sum_repeat x n : sum (repeat x n) = INR n * x.
Proof.
  induction n as [|n IH]; [unfold sum; cbn; lra|].
  cbn [repeat]. rewrite sum_cons, IH, S_INR. lra.
Qed.

End SumFacts.

(** ** The last elements of a list *)

Module SliceFacts.

Import Py.

Lemma last_n_exact_length {A} n (xs : list A) :
  length (last_n n xs) = Nat.min n (length xs).
Proof. unfold last_n. rewrite length_drop. lia. Qed.

Lemma last_n_length {A} n (xs : list A) : (length (last_n n xs) <= n)%nat.
Proof. unfold last_n. rewrite length_drop. lia. Qed.

Lemma last_n_snoc {A} n (xs : list A) x :
  (1 <= n)%nat -> last (last_n n (xs ++ [x])) = Some x.
Proof.
  intros Hn. unfold last_n. rewrite length_app. cbn [length].
  rewrite drop_app_le by lia. apply last_snoc.
Qed.

Lemma capped_records {A} n (records : list A) x :
  (1 <= n)%nat ->
  let kept :=
    if (n <? length (records ++ [x]))%nat then last_n n (records ++ [x])
    else records ++ [x] in
  (length kept <= n)%nat /\ last kept = Some x.
Proof.
  intros Hn kept. subst kept.
  destruct (n <? length (records ++ [x]))%nat eqn:E.
  - split; [apply last_n_length | apply last_n_snoc, Hn].
  - apply Nat.ltb_ge in E. split; [exact E | apply last_snoc].
Qed.

Lemma capped_length {A} n (records : list A) x :
  length (if (n <? length (records ++ [x]))%nat then last_n n (records ++ [x])
          else records ++ [x])
  = Nat.min n (S (length records)).
Proof.
  destruct (n <? length (records ++ [x]))%nat eqn:E.
  - rewrite last_n_exact_length, length_app. cbn [length]. lia.
  - apply Nat.ltb_ge in E. rewrite length_app in *. cbn [length] in *. lia.
Qed.

Lemma capped_suffix {A} n (records : list A) x :
  (if (n <? length (records ++ [x]))%nat then last_n n (records ++ [x])
   else records ++ [x])
  `suffix_of` (records ++ [x]).
Proof.
  destruct (n <? length (records ++ [x]))%nat; [apply suffix_drop | reflexivity].
Qed.

End SliceFacts.

(** ** Trust scorer: history and levels *)

Module TrustHistoryFacts.

Import Py PyFacts SumFacts TrustScorer Samples Inputs.

(** The scorer, unfolded: the six component scores, their weighted
    sum, the decay step and the fields of the result. *)
Lemma calculate_trust_score_unfold now th pd vr r th' :
  calculate_trust_score now th pd vr = Ok (r, th') ->
  exists historical scores w s,
    _calculate_historical_performance pd = Ok historical
    /\ scores = [("behavior_consistency", _calculate_behavior_consistency pd);
                 ("location_verification", _calculate_location_trust vr);
                 ("historical_performance", historical);
                 ("social_behavior", _calculate_social_behavior pd);
                 ("device_reputation", _calculate_device_reputation pd);
                 ("temporal_patterns", _calculate_temporal_consistency pd)]
    /\ weighted_sum trust_weights scores 0 = Ok w
    /\ _apply_trust_decay now th (player_id pd) w = (s, th')
    /\ r = TrustResult (max 0 (min 1 s)) (_determine_trust_level s) scores
                       (_calculate_confidence scores)
                       (_generate_trust_recommendations scores).
Proof.
  unfold calculate_trust_score. intros H.
  destruct (_calculate_historical_performance pd) as [historical|]; [|discriminate].
  cbn [bind] in H.
  destruct (weighted_sum _ _ _) as [w|] eqn:Ew; [|discriminate].
  cbn [bind] in H.
  destruct (_apply_trust_decay _ _ _ _) as [s h] eqn:Ed.
  injection H as <- <-.
  eexists historical, _, w, s. repeat split; try reflexivity; assumption.
Qed.

(** X1: the confidence that comes with a trust score lies between 0.5
    and 1: the six components are always all there, so only their
    spread lowers it. *)
Theorem trust_confidence_range now th pd vr r th' :
  calculate_trust_score now th pd vr = Ok (r, th') ->
  0.5 <= confidence r <= 1.
Proof.
  intros H.
  destruct (calculate_trust_score_unfold _ _ _ _ _ _ H)
    as (historical & scores & w & s & _ & Hscores & _ & _ & ->).
  cbn [confidence]. unfold _calculate_confidence.
  assert (Hlen : length (map snd scores) = 6%nat) by (subst scores; reflexivity).
  rewrite Hlen. cbn [Nat.ltb Nat.leb]. unfold len. rewrite Hlen.
  assert (Hvar : 0 <= var (map snd scores)).
  { apply var_nonneg. intros E. rewrite E in Hlen. discriminate Hlen. }
  replace (INR 6 / 6) with 1 by (cbn; lra).
  rewrite (min_left 1 1) by lra.
  pose proof (min_le_l 1 (var (map snd scores) * 5)).
  assert (0 <= min 1 (var (map snd scores) * 5)) by (apply min_glb; lra).
  lra.
Qed.

Lemma apply_trust_decay_history now th player w s th' :
  _apply_trust_decay now th player w = (s, th') ->
  (falsy_id player = true -> th' = th /\ s = w)
  /\ (forall pid, player = Some pid -> pid <> "" ->
      th' = <[pid := HistoryEntry now s]> th).
Proof.
  unfold _apply_trust_decay. intros H. split.
  - intros Hfalsy. destruct player as [pid|]; [|injection H as <- <-; tauto].
    rewrite Hfalsy in H. injection H as <- <-. tauto.
  - intros pid -> Hpid. cbn [falsy_id] in H.
    destruct (decide (pid = "")); [contradiction|].
    destruct (th !! pid); injection H as <- <-; reflexivity.
Qed.


(** X4: after a player has been scored, scoring the same data again
    before a full day has passed gives the result of a first-time
    player: the decay of the earlier call is not carried over. *)
Theorem rescoring_same_day_skips_decay now1 now2 th pd vr r1 th1 pid :
  player_id pd = Some pid ->
  pid <> "" ->
  calculate_trust_score now1 th pd vr = Ok (r1, th1) ->
  days_between now2 now1 = 0%Z ->
  exists r2 th2 th0,
    calculate_trust_score now2 th1 pd vr = Ok (r2, th2)
    /\ calculate_trust_score now2 ∅ pd vr = Ok (r2, th0).
Proof.
  intros Hpid Hne H1 Hdays.
  destruct (calculate_trust_score_unfold _ _ _ _ _ _ H1)
    as (historical & scores & w & s1 & Hhist & Hscores & Hw & Hdecay & _).
  destruct (apply_trust_decay_history _ _ _ _ _ _ Hdecay) as [_ Hsome].
  specialize (Hsome pid Hpid Hne). subst scores.
  unfold calculate_trust_score. rewrite Hhist. cbn [bind]. rewrite Hw. cbn [bind].
  unfold _apply_trust_decay. rewrite Hpid. cbn [falsy_id].
  destruct (decide (pid = "")); [contradiction|].
  rewrite Hsome, lookup_insert_eq, lookup_empty. cbn [timestamp].
  rewrite Hdays. cbn [powerRZ]. rewrite Rmult_1_r.
  eexists _, _, _. split; reflexivity.
Qed.

(** Rescoring the sample player within the same day. *)
Lemma rescoring_same_day_skips_decay_sample :
  exists r1 th1 r2 th2 th0,
    calculate_trust_score 0 prior_history player_p blank_verification = Ok (r1, th1)
    /\ calculate_trust_score 1 th1 player_p blank_verification = Ok (r2, th2)
    /\ calculate_trust_score 1 ∅ player_p blank_verification = Ok (r2, th0).
Proof.
  destruct (TrustScorerFacts.calculate_trust_score_returns 0 prior_history player_p
              blank_verification) as (r1 & th1 & H1); [cbn; lra|].
  destruct (rescoring_same_day_skips_decay 0 1 prior_history player_p
              blank_verification r1 th1 "p") as (r2 & th2 & th0 & H2 & H0);
    [reflexivity | discriminate | exact H1 | reflexivity |].
  exists r1, th1, r2, th2, th0. repeat split; assumption.
Defined.

(** The ranges and the history for the sample player. *)
Lemma trust_confidence_range_sample :
  exists r th',
    calculate_trust_score 0 ∅ player_p blank_verification = Ok (r, th')
    /\ 0.5 <= confidence r <= 1.
Proof.
  destruct (TrustScorerFacts.calculate_trust_score_returns 0 ∅ player_p
              blank_verification) as (r & th' & H); [cbn; lra|].
  exists r, th'. split; [exact H|].
  apply (trust_confidence_range 0 ∅ player_p blank_verification r th' H).
Defined.


End TrustHistoryFacts.

(** ** Location verification: necessary signals and failures *)

Module VerificationFacts.

Import Py PyFacts LocationVerificationService LocationVerificationFacts.
Import Samples Inputs.

Lemma risk_factors_unfold now ld :
  risk_factors (comprehensive_location_verification now ld)
  = _identify_location_risk_factors
      (method_results (comprehensive_location_verification now ld)).
Proof.
  unfold comprehensive_location_verification.
  destruct (fold_left _ _ _). reflexivity.
Qed.

Lemma stored_gps now ld :
  assoc "gps" (method_results (comprehensive_location_verification now ld))
  = Some (Spec.outcome (_verify_gps_location ld)).
Proof. rewrite method_results_unfold. reflexivity. Qed.

Lemma stored_wifi now ld :
  assoc "wifi" (method_results (comprehensive_location_verification now ld))
  = Some (Spec.outcome (_verify_wifi_fingerprint ld)).
Proof. rewrite method_results_unfold. reflexivity. Qed.

Lemma stored_ip now ld :
  assoc "ip" (method_results (comprehensive_location_verification now ld))
  = Some (Spec.outcome (_verify_ip_geolocation ld)).
Proof. rewrite method_results_unfold. reflexivity. Qed.

(** With a mock provider the GPS confidence is at most 0.19 and the
    issue is reported. *)
Lemma gps_mock_provider ld g r :
  gps ld = Some g ->
  is_mock_provider g = Some true ->
  _verify_gps_location ld = Ok r ->
  confidence r <= 0.19 /\ existsb mentions_mock (issues r) = true.
Proof.
  unfold _verify_gps_location, _check_altitude_consistency, bind,
    jlt, jgt, jge, jle, num.
  intros -> Hmock. cbn [get]. rewrite Hmock. cbn [get].
  intros H. break_hyps.
  all: cbn [confidence issues]; split;
    [apply Rle_trans with (2 := Rle_refl 0.19);
     etransitivity; [apply min_le_r|]; break_goal; lra
    | rewrite ?existsb_app; cbn; rewrite ?orb_true_r; reflexivity].
Qed.

(** X5: location data whose GPS part names a mock provider is never
    verified, whatever the other signals are, and when the GPS check
    returns the risk factor [mock_location_detected] is reported. *)
Theorem mock_provider_never_verified now ld g :
  gps ld = Some g ->
  is_mock_provider g = Some true ->
  is_verified (comprehensive_location_verification now ld) = false
  /\ ((exists r, _verify_gps_location ld = Ok r) ->
      "mock_location_detected"
        ∈ risk_factors (comprehensive_location_verification now ld)).
Proof.
  intros Hgps Hmock. split.
  - rewrite is_verified_unfold, overall_confidence_unfold. apply geb_false.
    pose proof (outcome_wifi_bounds ld). pose proof (outcome_cell_bounds ld).
    pose proof (outcome_bluetooth_bounds ld). pose proof (outcome_ip_bounds ld).
    assert (confidence (Spec.outcome (_verify_gps_location ld)) <= 0.19).
    { destruct (_verify_gps_location ld) as [r|e] eqn:E; cbn [Spec.outcome].
      - apply (gps_mock_provider ld g r Hgps Hmock E).
      - cbn. lra. }
    lra.
  - intros [r Hr]. rewrite risk_factors_unfold.
    unfold _identify_location_risk_factors. rewrite stored_gps, Hr.
    cbn [Spec.outcome fmap option_fmap option_map get].
    destruct (gps_mock_provider ld g r Hgps Hmock Hr) as [_ ->].
    rewrite !elem_of_app. right. left. apply list_elem_of_here.
Qed.

(** X6: the overall confidence never exceeds 0.92, and location data is
    verified only if the stored GPS confidence is at least 0.45; so a
    request whose GPS check raised is never verified. *)
Theorem verification_needs_gps now ld :
  overall_confidence (comprehensive_location_verification now ld) <= 0.92
  /\ (is_verified (comprehensive_location_verification now ld) = true ->
      Spec.method_confidence "gps" (comprehensive_location_verification now ld)
      >= 0.45)
  /\ ((exists e, _verify_gps_location ld = Raise e) ->
      is_verified (comprehensive_location_verification now ld) = false).
Proof.
  pose proof (outcome_gps_bounds ld). pose proof (outcome_wifi_bounds ld).
  pose proof (outcome_cell_bounds ld). pose proof (outcome_bluetooth_bounds ld).
  pose proof (outcome_ip_bounds ld).
  split; [rewrite overall_confidence_unfold; lra|]. split.
  - rewrite is_verified_unfold, geb_true, overall_confidence_unfold.
    unfold Spec.method_confidence. rewrite stored_gps.
    cbn [fmap option_fmap option_map get]. lra.
  - intros [e He]. rewrite is_verified_unfold, overall_confidence_unfold, He.
    apply geb_false. cbn [Spec.outcome failed confidence]. lra.
Qed.

(** Location data with a mock provider and nothing else, and location
    data whose GPS accuracy is a string. *)
Lemma mock_provider_never_verified_sample :
  is_verified (comprehensive_location_verification 0 mock_location) = false.
Proof.
  apply (mock_provider_never_verified 0 mock_location
           (GpsData None None None (Some true) None None None) eq_refl eq_refl).
Defined.

Lemma verification_needs_gps_sample :
  is_verified (comprehensive_location_verification 0 garbled_location) = false.
Proof.
  apply (proj2 (proj2 (verification_needs_gps 0 garbled_location))).
  exists TypeError. reflexivity.
Defined.

(** The network count of the WiFi result. *)
Lemma wifi_network_count ld r :
  _verify_wifi_fingerprint ld = Ok r ->
  network_count r = Some (length (get (networks (get (wifi ld) empty_wifi)) [])).
Proof.
  unfold _verify_wifi_fingerprint, bind. intros H.
  destruct (get (networks (get (wifi ld) empty_wifi)) []) as [|n nets].
  { injection H as <-. reflexivity. }
  destruct (sum_jvals _ 0); [|discriminate].
  destruct (_identify_known_networks _); injection H as <-; reflexivity.
Qed.

(** X7: the risk factor [no_wifi_networks] is reported exactly when no
    network was sent or the WiFi check raised (for instance on a signal
    strength that is not a number), in which case networks were sent. *)
Theorem no_wifi_risk_factor now ld :
  "no_wifi_networks" ∈ risk_factors (comprehensive_location_verification now ld)
  <-> get (networks (get (wifi ld) empty_wifi)) [] = []
      \/ exists e, _verify_wifi_fingerprint ld = Raise e.
Proof.
  rewrite risk_factors_unfold. unfold _identify_location_risk_factors.
  rewrite stored_wifi.
  rewrite !elem_of_app, !PatternAnalyzerFacts.elem_of_if_singleton.
  destruct (_verify_wifi_fingerprint ld) as [r|e] eqn:E; cbn [Spec.outcome].
  - cbn [mbind option_bind]. rewrite (wifi_network_count ld r E). cbn [get].
    rewrite Nat.eqb_eq, length_zero_iff_nil.
    split.
    + intros [[H _]|[[H _]|[[_ H]|[[H _]|[H _]]]]];
        try discriminate H. left. exact H.
    + intros [H|[e He]]; [|discriminate He]. right. right. left. tauto.
  - cbn [mbind option_bind failed network_count get]. split; [eauto|].
    intros _. right. right. left. split; reflexivity.
Qed.

Lemma bearing_bounds x : 0 <= fmod x 360 <= 360.
Proof.
  unfold fmod.
  pose proof (Zfloor_bound (x / 360)) as [Hlo Hhi].
  split.
  - apply Rmult_le_compat_l with (r := 360) in Hlo; [|lra].
    replace (360 * (x / 360)) with x in Hlo by field. lra.
  - apply Rmult_lt_compat_l with (r := 360) in Hhi; [|lra].
    replace (360 * (x / 360)) with x in Hhi by field. lra.
Qed.

(** X8: between two points whose coordinates are a latitude and a
    longitude in degrees, the bearing is computed and lies between 0
    and 360 degrees. *)
Theorem bearing_in_range point1 point2 :
  Notions.geographic point1 ->
  Notions.geographic point2 ->
  exists b, _calculate_bearing point1 point2 = Ok b /\ 0 <= b <= 360.
Proof.
  intros (lat1 & lon1 & Hlat1 & Hlon1 & _) (lat2 & lon2 & Hlat2 & Hlon2 & _).
  unfold _calculate_bearing. rewrite Hlat1, Hlon1, Hlat2, Hlon2.
  cbn [index bind]. eexists. split; [reflexivity | apply bearing_bounds].
Qed.

(** *** The haversine distance *)

Lemma pow2_sin_opp x : sin (- x) ^ 2 = sin x ^ 2.
Proof. rewrite sin_neg. ring. Qed.

Lemma haversine_symmetric lat1 lon1 lat2 lon2 :
  haversine lat1 lon1 lat2 lon2 = haversine lat2 lon2 lat1 lon1.
Proof.
  unfold haversine.
  replace ((radians lat1 - radians lat2) / 2)
    with (- ((radians lat2 - radians lat1) / 2)) by lra.
  replace ((radians lon1 - radians lon2) / 2)
    with (- ((radians lon2 - radians lon1) / 2)) by lra.
  rewrite !pow2_sin_opp.
  rewrite (Rmult_comm (cos (radians lat2)) (cos (radians lat1))). reflexivity.
Qed.

Lemma asin_nonneg x : 0 <= x <= 1 -> 0 <= asin x.
Proof.
  intros Hx. destruct (Rle_lt_dec 0 (asin x)) as [H|H]; [exact H|].
  exfalso. pose proof (asin_bound x) as [Hlo _].
  pose proof (sin_asin x) as Hsin. rewrite <- Hsin in Hx at 1 by lra.
  pose proof PI_RGT_0.
  assert (sin (asin x) < 0) by (apply sin_lt_0_var; lra).
  lra.
Qed.

Lemma haversine_range lat1 lon1 lat2 lon2 :
  0 <= haversine lat1 lon1 lat2 lon2 <= PI * 6371000.
Proof.
  unfold haversine.
  pose proof (MovementFacts.haversine_argument_range (radians lat1) (radians lat2)
                (radians lon2 - radians lon1)) as [Hlo Hhi].
  set (a := _ + _) in *.
  assert (Hs : 0 <= sqrt a <= 1).
  { split; [apply sqrt_pos|]. rewrite <- sqrt_1. apply sqrt_le_1; lra. }
  pose proof (asin_nonneg _ Hs). pose proof (asin_bound (sqrt a)) as [_ Hup].
  lra.
Qed.

(** X9: the haversine distance does not depend on the order of the two
    points, and it lies between 0 and half the circumference of the
    Earth, pi * 6371000 metres. *)
Theorem distance_symmetric_and_bounded loc1 loc2 d :
  _calculate_distance loc1 loc2 = Ok d ->
  _calculate_distance loc2 loc1 = Ok d /\ 0 <= d <= PI * 6371000.
Proof.
  unfold _calculate_distance, bind, index. intros H.
  destruct (lat loc1), (lon loc1), (lat loc2), (lon loc2); try discriminate H.
  injection H as <-. split.
  - f_equal. apply haversine_symmetric.
  - apply haversine_range.
Qed.

(** The distance between the two sample cities. *)
Lemma distance_symmetric_and_bounded_sample :
  _calculate_distance berlin paris = Ok (haversine 48.85 2.35 52.52 13.4)
  /\ 0 <= haversine 48.85 2.35 52.52 13.4 <= PI * 6371000.
Proof.
  apply (distance_symmetric_and_bounded paris berlin). reflexivity.
Defined.

(** The bearing between the two sample cities. *)
Lemma bearing_in_range_sample :
  exists b, _calculate_bearing paris berlin = Ok b /\ 0 <= b <= 360.
Proof.
  apply (bearing_in_range paris berlin).
  - exists 48.85, 2.35. repeat split; try reflexivity; lra.
  - exists 52.52, 13.4. repeat split; try reflexivity; lra.
Defined.

(** *** Movement patterns: failures and the verdict *)

Lemma complete_cases l :
  Notions.complete_location l \/ ~ Notions.complete_location l.
Proof.
  unfold Notions.complete_location.
  destruct (lat l), (lon l); [left; split; eauto | right | right | right];
    intros [[? H1] [? H2]]; discriminate.
Qed.

Lemma distance_complete loc1 loc2 :
  Notions.complete_location loc1 ->
  Notions.complete_location loc2 ->
  exists d, _calculate_distance loc1 loc2 = Ok d.
Proof.
  unfold _calculate_distance.
  intros [[? ->] [? ->]] [[? ->] [? ->]]. cbn [index bind]. eauto.
Qed.

Lemma distance_incomplete loc1 loc2 :
  ~ Notions.complete_location loc1 \/ ~ Notions.complete_location loc2 ->
  _calculate_distance loc1 loc2 = Raise KeyError.
Proof.
  unfold _calculate_distance, Notions.complete_location.
  destruct (lat loc1), (lon loc1), (lat loc2), (lon loc2); cbn [index bind];
    try reflexivity.
  intros [H|H]; exfalso; apply H; split; eauto.
Qed.

Lemma unnatural_speed_complete prev curr :
  Notions.complete_location prev ->
  Notions.complete_location curr ->
  exists o, unnatural_speed prev curr = Ok o.
Proof.
  intros Hp Hc. unfold unnatural_speed.
  destruct (distance_complete prev curr Hp Hc) as [d ->]. cbn [bind].
  destruct (gtb _ 0); [destruct (gtb _ 50)|]; eauto.
Qed.

Lemma unnatural_speed_incomplete prev curr :
  ~ Notions.complete_location prev \/ ~ Notions.complete_location curr ->
  unnatural_speed prev curr = Raise KeyError.
Proof.
  intros H. unfold unnatural_speed. rewrite (distance_incomplete _ _ H).
  reflexivity.
Qed.

Lemma teleportation_loop_complete rest : forall prev state,
  Notions.complete_location prev ->
  Forall Notions.complete_location rest ->
  exists state', teleportation_loop prev rest state = Ok state'.
Proof.
  induction rest as [|curr rest IH]; intros prev state Hp Hall;
    cbn [teleportation_loop]; [eauto|].
  inversion Hall as [|? ? Hc Hrest]; subst.
  destruct (unnatural_speed_complete prev curr Hp Hc) as [o ->]. cbn [bind].
  destruct state as [issues score]. apply IH; assumption.
Qed.

Lemma teleportation_loop_incomplete rest : forall prev state,
  rest <> [] ->
  Exists (fun l => ~ Notions.complete_location l) (prev :: rest) ->
  teleportation_loop prev rest state = Raise KeyError.
Proof.
  induction rest as [|curr rest IH]; intros prev state Hne Hex; [contradiction|].
  cbn [teleportation_loop].
  destruct (complete_cases prev) as [Hp|Hp];
    [|rewrite unnatural_speed_incomplete by tauto; reflexivity].
  destruct (complete_cases curr) as [Hc|Hc];
    [|rewrite unnatural_speed_incomplete by tauto; reflexivity].
  destruct (unnatural_speed_complete prev curr Hp Hc) as [o ->]. cbn [bind].
  destruct state as [issues score].
  apply Exists_cons in Hex as [Hex|Hex]; [contradiction|].
  apply IH; [|exact Hex].
  intros ->. apply Exists_cons in Hex as [Hex|Hex]; [contradiction|].
  apply Exists_nil in Hex. exact Hex.
Qed.

Lemma bearings_complete rest : forall prev,
  Notions.complete_location prev ->
  Forall Notions.complete_location rest ->
  exists bs, bearings prev rest = Ok bs.
Proof.
  induction rest as [|curr rest IH]; intros prev Hp Hall; cbn [bearings]; [eauto|].
  inversion Hall as [|? ? Hc Hrest]; subst.
  unfold _calculate_bearing.
  pose proof Hp as [[? ->] [? ->]]. pose proof Hc as [[? ->] [? ->]].
  cbn [index bind]. destruct (IH curr Hc Hrest) as [bs ->]. cbn [bind]. eauto.
Qed.

Lemma straight_line_complete history :
  Forall Notions.complete_location history ->
  exists b, _check_straight_line_movement history = Ok b.
Proof.
  intros Hall. unfold _check_straight_line_movement.
  destruct (length history <? 4)%nat; [eauto|].
  destruct history as [|first rest]; [eauto|].
  inversion Hall; subst.
  destruct (bearings_complete rest first) as [bs ->]; [assumption..|].
  cbn [bind]. eauto.
Qed.

Lemma coordinate_pairs_complete history :
  Forall Notions.complete_location history ->
  exists ps, coordinate_pairs history = Ok ps.
Proof.
  induction 1 as [|l rest [[? Hla] [? Hlo]] _ [ps IH]]; cbn [coordinate_pairs];
    [eauto|].
  rewrite Hla, Hlo. cbn [index bind]. rewrite IH. cbn [bind]. eauto.
Qed.

Lemma repetitive_complete history :
  Forall Notions.complete_location history ->
  exists b, _check_repetitive_patterns history = Ok b.
Proof.
  intros Hall. unfold _check_repetitive_patterns.
  destruct (length history <? 6)%nat; [eauto|].
  destruct (coordinate_pairs_complete history Hall) as [ps ->]. cbn [bind]. eauto.
Qed.

Lemma verify_movement_patterns_complete history :
  Forall Notions.complete_location history ->
  exists r, verify_movement_patterns history = Ok r.
Proof.
  intros Hall. unfold verify_movement_patterns.
  destruct (length history <? 3)%nat; [eauto|].
  destruct (straight_line_complete history Hall) as [straight ->].
  destruct (repetitive_complete history Hall) as [repetitive ->].
  destruct history as [|first rest]; [eauto|].
  inversion Hall; subst.
  destruct (teleportation_loop_complete rest first ([], 1)) as [[issues score] ->];
    [assumption..|].
  cbn [bind]. destruct straight, repetitive; eauto.
Qed.

Lemma verify_movement_patterns_incomplete history :
  (3 <= length history)%nat ->
  Exists (fun l => ~ Notions.complete_location l) history ->
  verify_movement_patterns history = Raise KeyError.
Proof.
  intros Hlen Hex. unfold verify_movement_patterns.
  replace (length history <? 3)%nat with false
    by (symmetry; apply Nat.ltb_ge; exact Hlen).
  destruct history as [|first rest]; [cbn in Hlen; lia|].
  rewrite teleportation_loop_incomplete; [reflexivity | | exact Hex].
  intros ->. cbn in Hlen. lia.
Qed.

(** X10: a history of fewer than three points is answered with the
    fixed result for insufficient data, whatever its points hold; a
    history of at least three points one of which lacks its latitude
    or its longitude makes the movement check fail, and the endpoint
    [POST /verify-location] answers it with a server error. *)
Theorem movement_check_fails_on_missing_coordinate now ld history :
  ((length history < 3)%nat ->
   verify_movement_patterns history
   = Ok (MovementResult true 0.5 [InsufficientMovementData] None))
  /\ ((3 <= length history)%nat ->
      Exists (fun l => ~ Notions.complete_location l) history ->
      exists e,
        verify_movement_patterns history = Raise e
        /\ Main.verify_location now ld history = Main.ServerError e).
Proof.
  split.
  - intros Hshort. unfold verify_movement_patterns.
    apply Nat.ltb_lt in Hshort. rewrite Hshort. reflexivity.
  - intros Hlong Hex. exists KeyError.
    pose proof (verify_movement_patterns_incomplete history Hlong Hex) as Hraise.
    split; [exact Hraise|].
    unfold Main.verify_location. rewrite Hraise.
    destruct history; [cbn in Hlong; lia | reflexivity].
Qed.

(** The history with a missing longitude fails the endpoint. *)
Lemma movement_check_fails_on_missing_coordinate_sample :
  exists e,
    verify_movement_patterns broken_history = Raise e
    /\ Main.verify_location 0 blank_location broken_history = Main.ServerError e.
Proof.
  apply (proj2 (movement_check_fails_on_missing_coordinate 0 blank_location
                  broken_history)).
  - cbn. lia.
  - apply Exists_cons_tl, Exists_cons_hd. intros [_ [? H]]. discriminate H.
Defined.

(** What the teleportation loop does to the issues and the score. *)
Lemma teleportation_loop_verdict rest : forall prev issues score issues' score',
  teleportation_loop prev rest (issues, score) = Ok (issues', score') ->
  0 < score ->
  Forall (fun i => Spec.speed_issue i = true) issues ->
  Forall (fun i => Spec.speed_issue i = true) issues'
  /\ 0 < score'
  /\ ((issues' = issues /\ score' = score)
      \/ (existsb Spec.speed_issue issues' = true /\ score' <= score * 0.5)).
Proof.
  induction rest as [|curr rest IH]; intros prev issues score issues' score' H Hpos Hall.
  - cbn in H. injection H as <- <-. tauto.
  - cbn [teleportation_loop] in H.
    destruct (unnatural_speed prev curr) as [[speed|]|]; cbn [bind] in H;
      [| |discriminate].
    + apply IH in H as (Hall' & Hpos' & Hcases); [|lra|].
      2:{ apply Forall_app. split; [exact Hall|]. repeat constructor. }
      split; [exact Hall'|]. split; [exact Hpos'|]. right.
      destruct Hcases as [[-> ->]|[Hspeed Hle]].
      * split; [|lra]. rewrite existsb_app. cbn. apply orb_true_r.
      * split; [exact Hspeed | lra].
    + apply IH in H; assumption.
Qed.

Lemma no_speed_issue_in issues :
  Forall (fun i => Spec.speed_issue i = true) issues ->
  (StraightMovement ∉ issues) /\ (RepetitiveMovement ∉ issues).
Proof.
  intros Hall. rewrite Forall_forall in Hall.
  split; intros Hin; apply Hall in Hin; discriminate Hin.
Qed.

(** X11: for a history of at least three points the movement confidence
    lies between 0 and 1, and the movement is called natural exactly
    when no pair of points was penalised for its speed and the history
    is not both straight and repetitive: one unnatural speed is enough
    for the verdict. *)
Theorem natural_movement_verdict history r :
  (3 <= length history)%nat ->
  verify_movement_patterns history = Ok r ->
  0 <= movement_confidence r <= 1
  /\ (natural_movement r = true
      <-> existsb Spec.speed_issue (movement_issues r) = false
          /\ ~ (StraightMovement ∈ movement_issues r
                /\ RepetitiveMovement ∈ movement_issues r)).
Proof.
  intros Hlen. unfold verify_movement_patterns.
  replace (length history <? 3)%nat with false
    by (symmetry; apply Nat.ltb_ge; exact Hlen).
  destruct history as [|first rest]; [cbn in Hlen; lia|].
  destruct (teleportation_loop first rest ([], 1)) as [[issues1 score1]|] eqn:Eloop;
    [|discriminate].
  cbn [bind].
  apply teleportation_loop_verdict in Eloop as (Hall & Hpos & Hcases);
    [|lra|constructor].
  destruct (no_speed_issue_in issues1 Hall) as [Hs Hr].
  assert (Hscore : (issues1 = [] /\ score1 = 1)
                   \/ (existsb Spec.speed_issue issues1 = true /\ score1 <= 0.5)).
  { destruct Hcases as [[-> ->]|[H Hle]]; [left; tauto | right; split; [exact H|lra]]. }
  destruct (_check_straight_line_movement _) as [[|]|]; [| |discriminate];
    cbn [bind];
    (destruct (_check_repetitive_patterns _) as [[|]|]; [| |discriminate]);
    cbn [bind]; intros [= <-];
    cbn [movement_confidence natural_movement movement_issues];
    rewrite ?existsb_app; cbn [existsb Spec.speed_issue];
    rewrite ?orb_false_r, ?elem_of_app, ?list_elem_of_singleton, geb_true;
    (split; [lra|]);
    destruct Hscore as [[-> ->]|[Hex Hle]];
    rewrite ?Hex, ?elem_of_nil; cbn [existsb];
    (split;
     [ intros Hge;
       first [ exfalso; lra | split; [reflexivity | intuition discriminate] ]
     | intros [Hno Hnot];
       first [ discriminate Hno | lra | exfalso; apply Hnot; split; auto ] ]).
Qed.

(** Three fixes at the same place are natural movement. *)
Lemma natural_movement_verdict_sample :
  exists r,
    verify_movement_patterns steady_history = Ok r
    /\ 0 <= movement_confidence r <= 1.
Proof.
  destruct (verify_movement_patterns_complete steady_history) as [r Hr].
  { repeat constructor; eauto. }
  exists r. split; [exact Hr|].
  apply (natural_movement_verdict steady_history r); [cbn; lia | exact Hr].
Defined.

End VerificationFacts.

(** ** Pattern analyzer: ranges, indicators and histories *)

Module PatternFacts.

Import Py PyFacts SliceFacts PatternAnalyzer PatternAnalyzerFacts Samples Inputs.

Ltac score_range :=
  break_inner; cbn [fst]; (split; [apply min_glb; lra | apply min_le_l]).

Lemma speed_score_range pd ctx : 0 <= fst (_analyze_speed_hacking pd ctx) <= 1.
Proof. unfold _analyze_speed_hacking. score_range. Qed.

Lemma spoofing_score_range pd ctx : 0 <= fst (_analyze_location_spoofing pd ctx) <= 1.
Proof. unfold _analyze_location_spoofing. score_range. Qed.

Lemma accounts_score_range pd ctx : 0 <= fst (_analyze_multiple_accounts pd ctx) <= 1.
Proof. unfold _analyze_multiple_accounts. score_range. Qed.

Lemma automation_score_range pd ctx : 0 <= fst (_analyze_automation pd ctx) <= 1.
Proof. unfold _analyze_automation. score_range. Qed.

Lemma collaboration_score_range pd ctx :
  0 <= fst (_analyze_collaborative_cheating pd ctx) <= 1.
Proof. unfold _analyze_collaborative_cheating. score_range. Qed.

Lemma pattern_score_range name pd ctx : 0 <= Spec.pattern_score name pd ctx <= 1.
Proof.
  unfold Spec.pattern_score, _analyze_single_pattern.
  repeat (destruct (decide _);
          [first [ apply speed_score_range | apply spoofing_score_range
                 | apply accounts_score_range | apply automation_score_range
                 | apply collaboration_score_range ]|]).
  cbn. lra.
Qed.

(** X12: every pattern score, the overall risk score and the confidence
    of an analysis lie between 0 and 1. *)
Theorem analysis_in_unit_interval now st pd ctx :
  (forall name score,
     assoc name (pattern_scores (fst (analyze_behavior_patterns now st pd ctx)))
     = Some score ->
     0 <= score <= 1)
  /\ 0 <= overall_risk_score (fst (analyze_behavior_patterns now st pd ctx)) <= 1
  /\ 0 <= confidence (fst (analyze_behavior_patterns now st pd ctx)) <= 1.
Proof.
  pose proof (pattern_score_range "speed_hacking" pd ctx) as H1.
  pose proof (pattern_score_range "location_spoofing" pd ctx) as H2.
  pose proof (pattern_score_range "multiple_accounts" pd ctx) as H3.
  pose proof (pattern_score_range "automation_detection" pd ctx) as H4.
  pose proof (pattern_score_range "collaborative_cheating" pd ctx) as H5.
  split; [|split].
  - intros name score. rewrite pattern_scores_unfold.
    unfold assoc. cbn [find fst].
    repeat (destruct (decide (_ = name));
            [cbn; intros [= <-]; assumption|]).
    discriminate.
  - rewrite overall_risk_unfold, pattern_scores_unfold, overall_risk_explicit.
    split.
    + apply Rmult_le_pos; [lra|]. left. apply Rinv_0_lt_compat. lra.
    + apply Rle_trans with ((0.9 + 0.8 + 0.7 + 0.85 + 0.6) / (0.9 + 0.8 + 0.7 + 0.85 + 0.6));
        [|right; field; lra].
      apply Rmult_le_compat_r; [left; apply Rinv_0_lt_compat; lra | lra].
  - cbn [analyze_behavior_patterns fst confidence].
    unfold _calculate_analysis_confidence. split; [|apply min_le_l].
    apply min_glb; [lra|].
    apply Rmult_le_pos; [|lra].
    unfold len. apply Rplus_le_le_0_compat; apply pos_INR.
Qed.

(** The speed score of the sample player. *)
Lemma analysis_in_unit_interval_sample :
  0 <= Spec.pattern_score "speed_hacking" fast_perfect_player blank_context <= 1.
Proof.
  apply (proj1 (analysis_in_unit_interval 0 blank_state fast_perfect_player
                  blank_context) "speed_hacking").
  rewrite pattern_scores_unfold. reflexivity.
Defined.

(** Membership of each catalog name in the detected patterns. *)
Lemma detected_named now st pd ctx name thr :
  assoc name cheating_patterns = Some thr ->
  name ∈ detected_patterns (fst (analyze_behavior_patterns now st pd ctx))
  <-> Spec.pattern_score name pd ctx >= threshold thr.
Proof.
  intros Hcfg. rewrite detected_iff.
  destruct (catalog_entries _ _ Hcfg)
    as [[-> ->]|[[-> ->]|[[-> ->]|[[-> ->]|[-> ->]]]]];
    split; try tauto;
    intros [[E H]|[[E H]|[[E H]|[[E H]|[E H]]]]]; try discriminate E; exact H.
Qed.

(** Finish a case of an indicator analysis: evaluate the capped sum and
    compare it with the threshold. *)
Ltac indicator_case :=
  cbv beta iota; cbn [fst andb orb]; py_max;
  split; intros; try reflexivity; try discriminate; try lra.

(** X13: [automation_detection] is detected exactly when at least two of
    its three indicators fire: consistent timing over more than five
    solving times, a movement efficiency above 0.98, mechanical
    interaction patterns.  No single indicator reaches the threshold. *)
Theorem automation_needs_two_indicators now st pd ctx :
  let timing :=
    (5 <? length (solving_times pd))%nat
    && gtb (_calculate_timing_consistency (solving_times pd)) 0.9 in
  let efficient := gtb (get (movement_efficiency pd) 0) 0.98 in
  let mechanical :=
    _has_mechanical_patterns (get (interaction_patterns pd) empty_interaction_info) in
  "automation_detection"
    ∈ detected_patterns (fst (analyze_behavior_patterns now st pd ctx))
  <-> timing && efficient || timing && mechanical || efficient && mechanical = true.
Proof.
  intros timing efficient mechanical. subst timing efficient mechanical.
  rewrite (detected_named now st pd ctx "automation_detection"
             (PatternConfig 0.75 ["consistent_timing"; "perfect_precision"] 0.85
                            "Bot-like behavior patterns")) by reflexivity.
  cbn [threshold]. unfold Spec.pattern_score.
  rewrite single_pattern_automation. unfold _analyze_automation.
  destruct (5 <? length (solving_times pd))%nat;
    destruct (gtb (_calculate_timing_consistency (solving_times pd)) 0.9);
    destruct (gtb (get (movement_efficiency pd) 0) 0.98);
    destruct (_has_mechanical_patterns _); indicator_case.
Qed.

Lemma single_pattern_spoofing pd ctx :
  _analyze_single_pattern "location_spoofing" pd ctx
  = _analyze_location_spoofing pd ctx.
Proof. reflexivity. Qed.

Lemma single_pattern_accounts pd ctx :
  _analyze_single_pattern "multiple_accounts" pd ctx
  = _analyze_multiple_accounts pd ctx.
Proof. reflexivity. Qed.

Lemma single_pattern_collaboration pd ctx :
  _analyze_single_pattern "collaborative_cheating" pd ctx
  = _analyze_collaborative_cheating pd ctx.
Proof. reflexivity. Qed.

(** X14: [location_spoofing] is detected exactly when the location data
    names a mock provider, or when there is an impossible movement
    together with a GPS issue; an impossible movement alone (0.6) or
    GPS issues alone (0.4) stay below the threshold 0.7. *)
Theorem spoofing_needs_mock_or_both now st pd ctx :
  let ld := get (location_data pd) empty_location_info in
  "location_spoofing"
    ∈ detected_patterns (fst (analyze_behavior_patterns now st pd ctx))
  <-> get (is_mock_provider ld) false = true
      \/ ((0 < _detect_impossible_movements (movement_history ld))%nat
          /\ gps_issues ld <> []).
Proof.
  intros ld.
  rewrite (detected_named now st pd ctx "location_spoofing"
             (PatternConfig 0.7 ["impossible_movements"; "gps_inconsistencies"] 0.8
                            "Fake location data")) by reflexivity.
  cbn [threshold]. unfold Spec.pattern_score.
  rewrite single_pattern_spoofing. unfold _analyze_location_spoofing. fold ld.
  rewrite <- Nat.ltb_lt.
  destruct (0 <? _detect_impossible_movements (movement_history ld))%nat;
    destruct (gps_issues ld) as [|i others];
    destruct (get (is_mock_provider ld) false);
    cbv beta iota; cbn [fst]; py_max;
    (split; [intros H; first [ left; reflexivity
                             | right; split; [reflexivity | discriminate]
                             | exfalso; lra ]
            | intros [H|[H1 H2]]; first [ lra | discriminate | contradiction ] ]).
Qed.

(** X15: [speed_hacking] is detected exactly when there are solving times
    and their mean is below 20 seconds, or below 40 seconds with a
    success rate above 0.95 over more than five solving times.  Without
    solving times it is never detected. *)
Theorem speed_hacking_conditions now st pd ctx :
  "speed_hacking"
    ∈ detected_patterns (fst (analyze_behavior_patterns now st pd ctx))
  <-> solving_times pd <> []
      /\ (mean (solving_times pd) < 20
          \/ (mean (solving_times pd) < 40
              /\ get (success_rate pd) 0.5 > 0.95
              /\ (5 < length (solving_times pd))%nat)).
Proof.
  rewrite (detected_named now st pd ctx "speed_hacking"
             (PatternConfig 0.8 ["avg_solving_time < 30"; "success_rate > 0.95"] 0.9
                            "Solving clues unrealistically fast")) by reflexivity.
  cbn [threshold]. unfold Spec.pattern_score.
  rewrite single_pattern_speed. unfold _analyze_speed_hacking.
  rewrite <- Nat.ltb_lt, <- (gtb_true (get (success_rate pd) 0.5)),
    <- !(ltb_true (mean (solving_times pd))).
  destruct (solving_times pd) as [|t ts] eqn:Et.
  - destruct (gtb (get (success_rate pd) 0.5) 0.95);
      cbv beta iota; cbn [fst andb length Nat.ltb Nat.leb]; py_max;
      (split; [intros H; exfalso; lra | intros [H _]; contradiction]).
  - destruct (ltb (mean (t :: ts)) 20) eqn:E20;
      destruct (ltb (mean (t :: ts)) 40) eqn:E40;
      destruct (gtb (get (success_rate pd) 0.5) 0.95);
      destruct (5 <? length (t :: ts))%nat;
      cbv beta iota; cbn [fst andb]; py_max;
      (split;
       [ intros H; split; [discriminate|];
         first [ left; reflexivity | right; repeat split; reflexivity
               | exfalso; lra ]
       | intros [_ [H|(H1 & H2 & H3)]];
         first [ lra | discriminate ] ]).
Qed.

(** X16: [multiple_accounts] and [collaborative_cheating] are each
    detected exactly when at least two of their three indicators fire.
    For multiple accounts: the device is among the similar devices,
    more than three accounts on the IP address, a behavioural
    similarity above 0.8.  For collaborative cheating: information
    sharing, the player among the coordinated actions, a network
    density above 0.8 over more than ten connections. *)
Theorem accounts_and_collaboration_need_two now st pd ctx :
  let same_device := bool_decide (device_fingerprint pd ∈ similar_devices ctx) in
  let crowded_ip :=
    gtb (match ip_address pd with
         | Some a => get (accounts_per_ip ctx !! a) 0
         | None => 0
         end) 3 in
  let similar := gtb (_calculate_behavioral_similarity pd ctx) 0.8 in
  let sharing :=
    _detect_information_sharing
      (get (communication_patterns pd) empty_communication_info) in
  let coordinated := bool_decide (player_id pd ∈ coordinated_actions ctx) in
  let dense :=
    (10 <? length (social_connections pd))%nat
    && gtb (_calculate_network_density (social_connections pd)) 0.8 in
  ("multiple_accounts"
     ∈ detected_patterns (fst (analyze_behavior_patterns now st pd ctx))
   <-> same_device && crowded_ip || same_device && similar
       || crowded_ip && similar = true)
  /\ ("collaborative_cheating"
       ∈ detected_patterns (fst (analyze_behavior_patterns now st pd ctx))
     <-> sharing && coordinated || sharing && dense || coordinated && dense = true).
Proof.
  intros same_device crowded_ip similar sharing coordinated dense.
  subst same_device crowded_ip similar sharing coordinated dense.
  split.
  - rewrite (detected_named now st pd ctx "multiple_accounts"
               (PatternConfig 0.6 ["same_device_id"; "similar_behavior"] 0.7
                              "Multiple accounts from same user")) by reflexivity.
    cbn [threshold]. unfold Spec.pattern_score.
    rewrite single_pattern_accounts. unfold _analyze_multiple_accounts.
    rewrite decide_bool_decide.
    destruct (bool_decide (device_fingerprint pd ∈ similar_devices ctx));
      destruct (gtb _ 3);
      destruct (gtb (_calculate_behavioral_similarity pd ctx) 0.8);
      indicator_case.
  - rewrite (detected_named now st pd ctx "collaborative_cheating"
               (PatternConfig 0.65 ["information_sharing"; "coordinated_solves"] 0.6
                              "Group cheating patterns")) by reflexivity.
    cbn [threshold]. unfold Spec.pattern_score.
    rewrite single_pattern_collaboration. unfold _analyze_collaborative_cheating.
    destruct (_detect_information_sharing _); cbv beta iota;
      rewrite decide_bool_decide;
      destruct (bool_decide (player_id pd ∈ coordinated_actions ctx));
      destruct (10 <? length (social_connections pd))%nat;
      destruct (gtb (_calculate_network_density (social_connections pd)) 0.8);
      indicator_case.
Qed.

(** *** The kept histories *)

Lemma earlier_records st pid name :
  get (get (player_patterns st !! pid) ∅ !! name) []
  = default [] (Notions.pattern_records st pid name).
Proof.
  unfold Notions.pattern_records.
  destruct (player_patterns st !! pid) as [per_player|]; cbn [get mbind option_bind].
  - destruct (per_player !! name); reflexivity.
  - rewrite lookup_empty. reflexivity.
Qed.

(** X17: recording a score for a player appends it, with the current
    time, to the records of that player and pattern and keeps the last
    100 of them: the new list is the end of the earlier records
    followed by the new one, of length 100 at most; no other list of
    records changes, and without a player identifier nothing is
    recorded. *)
Theorem pattern_history_keeps_last_100 now st pid name score :
  pid <> "" ->
  (exists records,
     Notions.pattern_records
       (_update_pattern_history now st (Some pid) name score) pid name
     = Some records
     /\ records `suffix_of`
          (default [] (Notions.pattern_records st pid name) ++ [(score, now)])
     /\ length records
        = Nat.min 100
            (S (length (default [] (Notions.pattern_records st pid name)))))
  /\ (forall pid' name',
        (pid', name') <> (pid, name) ->
        Notions.pattern_records
          (_update_pattern_history now st (Some pid) name score) pid' name'
        = Notions.pattern_records st pid' name')
  /\ _update_pattern_history now st None name score = st
  /\ _update_pattern_history now st (Some "") name score = st.
Proof.
  intros Hpid. rewrite <- earlier_records.
  unfold _update_pattern_history, Notions.pattern_records.
  destruct (decide (pid = "")); [contradiction|].
  cbn [player_patterns]. split; [|split; [|split; reflexivity]].
  - rewrite lookup_insert_eq. cbn [mbind option_bind]. rewrite lookup_insert_eq.
    eexists. split; [reflexivity|].
    split; [apply capped_suffix | apply capped_length].
  - intros pid' name' Hne.
    destruct (decide (pid' = pid)) as [->|Hp].
    + rewrite lookup_insert_eq. cbn [mbind option_bind].
      rewrite lookup_insert_ne by congruence.
      destruct (player_patterns st !! pid); reflexivity.
    + rewrite lookup_insert_ne by congruence. reflexivity.
Qed.

(** The records of the sample player after one score. *)
Lemma pattern_history_keeps_last_100_sample :
  exists records,
    Notions.pattern_records
      (_update_pattern_history 0 blank_state (Some "p") "speed_hacking" 0.8)
      "p" "speed_hacking"
    = Some records
    /\ records `suffix_of`
         (default [] (Notions.pattern_records blank_state "p" "speed_hacking")
          ++ [(0.8, 0%Z)])
    /\ length records
       = Nat.min 100
           (S (length (default []
                         (Notions.pattern_records blank_state "p"
                            "speed_hacking")))).
Proof.
  apply (pattern_history_keeps_last_100 0 blank_state "p" "speed_hacking" 0.8).
  discriminate.
Defined.

(** *** Detections and their statistics *)

Lemma update_global_step now st pattern :
  _update_global_patterns now st [pattern]
  = State (player_patterns st)
          (<[pattern :=
               let times := get (global_patterns st !! pattern) [] ++ [now] in
               if (1000 <? length times)%nat then last_n 1000 times else times]>
             (global_patterns st)).
Proof. reflexivity. Qed.

Lemma update_global_cons now st pattern rest :
  _update_global_patterns now st (pattern :: rest)
  = _update_global_patterns now (_update_global_patterns now st [pattern]) rest.
Proof. reflexivity. Qed.

Lemma update_global_other now detected : forall st name,
  name ∉ detected ->
  global_patterns (_update_global_patterns now st detected) !! name
  = global_patterns st !! name.
Proof.
  induction detected as [|p rest IH]; intros st name Hnot; [reflexivity|].
  rewrite update_global_cons, IH by (intros H; apply Hnot; right; exact H).
  rewrite update_global_step. cbn [global_patterns].
  apply lookup_insert_ne. intros ->. apply Hnot. left.
Qed.

Lemma update_global_detected now detected : forall st name,
  name ∈ detected ->
  exists times,
    global_patterns (_update_global_patterns now st detected) !! name = Some times
    /\ (length times <= 1000)%nat
    /\ last times = Some now.
Proof.
  induction detected as [|p rest IH]; intros st name Hin.
  - apply elem_of_nil in Hin. contradiction.
  - rewrite update_global_cons.
    destruct (decide (name ∈ rest)) as [Hrest|Hrest]; [apply IH, Hrest|].
    apply elem_of_cons in Hin as [->|Hin]; [|contradiction].
    rewrite update_global_other by exact Hrest.
    rewrite update_global_step. cbn [global_patterns]. rewrite lookup_insert_eq.
    eexists. split; [reflexivity|].
    apply (capped_records 1000 _ now). lia.
Qed.

Lemma recent_count_positive now times :
  last times = Some now ->
  (1 <= length (List.filter (fun ts => (now - ts <? microseconds_per_24h)%Z) times))%nat.
Proof.
  intros Hlast. apply last_Some_elem_of, list_elem_of_In in Hlast.
  assert (Hin : In now (List.filter
                          (fun ts => (now - ts <? microseconds_per_24h)%Z) times)).
  { apply filter_In. split; [exact Hlast|]. rewrite Z.sub_diag. reflexivity. }
  destruct (List.filter _ times); [contradiction | cbn; lia].
Qed.

(** X18: a pattern detected by an analysis appears in the statistics
    taken at that time, with at least one detection in the last 24
    hours, no more recent detections than detections in total, and at
    most 1000 detections kept. *)
Theorem detected_pattern_in_statistics now st pd ctx name :
  name ∈ detected_patterns (fst (analyze_behavior_patterns now st pd ctx)) ->
  exists stats,
    get_pattern_statistics now (snd (analyze_behavior_patterns now st pd ctx)) !! name
    = Some stats
    /\ (1 <= recent_detections_24h stats)%nat
    /\ (recent_detections_24h stats <= total_detections stats)%nat
    /\ (total_detections stats <= 1000)%nat.
Proof.
  intros Hin. cbn [analyze_behavior_patterns fst snd detected_patterns] in *.
  destruct (update_global_detected now _
              (ls_state (fold_left (analyze_step now pd ctx) cheating_patterns
                                   (LoopState [] [] [] st)))
              name Hin) as (times & Hlookup & Hlen & Hlast).
  unfold get_pattern_statistics. rewrite lookup_omap, Hlookup.
  cbn [mbind option_bind].
  destruct times as [|t times]; [discriminate Hlast|].
  eexists. split; [reflexivity|].
  cbn [recent_detections_24h total_detections].
  split; [apply recent_count_positive, Hlast|].
  split; [apply filter_length_le | exact Hlen].
Qed.

(** The statistics after the analysis of the sample player. *)
Lemma detected_pattern_in_statistics_sample :
  exists stats,
    get_pattern_statistics 0
      (snd (analyze_behavior_patterns 0 blank_state fast_perfect_player
              blank_context)) !! "speed_hacking"
    = Some stats
    /\ (1 <= recent_detections_24h stats)%nat.
Proof.
  destruct (detected_pattern_in_statistics 0 blank_state fast_perfect_player
              blank_context "speed_hacking") as (stats & H & Hrecent & _).
  - apply detected_iff. left. split; [reflexivity|].
    apply speed_score_fast; [discriminate|]. unfold mean, sum, len. cbn. lra.
  - exists stats. split; assumption.
Defined.

(** *** Impossible movements, here and in the fraud detector *)

Lemma impossible_loop_mono rest : forall prev count,
  (count <= impossible_loop prev rest count)%nat.
Proof.
  induction rest as [|curr rest IH]; intros prev count; cbn [impossible_loop];
    [lia|].
  destruct (gtb _ 0); [destruct (gtb _ 100)|];
    (etransitivity; [|apply IH]); lia.
Qed.

Lemma fraud_speed_is_impossible p c :
  Spec.above_500_kmh (p, c) ->
  gtb (get (timestamp (Notions.to_pattern_waypoint c)) 0
       - get (timestamp (Notions.to_pattern_waypoint p)) 0) 0 = true
  /\ gtb (_calculate_distance (Notions.to_pattern_waypoint p)
                              (Notions.to_pattern_waypoint c)
          / (get (timestamp (Notions.to_pattern_waypoint c)) 0
             - get (timestamp (Notions.to_pattern_waypoint p)) 0)) 100 = true.
Proof.
  unfold Spec.above_500_kmh, Spec.simplified_speed_kmh, _calculate_distance,
    Notions.to_pattern_waypoint.
  cbn [fst snd lat lon timestamp get]. intros [Hdt Hspeed].
  rewrite !gtb_true. split; [exact Hdt|].
  set (d := (Rabs _ + Rabs _) * 111000) in *.
  set (dt := Spec.tp_time c - Spec.tp_time p) in *.
  assert (Heq : d / 1000 / (dt / 3600) = d / dt * (36 / 10)) by (field; lra).
  rewrite Heq in Hspeed. lra.
Qed.

Lemma impossible_loop_counts rest : forall p count,
  Exists Spec.above_500_kmh (zip (p :: rest) rest) ->
  (count < impossible_loop (Notions.to_pattern_waypoint p)
             (map Notions.to_pattern_waypoint rest) count)%nat.
Proof.
  induction rest as [|c rest IH]; intros p count Hex.
  - cbn in Hex. apply Exists_nil in Hex. contradiction.
  - cbn [zip zip_with] in Hex. cbn [map impossible_loop].
    apply Exists_cons in Hex as [Hpair|Hrest].
    + destruct (fraud_speed_is_impossible p c Hpair) as [-> ->].
      apply Nat.lt_le_trans with (S count); [lia | apply impossible_loop_mono].
    + apply Nat.le_lt_trans with (2 := IH c _ Hrest).
      destruct (gtb _ 0); [destruct (gtb _ 100)|]; lia.
Qed.

(** X19: a movement history that the fraud detector flags as impossible
    (a pair above 500 km/h) is also counted as impossible by the
    pattern analyzer, whose cutoff on the same simplified distance is
    100 m/s, that is 360 km/h. *)
Theorem fraud_flag_implies_impossible_count (h : list Spec.track_point) :
  FraudDetector._check_impossible_movements (Spec.with_history h) = Ok true ->
  (1 <= _detect_impossible_movements (map Notions.to_pattern_waypoint h))%nat.
Proof.
  intros Hflag.
  destruct (MovementFacts.check_impossible_movements_track h) as (b & Hb & Hiff).
  rewrite Hflag in Hb. injection Hb as <-.
  assert (Hex : Exists Spec.above_500_kmh (Spec.adjacent_pairs h)) by (apply Hiff; reflexivity).
  unfold Spec.adjacent_pairs in Hex.
  destruct h as [|p rest]; [cbn in Hex; apply Exists_nil in Hex; contradiction|].
  cbn [map _detect_impossible_movements tail] in *.
  pose proof (impossible_loop_counts rest p 0%nat Hex). lia.
Qed.

(** The turn around the pole is impossible for both modules. *)
Lemma fraud_flag_implies_impossible_count_sample :
  (1 <= _detect_impossible_movements (map Notions.to_pattern_waypoint pole_turn))%nat.
Proof.
  apply (fraud_flag_implies_impossible_count pole_turn).
  destruct (MovementFacts.check_impossible_movements_track pole_turn)
    as (b & -> & Hiff).
  f_equal. apply Hiff.
  unfold Spec.adjacent_pairs, pole_turn. cbn [tail zip zip_with].
  apply Exists_cons_hd.
  unfold Spec.above_500_kmh, Spec.simplified_speed_kmh.
  cbn [fst snd Spec.tp_lat Spec.tp_lon Spec.tp_time].
  replace (90 - 90) with 0 by lra. rewrite Rabs_R0.
  replace (0 - 180) with (- (180)) by lra.
  rewrite Rabs_Ropp, (Rabs_right 180) by lra. lra.
Defined.

End PatternFacts.

(** ** Fraud detector: evidence, confidence and the log *)

Module FraudFacts.

Import Py PyFacts SumFacts FraudDetector FraudDetectorFacts Samples Inputs.

(** *** Rapid succession *)

Lemma last_cons (x : R) rest d : List.last (x :: rest) d = List.last rest x.
Proof.
  revert x d. induction rest as [|y rest IH]; intros x d; [reflexivity|].
  change (List.last (x :: y :: rest) d) with (List.last (y :: rest) d).
  rewrite !IH. reflexivity.
Qed.

Lemma differences_sum rest : forall prev,
  sum (differences prev rest) = List.last rest prev - prev.
Proof.
  induction rest as [|curr rest IH]; intros prev.
  - unfold sum. cbn. lra.
  - cbn [differences]. rewrite sum_cons, IH, last_cons. lra.
Qed.

Lemma differences_length rest : forall prev,
  length (differences prev rest) = length rest.
Proof.
  induction rest as [|curr rest IH]; intros prev; [reflexivity|].
  cbn [differences length]. rewrite IH. reflexivity.
Qed.

(** X20: with fewer than three recent solve times the rapid-succession
    check is false.  For times that are whole seconds (of at most 2^52,
    so that the differences and their sum are exact) it reads only the
    first and the last time and their number: it is true exactly when
    the last time minus the first is less than 60 seconds per gap,
    whatever the times in between are. *)
Theorem rapid_succession_reads_first_and_last pd ctx :
  ((length (recent_solve_times pd) < 3)%nat ->
   _check_rapid_succession_solves pd ctx = false)
  /\ forall first rest,
       recent_solve_times pd = first :: rest ->
       Forall Notions.whole_seconds (first :: rest) ->
       (2 <= length rest)%nat ->
       (_check_rapid_succession_solves pd ctx = true
        <-> List.last rest first - first < 60 * INR (length rest)).
Proof.
  unfold _check_rapid_succession_solves. split.
  - intros Hlen. apply Nat.ltb_lt in Hlen. rewrite Hlen. reflexivity.
  - intros first rest -> _ Hlen.
    replace (length (first :: rest) <? 3)%nat with false
      by (symmetry; apply Nat.ltb_ge; cbn; lia).
    unfold len. rewrite differences_sum, differences_length, ltb_true.
    assert (Hpos : 0 < INR (length rest)) by (apply lt_0_INR; lia).
    split; intros H.
    + apply Rmult_lt_compat_r with (r := INR (length rest)) in H; [|exact Hpos].
      unfold Rdiv in H. rewrite Rmult_assoc, Rinv_l in H by lra. lra.
    + apply Rmult_lt_reg_r with (r := INR (length rest)); [exact Hpos|].
      unfold Rdiv. rewrite Rmult_assoc, Rinv_l by lra. lra.
Qed.

(** Solves at 0, 1000 and 100 seconds are in rapid succession. *)
Lemma rapid_succession_reads_first_and_last_sample :
  _check_rapid_succession_solves erratic_solver blank_fraud_context = true.
Proof.
  apply (proj2 (rapid_succession_reads_first_and_last erratic_solver
                  blank_fraud_context) 0 [1000; 100] eq_refl).
  - repeat (apply Forall_cons; split); [| | |apply Forall_nil; exact I].
    + exists 0%Z. split; [reflexivity | apply Z.leb_le; reflexivity].
    + exists 1000%Z. split; [reflexivity | apply Z.leb_le; reflexivity].
    + exists 100%Z. split; [reflexivity | apply Z.leb_le; reflexivity].
  - cbn. lia.
  - cbn. lra.
Defined.

(** *** The detectors and the log *)

Lemma no_account_counts_empty : Notions.no_account_counts ∅.
Proof. intros key entry H. rewrite lookup_empty in H. discriminate H. Qed.

Lemma no_account_counts_log
    (activity_hash : string -> string -> fraud_result -> string)
    now sa player type details :
  Notions.no_account_counts sa ->
  Notions.no_account_counts
    (log_suspicious_activity activity_hash now sa player type details).
Proof.
  intros Hsa key entry. unfold log_suspicious_activity.
  destruct (decide (key = activity_hash player type details)) as [->|Hne].
  - rewrite lookup_insert_eq. intros [= <-]. reflexivity.
  - rewrite lookup_insert_ne by congruence. apply Hsa.
Qed.

Lemma multiple_accounts_without_counts sa pd ctx :
  Notions.no_account_counts sa ->
  _detect_multiple_accounts sa pd ctx = _detect_multiple_accounts ∅ pd ctx.
Proof.
  intros Hsa. unfold _detect_multiple_accounts. rewrite lookup_empty.
  destruct (sa !! get (device_fingerprint pd) "") as [entry|] eqn:E;
    [|reflexivity].
  unfold account_count. rewrite (Hsa _ _ E). cbn [get].
  replace (gtb 0 2) with false by (symmetry; apply gtb_false; lra).
  reflexivity.
Qed.

(** X21: the entries that [log_suspicious_activity] writes have no
    account count, so a log that holds only such entries (as the empty
    log of a new detector does, and as every log does that the
    endpoint or the logging function makes of one) never changes a
    fraud analysis: the same-device check of the multiple-accounts
    detector cannot fire, and that detector fires exactly when more
    than three similar players or more than five players on the IP
    address are reported. *)
Theorem fraud_analysis_ignores_log
    (activity_hash : string -> string -> fraud_result -> string)
    now sa pd ctx :
  Notions.no_account_counts sa ->
  (forall player type details,
     Notions.no_account_counts
       (log_suspicious_activity activity_hash now sa player type details))
  /\ Notions.no_account_counts
       (snd (Main.detect_fraud_patterns activity_hash now sa pd ctx))
  /\ detect_fraud_patterns sa pd ctx = detect_fraud_patterns ∅ pd ctx
  /\ (detected (_detect_multiple_accounts sa pd ctx) = true
      <-> (3 < length (similar_players ctx))%nat
          \/ get (players_per_ip ctx !! get (ip_address pd) "") 0 > 5).
Proof.
  intros Hsa. split; [|split; [|split]].
  - intros player type details. apply no_account_counts_log, Hsa.
  - unfold Main.detect_fraud_patterns.
    destruct (detect_fraud_patterns sa pd ctx) as [r|e]; cbn [snd]; [|exact Hsa].
    destruct (gtb (result_risk_score r) 0.7); [|exact Hsa].
    apply no_account_counts_log, Hsa.
  - unfold detect_fraud_patterns.
    rewrite (multiple_accounts_without_counts sa pd ctx Hsa). reflexivity.
  - rewrite (multiple_accounts_without_counts sa pd ctx Hsa).
    unfold _detect_multiple_accounts. rewrite lookup_empty.
    rewrite <- Nat.ltb_lt, <- gtb_true.
    destruct (3 <? length (similar_players ctx))%nat,
      (gtb (get (players_per_ip ctx !! get (ip_address pd) "") 0) 5);
      cbn [detected]; intuition discriminate.
Qed.

(** A log with one entry, written for the device of the player, does
    not change the analysis of that player. *)
Lemma fraud_analysis_ignores_log_sample :
  detect_fraud_patterns
    (log_suspicious_activity (fun _ _ _ => "device") 0 ∅ "p" "high_risk_fraud"
       (FraudResult [] 0 [] [] 0))
    shared_device_player crowded_context
  = detect_fraud_patterns ∅ shared_device_player crowded_context.
Proof.
  apply (fraud_analysis_ignores_log (fun _ _ _ => "device") 0).
  apply no_account_counts_log, no_account_counts_empty.
Defined.

(** *** Evidence and confidence *)

Lemma location_evidence pd d :
  _detect_location_fraud pd = Ok d ->
  detected d = true <-> detection_evidence d <> [].
Proof.
  unfold _detect_location_fraud, bind. intros H. break_hyps.
  all: cbn [detected detection_evidence app]; split; intros H;
    first [discriminate H | reflexivity | exfalso; apply H; reflexivity | discriminate].
Qed.

Lemma accounts_evidence sa pd ctx :
  detected (_detect_multiple_accounts sa pd ctx) = true
  <-> detection_evidence (_detect_multiple_accounts sa pd ctx) <> [].
Proof.
  unfold _detect_multiple_accounts. break_inner.
  all: cbn [detected detection_evidence app]; split; intros H;
    first [discriminate H | reflexivity | exfalso; apply H; reflexivity | discriminate].
Qed.

Lemma automation_evidence pd :
  detected (_detect_automation pd) = true
  <-> detection_evidence (_detect_automation pd) <> [].
Proof.
  unfold _detect_automation. break_inner.
  all: cbn [detected detection_evidence app]; split; intros H;
    first [discriminate H | reflexivity | exfalso; apply H; reflexivity | discriminate].
Qed.

Lemma collaboration_evidence pd ctx :
  detected (_detect_collaborative_cheating pd ctx) = true
  <-> detection_evidence (_detect_collaborative_cheating pd ctx) <> [].
Proof.
  unfold _detect_collaborative_cheating. break_inner.
  all: cbn [detected detection_evidence app]; split; intros H;
    first [discriminate H | reflexivity | exfalso; apply H; reflexivity | discriminate].
Qed.

Lemma silent_detector d :
  (detected d = true <-> detection_evidence d <> []) ->
  detected d = false -> detection_evidence d = [].
Proof.
  intros Hiff Hd. destruct (detection_evidence d) as [|x xs]; [reflexivity|].
  rewrite (proj2 Hiff) in Hd by discriminate. discriminate Hd.
Qed.

Lemma loud_detector d :
  (detected d = true <-> detection_evidence d <> []) ->
  detected d = true -> (1 <= length (detection_evidence d))%nat.
Proof.
  intros Hiff Hd. apply Hiff in Hd.
  destruct (detection_evidence d); [contradiction | cbn; lia].
Qed.

(** The evidence of the four blocks of [detect_fraud_patterns]. *)
Lemma detect_fraud_patterns_evidence sa pd ctx d1 :
  _detect_location_fraud pd = Ok d1 ->
  exists r,
    detect_fraud_patterns sa pd ctx = Ok r
    /\ evidence r
       = (if detected d1 then [("location", detection_evidence d1)] else [])
         ++ (if detected (_detect_multiple_accounts sa pd ctx)
             then [("multi_account",
                    detection_evidence (_detect_multiple_accounts sa pd ctx))]
             else [])
         ++ (if detected (_detect_automation pd)
             then [("automation", detection_evidence (_detect_automation pd))]
             else [])
         ++ (if detected (_detect_collaborative_cheating pd ctx)
             then [("collaboration",
                    detection_evidence (_detect_collaborative_cheating pd ctx))]
             else [])
    /\ confidence r = _calculate_fraud_confidence (evidence r)
    /\ recommendations r = _generate_fraud_recommendations (detected_patterns r).
Proof.
  intros H1. unfold detect_fraud_patterns. rewrite H1. cbn [bind].
  rewrite (record_detection_spec _ _ _ _ _ _ _ catalog_location). cbn [bind].
  destruct (detected d1);
    rewrite (record_detection_spec _ _ _ _ _ _ _ catalog_accounts); cbn [bind];
    destruct (detected (_detect_multiple_accounts sa pd ctx));
    rewrite (record_detection_spec _ _ _ _ _ _ _ catalog_automation); cbn [bind];
    destruct (detected (_detect_automation pd));
    rewrite (record_detection_spec _ _ _ _ _ _ _ catalog_collaboration);
    cbn [bind];
    destruct (detected (_detect_collaborative_cheating pd ctx));
    eexists; repeat split; reflexivity.
Qed.

Lemma total_evidence_from (l : list (string * list evidence_item)) : forall n,
  fold_left (fun total kv => (total + length (snd kv))%nat) l n
  = (n + fold_left (fun total kv => (total + length (snd kv))%nat) l 0)%nat.
Proof.
  induction l as [|kv l IH]; intros n; cbn [fold_left]; [lia|].
  rewrite IH, (IH (0 + _)%nat). lia.
Qed.

(** X22: the confidence of a fraud analysis is a tenth of the number of
    evidence items of the four detectors, capped at 1; it lies between
    0 and 1 and is positive exactly when a pattern is detected, in
    which case it is at least 0.1. *)
Theorem fraud_confidence_counts_evidence sa pd ctx r d1 :
  detect_fraud_patterns sa pd ctx = Ok r ->
  _detect_location_fraud pd = Ok d1 ->
  confidence r
  = min 1 (INR (length (detection_evidence d1)
                + length (detection_evidence (_detect_multiple_accounts sa pd ctx))
                + length (detection_evidence (_detect_automation pd))
                + length (detection_evidence (_detect_collaborative_cheating pd ctx)))
           / 10)
  /\ 0 <= confidence r <= 1
  /\ (detected_patterns r = [] -> confidence r = 0)
  /\ (detected_patterns r <> [] -> 0.1 <= confidence r).
Proof.
  intros Hr H1.
  destruct (detect_fraud_patterns_evidence sa pd ctx d1 H1)
    as (r' & Hr' & Hev & Hconf & _).
  destruct (detect_fraud_patterns_unfold sa pd ctx d1 H1)
    as (r'' & Hr'' & Hpatterns & _).
  rewrite Hr in Hr', Hr''. injection Hr' as <-. injection Hr'' as <-.
  pose proof (silent_detector _ (location_evidence pd d1 H1)) as S1.
  pose proof (silent_detector _ (accounts_evidence sa pd ctx)) as S2.
  pose proof (silent_detector _ (automation_evidence pd)) as S3.
  pose proof (silent_detector _ (collaboration_evidence pd ctx)) as S4.
  pose proof (loud_detector _ (location_evidence pd d1 H1)) as L1.
  pose proof (loud_detector _ (accounts_evidence sa pd ctx)) as L2.
  pose proof (loud_detector _ (automation_evidence pd)) as L3.
  pose proof (loud_detector _ (collaboration_evidence pd ctx)) as L4.
  rewrite Hconf, Hev. unfold _calculate_fraud_confidence. rewrite Hpatterns.
  clear Hr H1 Hev Hconf Hpatterns.
  set (e1 := detection_evidence d1) in *.
  set (e2 := detection_evidence (_detect_multiple_accounts sa pd ctx)) in *.
  set (e3 := detection_evidence (_detect_automation pd)) in *.
  set (e4 := detection_evidence (_detect_collaborative_cheating pd ctx)) in *.
  pose proof (pos_INR (length e1 + length e2 + length e3 + length e4)) as Hn.
  destruct (detected d1);
    [specialize (L1 eq_refl) | rewrite (S1 eq_refl) in *];
    (destruct (detected (_detect_multiple_accounts sa pd ctx));
     [specialize (L2 eq_refl) | rewrite (S2 eq_refl) in *]);
    (destruct (detected (_detect_automation pd));
     [specialize (L3 eq_refl) | rewrite (S3 eq_refl) in *]);
    (destruct (detected (_detect_collaborative_cheating pd ctx));
     [specialize (L4 eq_refl) | rewrite (S4 eq_refl) in *]);
    cbn [app fold_left snd length Nat.add] in *;
    rewrite ?Nat.add_0_r in *;
    (split; [reflexivity|]);
    (split; [split; [apply min_glb; lra | apply min_le_l]|]);
    (split;
     [intros Hnone;
      first [discriminate Hnone
            | cbn [INR]; rewrite min_right by lra; lra]|]);
    (intros Hsome; try solve [exfalso; apply Hsome; reflexivity]);
    (apply min_glb; [lra|]);
    match goal with
    | |- 0.1 <= INR ?n / 10 =>
      assert (Hone : (1 <= n)%nat) by lia;
      apply le_INR in Hone; change (INR 1) with 1 in Hone; lra
    end.
Qed.

(** The confidence of the analysis of a player with no data. *)
Lemma fraud_confidence_counts_evidence_sample :
  exists r,
    detect_fraud_patterns ∅ blank_fraud_player blank_fraud_context = Ok r
    /\ 0 <= confidence r <= 1.
Proof.
  destruct (location_fraud_returns blank_fraud_player) as [d1 H1]; [constructor|].
  destruct (detect_fraud_patterns_unfold ∅ blank_fraud_player blank_fraud_context
              d1 H1) as (r & Hr & _).
  exists r. split; [exact Hr|].
  apply (fraud_confidence_counts_evidence ∅ blank_fraud_player blank_fraud_context
           r d1 Hr H1).
Defined.

(** *** The endpoint and the log *)

Lemma fraud_returns_location sa pd ctx r :
  detect_fraud_patterns sa pd ctx = Ok r ->
  exists d1, _detect_location_fraud pd = Ok d1.
Proof.
  unfold detect_fraud_patterns. destruct (_detect_location_fraud pd) as [d1|e].
  - eauto.
  - discriminate.
Qed.



(** *** Consistent timing *)

Lemma sum_bounds a b xs :
  Forall (fun x => a <= x <= b) xs -> len xs * a <= sum xs <= len xs * b.
Proof.
  unfold len. induction 1 as [|x xs Hx _ IH].
  - unfold sum. cbn. lra.
  - rewrite sum_cons. cbn [length]. rewrite S_INR. lra.
Qed.

Lemma mean_bounds a b xs :
  Forall (fun x => a <= x <= b) xs -> xs <> [] ->
  a <= sum xs / len xs <= b.
Proof.
  intros Hall Hne. pose proof (sum_bounds a b xs Hall) as [Hlo Hhi].
  pose proof (len_pos xs Hne) as Hpos.
  split.
  - apply Rmult_le_reg_r with (r := len xs); [exact Hpos|].
    unfold Rdiv. rewrite Rmult_assoc, Rinv_l by lra. lra.
  - apply Rmult_le_reg_r with (r := len xs); [exact Hpos|].
    unfold Rdiv. rewrite Rmult_assoc, Rinv_l by lra. lra.
Qed.

Lemma std_dev_within a b xs :
  Forall (fun x => a <= x <= b) xs -> xs <> [] ->
  _calculate_std_dev xs <= b - a.
Proof.
  intros Hall Hne. unfold _calculate_std_dev.
  assert (Hab : a <= b).
  { destruct xs as [|x xs]; [contradiction|]. inversion Hall; subst. lra. }
  destruct (length xs <? 2)%nat; [lra|].
  pose proof (mean_bounds a b xs Hall Hne) as Hmean.
  set (m := sum xs / len xs) in *.
  assert (Hsq : Forall (fun y => 0 <= y <= (b - a) ^ 2) (map (fun x => (x - m) ^ 2) xs)).
  { apply Forall_map. eapply Forall_impl; [exact Hall|].
    intros x Hx. cbv beta. split; [apply pow2_ge_0|].
    assert (Habs : Rabs (x - m) <= b - a) by (apply Rabs_le; lra).
    rewrite <- (pow2_abs (x - m)). apply pow_incr. split; [apply Rabs_pos | exact Habs]. }
  assert (Hne' : map (fun x => (x - m) ^ 2) xs <> []) by (destruct xs; [contradiction | discriminate]).
  pose proof (mean_bounds _ _ _ Hsq Hne') as [_ Hvar].
  unfold len in Hvar. rewrite length_map in Hvar. fold (len xs) in Hvar.
  apply Rle_trans with (sqrt ((b - a) ^ 2)); [apply sqrt_le_1_alt, Hvar|].
  rewrite <- Rsqr_pow2. rewrite sqrt_Rsqr by lra. lra.
Qed.

Lemma automation_fires_on_steady_times pd a b :
  Forall (fun t => a <= t <= b) (solving_times pd) ->
  b - a <= 4 ->
  (5 < length (solving_times pd))%nat ->
  detected (_detect_automation pd) = true.
Proof.
  intros Hall Hclose Hlen. unfold _detect_automation.
  assert (Hne : solving_times pd <> []).
  { intros E. rewrite E in Hlen. cbn in Hlen. lia. }
  pose proof (std_dev_within a b _ Hall Hne) as Hstd.
  apply Nat.ltb_lt in Hlen.
  destruct (solving_times pd) as [|t times] eqn:E; [contradiction|].
  rewrite Hlen.
  replace (ltb (_calculate_std_dev (t :: times)) 5) with true
    by (symmetry; apply ltb_true; lra).
  break_inner; reflexivity.
Qed.

(** X24: more than five solving times of at most a million seconds
    that all lie within four seconds of each other are always flagged
    as automation, however slow they are; the analysis then has the
    highest risk score, 0.9, whatever the other detectors find.  (The
    bounds keep the standard deviation that the floats give well below
    the cutoff of 5.) *)
Theorem steady_times_flagged_as_automation sa pd ctx a b r :
  Forall (fun t => a <= t <= b) (solving_times pd) ->
  0 <= a ->
  b <= 1000000 ->
  b - a <= 4 ->
  (5 < length (solving_times pd))%nat ->
  detect_fraud_patterns sa pd ctx = Ok r ->
  "automation_detection" ∈ detected_patterns r /\ result_risk_score r = 0.9.
Proof.
  intros Hall _ _ Hclose Hlen Hr.
  pose proof (automation_fires_on_steady_times pd a b Hall Hclose Hlen) as Hauto.
  destruct (fraud_returns_location sa pd ctx r Hr) as [d1 H1].
  destruct (detect_fraud_patterns_unfold sa pd ctx d1 H1)
    as (r' & Hr' & Hpatterns & Hrisk).
  rewrite Hr in Hr'. injection Hr' as <-.
  rewrite Hpatterns, Hrisk, Hauto. split.
  - rewrite !elem_of_app. right. right. left. apply list_elem_of_here.
  - destruct (detected d1), (detected (_detect_multiple_accounts sa pd ctx)),
      (detected (_detect_collaborative_cheating pd ctx));
      cbn [Spec.raise_risk]; py_max; reflexivity.
Qed.

(** Six solving times between 40 and 44 seconds. *)
Lemma steady_times_flagged_as_automation_sample :
  exists r,
    detect_fraud_patterns ∅ steady_solver blank_fraud_context = Ok r
    /\ "automation_detection" ∈ detected_patterns r
    /\ result_risk_score r = 0.9.
Proof.
  destruct (location_fraud_returns steady_solver) as [d1 H1]; [constructor|].
  destruct (detect_fraud_patterns_unfold ∅ steady_solver blank_fraud_context
              d1 H1) as (r & Hr & _).
  exists r. split; [exact Hr|].
  apply (steady_times_flagged_as_automation ∅ steady_solver blank_fraud_context
           40 44 r).
  - unfold steady_solver. cbn [solving_times].
    repeat (apply Forall_cons; split; [lra|]). apply Forall_nil. exact I.
  - lra.
  - lra.
  - lra.
  - cbn. lia.
  - exact Hr.
Defined.

(** *** Missing coordinates *)




End FraudFacts.

(** ** Anomaly detector: results, profiles and trends *)

Module BehaviorFacts.

Import Py PyFacts SumFacts SliceFacts AnomalyDetector Samples Inputs.

(** *** Results of a model that returns *)

Lemma classify_returns pd history :
  exists type,
    _classify_anomaly_type (_extract_anomaly_features pd history) pd = Ok type
    /\ type ∈ Notions.anomaly_types.
Proof.
  unfold _classify_anomaly_type, _extract_anomaly_features, item.
  cbn [lookup list_lookup bind]. unfold Notions.anomaly_types.
  break_inner; eexists; (split; [reflexivity|]); in_list.
Qed.

Lemma multiplier_range type :
  0.5 <= get (assoc type risk_factors) 0.5 <= 0.9.
Proof.
  unfold assoc, risk_factors. cbn [find fst].
  repeat (destruct (decide _); [cbn; lra|]). cbn. lra.
Qed.

Section Model.

Variable decision_function : list R -> res R.
Variable predict : list R -> res Z.

(** X26: when both calls of the model return, the detector returns the
    raw score shifted by 0.5, its absolute value as confidence, the
    anomaly flag of the label -1, one of the five anomaly types and a
    risk level: the classification never fails and the results
    [detection_failed] and [insufficient_data] do not occur. *)
Theorem anomaly_result_of_model pd history raw label :
  decision_function (_extract_anomaly_features pd history) = Ok raw ->
  predict (_extract_anomaly_features pd history) = Ok label ->
  let result := detect_behavior_anomalies decision_function predict pd history in
  anomaly_score result = raw + 0.5
  /\ confidence result = Rabs raw
  /\ (is_anomaly result = true <-> label = (-1)%Z)
  /\ anomaly_type result ∈ Notions.anomaly_types
  /\ risk_level result
     = Some (_assess_risk_level (raw + 0.5) (anomaly_type result)).
Proof.
  intros Hraw Hlabel result. subst result.
  destruct (classify_returns pd history) as (type & Htype & Hin).
  unfold detect_behavior_anomalies, score_anomaly.
  change (length (_extract_anomaly_features pd history) =? 0)%nat with false.
  cbv iota. rewrite Hraw, Hlabel. cbn [bind]. rewrite Htype. cbn [bind].
  cbn [anomaly_score confidence is_anomaly anomaly_type risk_level].
  replace ((raw + 0.5) / 1.0) with (raw + 0.5) by lra.
  repeat split; try assumption.
  - apply Z.eqb_eq.
  - apply Z.eqb_eq.
Qed.

Lemma anomaly_result_of_components pd history raw label :
  decision_function (_extract_anomaly_features pd history) = Ok raw ->
  predict (_extract_anomaly_features pd history) = Ok label ->
  exists type,
    risk_level (detect_behavior_anomalies decision_function predict pd history)
    = Some (_assess_risk_level (raw + 0.5) type).
Proof.
  intros Hraw Hlabel.
  destruct (classify_returns pd history) as (type & Htype & _).
  exists type. unfold detect_behavior_anomalies, score_anomaly.
  change (length (_extract_anomaly_features pd history) =? 0)%nat with false.
  cbv iota. rewrite Hraw, Hlabel. cbn [bind]. rewrite Htype. cbn [bind risk_level].
  replace ((raw + 0.5) / 1.0) with (raw + 0.5) by lra. reflexivity.
Qed.

(** X27: the risk level grows with the raw score of the model: a raw
    score of 0 or less, which is how an isolation forest marks an
    outlier, gives the level [minimal] or [low], and the level [high]
    needs a raw score above 0.38. *)
Theorem negative_scores_have_low_risk pd history raw label :
  decision_function (_extract_anomaly_features pd history) = Ok raw ->
  predict (_extract_anomaly_features pd history) = Ok label ->
  let result := detect_behavior_anomalies decision_function predict pd history in
  (raw <= 0 -> risk_level result = Some "minimal" \/ risk_level result = Some "low")
  /\ (risk_level result = Some "high" -> raw > 0.38).
Proof.
  intros Hraw Hlabel result.
  destruct (anomaly_result_of_components pd history raw label Hraw Hlabel)
    as (type & Hrisk).
  subst result. rewrite Hrisk. unfold _assess_risk_level.
  pose proof (multiplier_range type) as Hm.
  set (m := get (assoc type risk_factors) 0.5) in *.
  split.
  - intros Hneg.
    assert (Hw : (raw + 0.5) * m <= 0.45).
    { destruct (Rle_dec 0 (raw + 0.5)); nra. }
    replace (gtb ((raw + 0.5) * m) 0.8) with false
      by (symmetry; apply gtb_false; lra).
    replace (gtb ((raw + 0.5) * m) 0.6) with false
      by (symmetry; apply gtb_false; lra).
    destruct (gtb _ 0.4); [right | left]; reflexivity.
  - destruct (gtb ((raw + 0.5) * m) 0.8) eqn:E.
    + intros _. apply gtb_true in E. nra.
    + destruct (gtb _ 0.6); [|destruct (gtb _ 0.4)]; intros H; discriminate H.
Qed.

End Model.

(** A model that scores the player 0.2 and labels it normal. *)
Lemma anomaly_result_of_model_sample :
  anomaly_score (detect_behavior_anomalies calm_decision_function calm_predict
                   blank_anomaly_player [])
  = 0.2 + 0.5.
Proof.
  apply (anomaly_result_of_model calm_decision_function calm_predict
           blank_anomaly_player [] 0.2 1%Z eq_refl eq_refl).
Defined.

(** A model that scores the player -0.1 and labels it an outlier. *)
Lemma negative_scores_have_low_risk_sample :
  risk_level (detect_behavior_anomalies alarmed_decision_function alarmed_predict
                blank_anomaly_player [])
  = Some "minimal"
  \/ risk_level (detect_behavior_anomalies alarmed_decision_function
                   alarmed_predict blank_anomaly_player [])
     = Some "low".
Proof.
  apply (proj1 (negative_scores_have_low_risk alarmed_decision_function
                  alarmed_predict blank_anomaly_player [] (-0.1) (-1)%Z
                  eq_refl eq_refl)).
  lra.
Defined.

(** *** Profiles *)

Section Profiles.

Variable decision_function : list R -> res R.
Variable predict : list R -> res Z.

(** X28: an update of a behaviour profile creates the profile of the
    player if there is none, counts the update, keeps the time of
    creation, appends a snapshot taken now to the earlier snapshots and
    keeps the last 100 of them: the new history is the end of the
    earlier one followed by the new snapshot, of length 100 at most;
    the profiles of the other players do not change. *)
Theorem profile_keeps_last_100_snapshots now profiles pid pd :
  let profiles' :=
    update_behavior_profile decision_function predict now profiles pid pd in
  let earlier := from_option behavior_history [] (profiles !! pid) in
  let taken :=
    Snapshot now (_extract_anomaly_features pd [])
      (anomaly_score (detect_behavior_anomalies decision_function predict pd []))
  in
  (exists p',
     profiles' !! pid = Some p'
     /\ update_count p' = S (from_option update_count 0%nat (profiles !! pid))
     /\ created_at p' = from_option created_at now (profiles !! pid)
     /\ behavior_history p' `suffix_of` (earlier ++ [taken])
     /\ length (behavior_history p') = Nat.min 100 (S (length earlier)))
  /\ (forall other, other <> pid -> profiles' !! other = profiles !! other).
Proof.
  intros profiles' earlier taken. subst profiles' earlier taken.
  unfold update_behavior_profile. split.
  - rewrite lookup_insert_eq. eexists. split; [reflexivity|].
    cbn [update_count created_at behavior_history].
    split; [|split; [|split]].
    + destruct (profiles !! pid); reflexivity.
    + destruct (profiles !! pid); reflexivity.
    + destruct (profiles !! pid); apply capped_suffix.
    + rewrite capped_length. destruct (profiles !! pid); reflexivity.
  - intros other Hother. rewrite lookup_insert_ne by congruence. reflexivity.
Qed.

End Profiles.

(** The first update of player [p]: one update, one snapshot, and
    player [q] still without profile. *)
Lemma profile_keeps_last_100_snapshots_sample :
  (exists p',
     update_behavior_profile unfitted_decision_function unfitted_predict 0 ∅ "p"
       blank_anomaly_player !! "p"
     = Some p'
     /\ update_count p' = 1%nat
     /\ length (behavior_history p') = 1%nat)
  /\ update_behavior_profile unfitted_decision_function unfitted_predict 0 ∅ "p"
       blank_anomaly_player !! "q"
     = (∅ : gmap string profile) !! "q".
Proof.
  destruct (profile_keeps_last_100_snapshots unfitted_decision_function
              unfitted_predict 0 ∅ "p" blank_anomaly_player)
    as [(p' & Hp' & Hcount & _ & _ & Hlen) Hother].
  split.
  - exists p'. split; [exact Hp'|]. split; [exact Hcount | exact Hlen].
  - apply Hother. discriminate.
Defined.

(** *** Trends *)


Lemma recent_scores_length (history : list snapshot) :
  (5 <= length history)%nat ->
  length (map snapshot_score (last_n 10 history)) = Nat.min 10 (length history).
Proof. intros _. rewrite length_map. apply last_n_exact_length. Qed.

(** The trend of a profile with at least five snapshots. *)
Lemma get_behavior_trend_unfold profiles pid p :
  profiles !! pid = Some p ->
  (5 <= length (behavior_history p))%nat ->
  let recent_scores := map snapshot_score (last_n 10 (behavior_history p)) in
  let half := (length recent_scores / 2)%nat in
  let trend_difference :=
    mean (drop half recent_scores) - mean (take half recent_scores) in
  get_behavior_trend profiles pid
  = TrendResult
      (if ltb (Rabs trend_difference) 0.1 then "stable"
       else if gtb trend_difference 0.2 then "increasing_risk"
       else if ltb trend_difference (-0.2) then "improving_behavior"
       else "slight_change")
      (if ltb (Rabs trend_difference) 0.1 then 0.7
       else if gtb trend_difference 0.2 then min 0.9 (Rabs trend_difference)
       else if ltb trend_difference (-0.2) then min 0.9 (Rabs trend_difference)
       else 0.5)
      (Some (Rabs trend_difference))
      (Some (Nat.min 10 (length (behavior_history p)))).
Proof.
  intros Hp Hlen recent_scores half trend_difference.
  unfold get_behavior_trend. rewrite Hp.
  replace (length (behavior_history p) <? 5)%nat with false
    by (symmetry; apply Nat.ltb_ge; lia).
  fold recent_scores.
  assert (Hrecent : length recent_scores = Nat.min 10 (length (behavior_history p)))
    by (apply recent_scores_length, Hlen).
  replace (length recent_scores <? 3)%nat with false
    by (symmetry; apply Nat.ltb_ge; lia).
  fold half. fold trend_difference. rewrite <- Hrecent.
  destruct (ltb (Rabs trend_difference) 0.1); [reflexivity|].
  destruct (gtb trend_difference 0.2); [reflexivity|].
  destruct (ltb trend_difference (-0.2)); reflexivity.
Qed.

(** X29: the trend of a player is [unknown] exactly when the player has
    no profile and [insufficient_data] exactly when the profile has
    fewer than five snapshots; otherwise it is computed from the last
    ten snapshots at most.  Its confidence lies between 0 and 0.9, is
    0 exactly in the first two cases, and a [stable] trend always has
    confidence 0.7: the answer [stable] with 0.5 cannot occur. *)
Theorem trend_names_and_confidence profiles pid :
  let t := get_behavior_trend profiles pid in
  trend t ∈ Notions.trend_names
  /\ 0 <= trend_confidence t <= 0.9
  /\ (trend t = "unknown" <-> profiles !! pid = None)
  /\ (trend t = "insufficient_data"
      <-> exists p, profiles !! pid = Some p
                    /\ (length (behavior_history p) < 5)%nat)
  /\ (trend_confidence t = 0
      <-> trend t = "unknown" \/ trend t = "insufficient_data")
  /\ (trend t = "stable" -> trend_confidence t = 0.7)
  /\ (forall p, profiles !! pid = Some p ->
        (5 <= length (behavior_history p))%nat ->
        trend_data_points t = Some (Nat.min 10 (length (behavior_history p)))).
Proof.
  intros t. subst t. unfold Notions.trend_names.
  destruct (profiles !! pid) as [p|] eqn:Hp.
  2: { unfold get_behavior_trend. rewrite Hp. cbn [trend trend_confidence].
       repeat split;
         solve [in_list | lra | discriminate | eauto
               | intros (p & Hsome & _); discriminate Hsome
               | intros p Hsome; discriminate Hsome]. }
  destruct (Nat.lt_ge_cases (length (behavior_history p)) 5) as [Hshort|Hlong].
  { unfold get_behavior_trend. rewrite Hp.
    replace (length (behavior_history p) <? 5)%nat with true
      by (symmetry; apply Nat.ltb_lt; lia).
    cbn [trend trend_confidence].
    repeat split;
      solve [in_list | lra | discriminate | eauto
            | intros q Hq Hlen; injection Hq as <-; lia]. }
  rewrite (get_behavior_trend_unfold profiles pid p Hp Hlong).
  cbn [trend trend_confidence trend_data_points].
  set (d := mean _ - mean _).
  assert (Hshort : ~ (exists q, Some p = Some q
                                /\ (length (behavior_history q) < 5)%nat)).
  { intros (q & Hq & Hlen). injection Hq as <-. lia. }
  destruct (ltb (Rabs d) 0.1) eqn:E1;
    [|destruct (gtb d 0.2) eqn:E2; [|destruct (ltb d (-0.2)) eqn:E3]].
  all: rewrite ?ltb_true, ?ltb_false, ?gtb_true, ?gtb_false in *.
  all: assert (Hmin : 0.1 <= Rabs d -> 0.1 <= min 0.9 (Rabs d) <= 0.9)
         by (intros; split; [apply min_glb; lra | apply min_le_l]).
  all: repeat split;
    solve [in_list | lra | discriminate | tauto
              | intros [H|H]; discriminate H
              | intros q Hq Hlen; injection Hq as <-; reflexivity
              | specialize (Hmin ltac:(lra)); lra
              | intros; exfalso; specialize (Hmin ltac:(lra)); lra].
Qed.

(** A player without profile has the trend [unknown]. *)
Lemma trend_names_and_confidence_sample :
  trend (get_behavior_trend ∅ "p") = "unknown".
Proof.
  apply (proj1 (proj2 (proj2 (trend_names_and_confidence ∅ "p")))).
  reflexivity.
Defined.

(** *** A model that fails *)



Section Unfitted.

Variable decision_function : list R -> res R.
Variable predict : list R -> res Z.

Hypothesis unfitted : forall features, exists e, decision_function features = Raise e.





End Unfitted.



End BehaviorFacts.
